(** * estrus-log, python-service: a shallow embedding of the scripts

    The service is glue code around pretrained models.  What the scripts
    compute themselves is embedded here function by function: the label
    parser and the train/test split of [split_data.py], the conversion loop
    of [unpack_zips.py], the detection crop of [segment.py], the HTTP client
    of [sam3_cloud.py], the mask crop and the two endpoints of [main.py], the
    ingestion loop of [ingest.py] and the classifiers of [eval.py],
    [train_classifier.py] and [sam3_modal.py].

    Third-party code (Pillow, requests, torch, transformers, open_clip,
    scikit-learn, supabase, the file system) is not embedded: every call
    into it is a field of an interface class, and its outcome is either a
    value or a raised exception.  Output and other effects are recorded as
    a trace of events.

    Python strings are modelled by [string] (8-bit characters): [upper] and
    [lower] act on the ASCII letters, as Python does on ASCII text.

    Embedded besides: the start-up and the health check of [main.py], the
    wrapper [evf_sam_wrapper.py], the readiness check and [segment_and_save]
    of [sam3_cloud.py], the data collection of [train_classifier.py], the
    evaluation loops of [eval.py], and the batch pipeline and the HTTP
    endpoints of [sam3_modal.py].  Code that assigns module variables runs
    in a state monad over the record of these variables.  Reads of the file
    system ([os.listdir], [os.path.isdir], [os.path.exists]) are total
    functions, and progress bars are left out. *)

From Stdlib Require Import List String Ascii Bool ZArith QArith Qround Lia Lqa.
From Stdlib Require Import Permutation DecimalString.
Import ListNotations.

Set Implicit Arguments.
Set Warnings "-register-all".
Local Open Scope string_scope.
Local Open Scope list_scope.

(** ** Python built-ins used by the scripts *)

Module Py.

(** [c.upper()] and [c.lower()] on one character. *)
Definition upper_ascii (c : ascii) : ascii :=
  let n := N_of_ascii c in
  if (97 <=? n)%N && (n <=? 122)%N then ascii_of_N (n - 32) else c.

Definition lower_ascii (c : ascii) : ascii :=
  let n := N_of_ascii c in
  if (65 <=? n)%N && (n <=? 90)%N then ascii_of_N (n + 32) else c.

Fixpoint str_map (f : ascii -> ascii) (s : string) : string :=
  match s with
  | EmptyString => EmptyString
  | String c r => String (f c) (str_map f r)
  end.

(** [s.upper()], [s.lower()]. *)
Definition upper (s : string) : string := str_map upper_ascii s.
Definition lower (s : string) : string := str_map lower_ascii s.

(** [s.capitalize()]: first character upper-cased, the rest lower-cased. *)
Definition capitalize (s : string) : string :=
  match s with
  | EmptyString => EmptyString
  | String c r => String (upper_ascii c) (lower r)
  end.

(** [s.replace(a, b)] for one-character [a] and [b]. *)
Definition replace_char (a b : ascii) (s : string) : string :=
  str_map (fun c => if Ascii.eqb c a then b else c) s.

(** [s.split(sep)] for a one-character separator: never an empty list, and
    empty parts are kept. *)
Fixpoint split (sep : ascii) (s : string) : list string :=
  match s with
  | EmptyString => [EmptyString]
  | String c r =>
      if Ascii.eqb c sep then EmptyString :: split sep r
      else match split sep r with
           | [] => [String c EmptyString]
           | p :: ps => String c p :: ps
           end
  end.

(** [x in xs] for a set or list of strings. *)
Definition str_in (x : string) (xs : list string) : bool :=
  existsb (String.eqb x) xs.

(** [s.startswith(p)]. *)
Definition startswith (s p : string) : bool := String.prefix p s.

Fixpoint str_rev_onto (s acc : string) : string :=
  match s with
  | EmptyString => acc
  | String c r => str_rev_onto r (String c acc)
  end.

Definition str_rev (s : string) : string := str_rev_onto s EmptyString.

(** [s.endswith(p)], and [s.endswith((p1, ..., pn))] for a tuple. *)
Definition endswith (s p : string) : bool :=
  String.prefix (str_rev p) (str_rev s).

Definition endswith_any (s : string) (ps : list string) : bool :=
  existsb (endswith s) ps.

(** [s.rfind(c)] for one character: the last index of [c], or [None] for
    Python's -1. *)
Fixpoint rfind_from (c : ascii) (s : string) (i : nat) (last : option nat)
  : option nat :=
  match s with
  | EmptyString => last
  | String d r =>
      rfind_from c r (S i) (if Ascii.eqb d c then Some i else last)
  end.

Definition rfind (c : ascii) (s : string) : option nat := rfind_from c s 0 None.

(** [str(n)] for an integer. *)
Definition str_of_Z (n : Z) : string := NilZero.string_of_int (Z.to_int n).

(** [os.path.join(a, b)] of posixpath. *)
Definition path_join (a b : string) : string :=
  if startswith b "/" then b
  else if (a =? "") || endswith a "/" then a ++ b
  else a ++ "/" ++ b.

(** [os.path.splitext(p)] of posixpath: the extension starts at the last dot
    of the last path component, unless only dots precede it there. *)
Fixpoint all_dots_between (s : string) (i j : nat) : bool :=
  match j with
  | O => true
  | S j' =>
      if Nat.leb i j' then
        match String.get j' s with
        | Some c => Ascii.eqb c "." && all_dots_between s i j'
        | None => false
        end
      else true
  end.

Definition splitext (p : string) : string * string :=
  let filenameIndex :=
    match rfind "/" p with Some i => S i | None => O end in
  match rfind "." p with
  | Some dotIndex =>
      if Nat.leb filenameIndex dotIndex
         && negb (all_dots_between p filenameIndex dotIndex)
      then (String.substring 0 dotIndex p,
            String.substring dotIndex (String.length p - dotIndex) p)
      else (p, "")
  | None => (p, "")
  end.

(** [int(q)]: truncation toward zero. *)
Definition int_of_Q (q : Q) : Z := Z.quot (Qnum q) (Zpos (Qden q)).

(** [xs[:k]] and [xs[k:]] for any integer [k]: a negative index counts from
    the end, and both are clamped to the list. *)
Definition slice_index {A} (xs : list A) (k : Z) : nat :=
  let n := Z.of_nat (List.length xs) in
  Z.to_nat (if (k <? 0)%Z then Z.max 0 (n + k) else Z.min k n).

Definition slice_to {A} (xs : list A) (k : Z) : list A :=
  firstn (slice_index xs k) xs.

Definition slice_from {A} (xs : list A) (k : Z) : list A :=
  skipn (slice_index xs k) xs.

End Py.

(** ** Exceptions and effects

    A call either returns or raises.  Only subclasses of [Exception] are
    modelled, so [try_except] is Python's [except Exception].  The class of
    an exception is kept as far as some [except] clause of the scripts
    tests it. *)

Module Eff.

Inductive exn_class : Type :=
| ValueError           (* ValueError and its subclasses *)
| TypeError
| KeyError
| IndexError
| AttributeError
| ImportError
| Timeout              (* requests.exceptions.Timeout *)
| ConnectionError      (* requests.exceptions.ConnectionError *)
| ConnectTimeout       (* a subclass of both of them *)
| OtherException.

Inductive exn : Type :=
| Exc (cls : exn_class) (msg : string)
| HTTPException (status_code : Z) (detail : string).

(** [str(e)]. *)
Definition str_of_exn (e : exn) : string :=
  match e with
  | Exc _ msg => msg
  | HTTPException code detail => Py.str_of_Z code ++ ": " ++ detail
  end.

Definition is_ValueError (e : exn) : bool :=
  match e with Exc ValueError _ => true | _ => false end.

Definition is_ImportError (e : exn) : bool :=
  match e with Exc ImportError _ => true | _ => false end.

Definition is_Timeout (e : exn) : bool :=
  match e with Exc Timeout _ | Exc ConnectTimeout _ => true | _ => false end.

Definition is_ConnectionError (e : exn) : bool :=
  match e with
  | Exc ConnectionError _ | Exc ConnectTimeout _ => true
  | _ => false
  end.

Inductive outcome (A : Type) : Type :=
| Ok (a : A)
| Raised (e : exn).

Arguments Ok {A} a.
Arguments Raised {A} e.

Section Monad.

Variable E : Type.

(** A computation: the events it produced, and how it ended. *)
Definition M (A : Type) : Type := (list E * outcome A)%type.

Definition ret {A} (a : A) : M A := ([], Ok a).

Definition bind {A B} (m : M A) (k : A -> M B) : M B :=
  match m with
  | (t, Ok a) => let (t', r) := k a in (t ++ t', r)
  | (t, Raised e) => (t, Raised e)
  end.

Definition raise {A} (e : exn) : M A := ([], Raised e).

(** A call with no recorded effect. *)
Definition call {A} (o : outcome A) : M A := ([], o).

(** A call recorded in the trace, whatever its outcome. *)
Definition effect {A} (ev : E) (o : outcome A) : M A := ([ev], o).

Definition emit (ev : E) : M unit := ([ev], Ok tt).

(** [try: m  except Exception as e: h e]. *)
Definition try_except {A} (m : M A) (h : exn -> M A) : M A :=
  match m with
  | (t, Ok a) => (t, Ok a)
  | (t, Raised e) => let (t', r) := h e in (t ++ t', r)
  end.

(** [for x in xs: body x]. *)
Fixpoint for_each {A} (xs : list A) (body : A -> M unit) : M unit :=
  match xs with
  | [] => ret tt
  | x :: xs' => bind (body x) (fun _ => for_each xs' body)
  end.

End Monad.

Arguments ret {E A} a.
Arguments raise {E A} e.
Arguments call {E A} o.

Declare Scope eff_scope.
Delimit Scope eff_scope with eff.
Notation "x <- m ;; k" := (bind m (fun x => k))
  (at level 61, m at next level, right associativity) : eff_scope.
Notation "m ;;; k" := (bind m (fun _ => k))
  (at level 61, right associativity) : eff_scope.

End Eff.

Import Eff.
Local Open Scope eff_scope.

(** ** Module-level variables and accumulating loops

    A function that assigns module-level variables is a computation on
    their state: what it has assigned when it raises stays assigned, so that
    the handler of a [try], and whoever catches the exception, sees it. *)

Module EffState.

Section Monad.

Variables S E : Type.

Definition SM (A : Type) : Type := S -> list E * S * outcome A.

Definition sret {A} (a : A) : SM A := fun s => ([], s, Ok a).

Definition sbind {A B} (m : SM A) (k : A -> SM B) : SM B :=
  fun s =>
    match m s with
    | (t, s', Ok a) => let '(t', s'', o) := k a s' in (t ++ t', s'', o)
    | (t, s', Raised e) => (t, s', Raised e)
    end.

Definition sraise {A} (e : exn) : SM A := fun s => ([], s, Raised e).

(** Reading the variables, and an assignment to them. *)
Definition sget : SM S := fun s => ([], s, Ok s).

Definition smodify (f : S -> S) : SM unit := fun s => ([], f s, Ok tt).

(** A computation that assigns nothing. *)
Definition slift {A} (m : M E A) : SM A := fun s => (fst m, s, snd m).

(** [try: m except Exception as e: h e]: the handler starts from the
    variables as the body left them. *)
Definition stry {A} (m : SM A) (h : exn -> SM A) : SM A :=
  fun s =>
    match m s with
    | (t, s', Ok a) => (t, s', Ok a)
    | (t, s', Raised e) => let '(t', s'', o) := h e s' in (t ++ t', s'', o)
    end.

End Monad.

Arguments sret {S E A} a.
Arguments sbind {S E A B} m k.
Arguments sraise {S E A} e.
Arguments sget {S E}.
Arguments smodify {S E} f.
Arguments slift {S E A} m.
Arguments stry {S E A} m h.

Declare Scope state_scope.
Delimit Scope state_scope with st.
Notation "x <- m ;; k" := (sbind m (fun x => k))
  (at level 61, m at next level, right associativity) : state_scope.
Notation "m ;;; k" := (sbind m (fun _ => k))
  (at level 61, right associativity) : state_scope.

(** [for x in xs: acc = body(acc, x)]: a loop that builds up a value; an
    exception in the body ends it. *)
Fixpoint fold_each {E A B} (xs : list A) (acc : B) (body : B -> A -> M E B)
  : M E B :=
  match xs with
  | [] => ret acc
  | x :: xs' => bind (body acc x) (fun acc' => fold_each xs' acc' body)
  end.

End EffState.

Import EffState.

(** ** The outside world

    Effects the scripts have on it, as events; and what they read from it or
    call in it, as interface classes. *)

(** Images, arrays and model handles are values of third-party libraries. *)
Class Carriers : Type := {
  Image : Type;        (* PIL.Image.Image *)
  Bytes : Type;        (* bytes *)
  Embedding : Type     (* a numpy vector of floats *)
}.

(** Python floats are modelled by rationals: comparisons, [max], [min] and
    sums are exact. *)
Definition float : Type := Q.

(** An (xmin, ymin, xmax, ymax) tuple. *)
Definition box (N : Type) : Type := (N * N * N * N)%type.

(** JSON values, as [response.json()] and supabase rows give them. *)
Inductive json : Type :=
| JNull
| JBool (b : bool)
| JNum (q : Q)
| JStr (s : string)
| JArr (xs : list json)
| JObj (kvs : list (string * json)).

(** A row of the table [reference_images], as [ingest.py] builds it. *)
Record reference_row : Type := {
  row_label : string;
  row_embedding : list float;
  row_image_path : string;
  row_filename : string;
  row_original_path : string
}.

Section Events.

Context {C : Carriers}.

(** The calls by which a script acts on the outside world.  An event records
    that the call was made; whether it succeeded is its outcome. *)
Inductive event : Type :=
| Print (s : string)                                   (* print(s) *)
| Makedirs (path : string)                             (* os.makedirs *)
| Copy2 (src dst : string)                             (* shutil.copy2 *)
| ExtractAll (zip_path dst : string)                   (* ZipFile.extractall *)
| Rmtree (path : string)                               (* shutil.rmtree *)
| ImageSave (img : Image) (path : string) (format : option string)
    (quality : option Z)                               (* img.save(path, ...) *)
| HttpPost (url : string) (img_base64 prompt bg_mode bg_color : string)
    (timeout : Z)                                      (* requests.post *)
| TableDelete (table : string)                         (* supabase delete *)
| TableInsert (table : string) (row : reference_row)   (* supabase insert *)
| Rpc (fn : string) (query : list float) (match_count : Z)
| Sklearn (fn : string).                               (* a scikit-learn call *)

End Events.

(** The file system, as the scripts read it. *)
Class FileSystem : Type := {
  path_exists : string -> bool;                        (* os.path.exists *)
  isdir : string -> bool;                              (* os.path.isdir *)
  listdir : string -> list string                      (* os.listdir *)
}.

(** [random.shuffle]: the [i]-th call of a run permutes its list in some way. *)
Class Random : Type := {
  shuffle : forall A : Type, nat -> list A -> list A;
  shuffle_perm : forall A i (xs : list A), Permutation xs (shuffle i xs)
}.

(** ** split_data.py *)

Module SplitData.

Definition valid_stages : list string :=
  ["PROESTRUS"; "ESTRUS"; "METESTRUS"; "DIESTRUS"].

(** The loop of [parse_label] over the parts of the name. *)
Fixpoint parse_label_parts (parts : list string) : string :=
  match parts with
  | [] => "UNKNOWN"
  | part :: rest =>
      let upper_part := Py.upper part in
      let upper_part :=
        if upper_part =? "PROESTTRUS" then "PROESTRUS" else upper_part in
      if Py.str_in upper_part valid_stages then upper_part
      else parse_label_parts rest
  end.

Definition parse_label (filename : string) : string :=
  let parts := Py.split "_" (Py.replace_char "." "_" filename) in
  parse_label_parts parts.

Definition valid_exts : list string :=
  [".jpg"; ".jpeg"; ".png"; ".webp"; ".bmp"].

(** [os.path.splitext(f)[1].lower() in valid_exts]. *)
Definition eligible (f : string) : bool :=
  Py.str_in (Py.lower (snd (Py.splitext f))) valid_exts.

(** [files_by_label]: a dict keeps its keys in insertion order. *)
Definition files_dict : Type := list (string * list (string * string)).

Fixpoint dict_append (d : files_dict) (label : string) (item : string * string)
  : files_dict :=
  match d with
  | [] => [(label, [item])]
  | (k, items) :: d' =>
      if k =? label then (k, items ++ [item]) :: d'
      else (k, items) :: dict_append d' label item
  end.

(** [d[label] = items]: an existing key keeps its place. *)
Fixpoint dict_set (d : files_dict) (label : string)
  (items : list (string * string)) : files_dict :=
  match d with
  | [] => [(label, items)]
  | (k, old) :: d' =>
      if k =? label then (k, items) :: d'
      else (k, old) :: dict_set d' label items
  end.

Section Script.

Context {C : Carriers} {FS : FileSystem} {R : Random}.

Definition stage_dirs : list string :=
  ["PROESTRUS"; "ESTRUS"; "METESTRUS"; "DIESTRUS"; "UNKNOWN"].

(** The class-subfolder branch: one entry per subfolder. *)
Definition collect_subfolders (source_dir : string) (subfolders : list string)
  : files_dict :=
  fold_left
    (fun d label =>
       let label_path := Py.path_join source_dir label in
       let label_files := filter eligible (listdir label_path) in
       dict_set d label
         (map (fun f => (f, Py.path_join label_path f)) label_files))
    subfolders [].

(** The flat branch: files grouped by the label parsed from their name. *)
Definition collect_flat (source_dir : string) : files_dict :=
  let files := filter eligible (listdir source_dir) in
  fold_left
    (fun d f => dict_append d (parse_label f) (f, Py.path_join source_dir f))
    files [].

(** The split of one label's items, after the shuffle. *)
Definition split_idx (items : list (string * string)) (split_ratio : float)
  : Z :=
  Py.int_of_Q (inject_Z (Z.of_nat (List.length items)) * split_ratio).

Definition train_items (items : list (string * string)) (split_ratio : float)
  : list (string * string) :=
  Py.slice_to items (split_idx items split_ratio).

Definition test_items (items : list (string * string)) (split_ratio : float)
  : list (string * string) :=
  Py.slice_from items (split_idx items split_ratio).

Definition copy_items (dir label : string) (items : list (string * string))
  : M event unit :=
  for_each items
    (fun it => emit (Copy2 (snd it) (Py.path_join (Py.path_join dir label) (fst it)))).

(** The body of the "Split and copy" loop for the [i]-th label. *)
Definition split_label (train_dir test_dir : string) (split_ratio : float)
  (i : nat) (label : string) (items : list (string * string)) : M event unit :=
  let items := shuffle i items in
  copy_items train_dir label (train_items items split_ratio) ;;;
  copy_items test_dir label (test_items items split_ratio).

Fixpoint split_labels (train_dir test_dir : string) (split_ratio : float)
  (i : nat) (d : files_dict) : M event unit :=
  match d with
  | [] => ret tt
  | (label, items) :: d' =>
      split_label train_dir test_dir split_ratio i label items ;;;
      split_labels train_dir test_dir split_ratio (S i) d'
  end.

Definition split_dataset (source_dir output_dir : string) (split_ratio : float)
  : M event unit :=
  if negb (path_exists source_dir) then
    emit (Print ("Source directory " ++ source_dir ++ " not found."))
  else
    let train_dir := Py.path_join output_dir "train" in
    let test_dir := Py.path_join output_dir "test" in
    for_each stage_dirs
      (fun stage =>
         emit (Makedirs (Py.path_join train_dir stage)) ;;;
         emit (Makedirs (Py.path_join test_dir stage))) ;;;
    let subfolders :=
      filter (fun d => isdir (Py.path_join source_dir d)) (listdir source_dir) in
    files_by_label <-
      match subfolders with
      | _ :: _ =>
          emit (Print "Detected Class Subfolder Structure.") ;;;
          ret (collect_subfolders source_dir subfolders)
      | [] =>
          emit (Print "Detected Flat Directory Structure.") ;;;
          ret (collect_flat source_dir)
      end ;;
    emit (Print "Found images distributed across labels:") ;;;
    for_each files_by_label
      (fun kv =>
         emit (Print ("  - " ++ fst kv ++ ": "
                      ++ Py.str_of_Z (Z.of_nat (List.length (snd kv)))))) ;;;
    split_labels train_dir test_dir split_ratio 0 files_by_label ;;;
    emit (Print (String "010" "Dataset split complete!")) ;;;
    emit (Print ("Train: " ++ train_dir)) ;;;
    emit (Print ("Test: " ++ test_dir)).

End Script.

End SplitData.

(** ** Third-party libraries *)

(** Pillow.  [crop] takes ints and floats alike; [save] writes a file and
    [save_bytes] stands for saving into a [BytesIO] buffer and reading it. *)
Class PIL {C : Carriers} : Type := {
  Image_open : string -> outcome Image;
  Image_open_bytes : Bytes -> outcome Image;
  mode : Image -> string;
  size : Image -> Z * Z;
  convert : Image -> string -> outcome Image;
  crop : Image -> box float -> outcome Image;
  save : Image -> string -> option string -> option Z -> outcome unit;
  save_bytes : Image -> string -> Z -> outcome Bytes
}.

(** [zipfile]: opening the archive and extracting it, and what [os.walk]
    finds in the directory it was extracted to. *)
Class ZipFiles : Type := {
  extractall : string -> string -> outcome unit;
  walk_extracted : string -> string -> list (string * list string * list string)
}.

Section Calls.

Context {C : Carriers} {P : PIL}.

(** [img.save(path, format, quality=q)]. *)
Definition Image_save (img : Image) (path : string) (format : option string)
  (quality : option Z) : M event unit :=
  effect (ImageSave img path format quality) (save img path format quality).

(** [xs[i]] on a list. *)
Definition getitem {A} (xs : list A) (i : nat) : M event A :=
  match nth_error xs i with
  | Some x => ret x
  | None => raise (Exc IndexError "index out of range")
  end.

End Calls.

(** ** unpack_zips.py *)

Module UnpackZips.

Section Script.

Context {C : Carriers} {P : PIL} {FS : FileSystem} {ZF : ZipFiles}.

Definition image_suffixes : list string := [".heic"; ".jpg"; ".jpeg"; ".png"].

(** The label a zip is processed as. *)
Definition label_of (zip_name : string) : string :=
  let label := Py.upper (fst (Py.splitext zip_name)) in
  if label =? "ESTRUS" then "ESTRUS" else label.

(** Where a converted file goes. *)
Definition new_name (file : string) : string :=
  fst (Py.splitext file) ++ ".jpg".

(** The body of the inner loop, for one file found under [root]. *)
Definition convert_file (target_dir root file : string) : M event unit :=
  if Py.startswith file "._" then ret tt
  else if Py.endswith_any (Py.lower file) image_suffixes then
    let src := Py.path_join root file in
    try_except
      (img <- call (Image_open src) ;;
       img <- (if negb (mode img =? "RGB") then call (convert img "RGB")
               else ret img) ;;
       let dst := Py.path_join target_dir (new_name file) in
       Image_save img dst (Some "JPEG") (Some 90%Z))
      (fun e =>
         emit (Print ("Failed to convert " ++ file ++ ": " ++ str_of_exn e)))
  else ret tt.

(** [for root, _, files in os.walk(temp_dir): for file in files: ...]. *)
Definition convert_walk (target_dir : string)
  (entries : list (string * list string * list string)) : M event unit :=
  for_each entries
    (fun entry =>
       let '(root, _, files) := entry in
       for_each files (convert_file target_dir root)).

(** The body of the outer loop, for one zip. *)
Definition process_zip (root_dir output_dir zip_name : string) : M event unit :=
  let label := label_of zip_name in
  emit (Print ("Processing " ++ zip_name ++ " as " ++ label ++ "...")) ;;;
  let zip_path := Py.path_join root_dir zip_name in
  let temp_dir := Py.path_join (Py.path_join output_dir "temp") label in
  effect (ExtractAll zip_path temp_dir) (extractall zip_path temp_dir) ;;;
  let target_dir := Py.path_join output_dir label in
  emit (Makedirs target_dir) ;;;
  convert_walk target_dir (walk_extracted zip_path temp_dir) ;;;
  emit (Rmtree (Py.path_join output_dir "temp")).

Definition process_zips (root_dir output_dir : string) : M event unit :=
  let zips := filter (fun f => Py.endswith f ".zip") (listdir root_dir) in
  for_each zips (process_zip root_dir output_dir).

End Script.

End UnpackZips.

(** ** segment.py *)

(** What [post_process_grounded_object_detection(...)[0]] holds. *)
Record detections : Type := {
  scores : list float;
  boxes : list (box float)
}.

(** OWLv2 through transformers and torch: loading the processor and the
    model, one detection pass (processor, model, post-processing), and
    [tensor.argmax()]. *)
Class Owlv2 {C : Carriers} : Type := {
  Owlv2Processor : Type;
  Owlv2Model : Type;
  Owlv2Processor_from_pretrained : string -> outcome Owlv2Processor;
  Owlv2Model_from_pretrained : string -> outcome Owlv2Model;
  Owlv2_detect :
    Owlv2Processor -> Owlv2Model -> Image -> string -> float -> outcome detections;
  argmax : list float -> outcome nat
}.

(** Python's [max(a, b)] and [min(a, b)]: the first argument unless the
    second is strictly greater (smaller). *)
Definition Qltb (x y : Q) : bool := negb (Qle_bool y x).

Definition py_max (a b : Q) : Q := if Qltb a b then b else a.
Definition py_min (a b : Q) : Q := if Qltb b a then b else a.

Module Segment.

Section Script.

Context {C : Carriers} {P : PIL} {FS : FileSystem} {O : Owlv2}.

Definition supported_exts : list string := [".jpg"; ".jpeg"; ".png"; ".webp"].

Definition supported (f : string) : bool :=
  Py.str_in (Py.lower (snd (Py.splitext f))) supported_exts.

(** "Expand box slightly": the padded box, clamped to the image. *)
Definition pad_box (w h : Z) (b : box float) : box float :=
  let padding := 20%Z in
  let '(xmin, ymin, xmax, ymax) := b in
  let xmin := py_max (inject_Z 0) (xmin - inject_Z padding) in
  let ymin := py_max (inject_Z 0) (ymin - inject_Z padding) in
  let xmax := py_min (inject_Z w) (xmax + inject_Z padding) in
  let ymax := py_min (inject_Z h) (ymax + inject_Z padding) in
  (xmin, ymin, xmax, ymax).

(** The body of the [try] for one file. *)
Definition crop_file_body (processor : Owlv2Processor) (model : Owlv2Model)
  (prompt_text : string)
  (threshold : float) (fpath output_label_path fname : string)
  : M event unit :=
  image <- call (Image_open fpath) ;;
  image <- call (convert image "RGB") ;;
  results <- call (Owlv2_detect processor model image prompt_text threshold) ;;
  if (0 <? List.length (scores results))%nat then
    best_idx <- call (argmax (scores results)) ;;
    b <- getitem (boxes results) best_idx ;;
    let '(w, h) := size image in
    cropped_img <- call (crop image (pad_box w h b)) ;;
    Image_save cropped_img (Py.path_join output_label_path fname) None None
  else
    Image_save image (Py.path_join output_label_path fname) None None.

(** One iteration of the loop over the files of a label. *)
Definition crop_file (processor : Owlv2Processor) (model : Owlv2Model)
  (prompt_text : string) (threshold : float)
  (label_path output_label_path fname : string) : M event unit :=
  let fpath := Py.path_join label_path fname in
  try_except
    (crop_file_body processor model prompt_text threshold fpath
       output_label_path fname)
    (fun e =>
       emit (Print ("Error processing " ++ fname ++ ": " ++ str_of_exn e))).

(** One iteration of the loop over the subfolders. *)
Definition crop_label (processor : Owlv2Processor) (model : Owlv2Model)
  (input_dir output_dir : string) (prompt_text : string) (threshold : float)
  (label : string) : M event unit :=
  let label_path := Py.path_join input_dir label in
  let output_label_path := Py.path_join output_dir label in
  emit (Makedirs output_label_path) ;;;
  let files := filter supported (listdir label_path) in
  emit (Print ("Processing " ++ label ++ " ("
               ++ Py.str_of_Z (Z.of_nat (List.length files)) ++ " images)...")) ;;;
  for_each files
    (crop_file processor model prompt_text threshold label_path
       output_label_path).

Definition crop_genitals (input_dir output_dir : string)
  (prompt_text : string) (threshold : float) : M event unit :=
  emit (Print ("Loading OWLv2 for zero-shot detection of '" ++ prompt_text
               ++ "'...")) ;;;
  let model_id := "google/owlv2-base-patch16-ensemble" in
  processor <- call (Owlv2Processor_from_pretrained model_id) ;;
  model <- call (Owlv2Model_from_pretrained model_id) ;;
  if negb (path_exists input_dir) then
    emit (Print ("Input directory " ++ input_dir ++ " not found."))
  else
    let subfolders :=
      filter (fun d => isdir (Py.path_join input_dir d)) (listdir input_dir) in
    for_each subfolders
      (crop_label processor model input_dir output_dir prompt_text threshold).

End Script.

End Segment.

(** ** Parsed JSON values as Python objects

    A JSON object is a dict, kept as the list of its items. *)

Module Json.

(** [d.get(key)]. *)
Fixpoint dict_lookup (kvs : list (string * json)) (key : string) : option json :=
  match kvs with
  | [] => None
  | (k, v) :: kvs' => if k =? key then Some v else dict_lookup kvs' key
  end.

Definition is_str (s : string) (j : json) : bool :=
  match j with JStr t => t =? s | _ => false end.

(** [not data]. *)
Definition falsy (data : json) : bool :=
  match data with
  | JNull => true
  | JBool b => negb b
  | JNum q => Qeq_bool q 0
  | JStr s => s =? ""
  | JArr xs => match xs with [] => true | _ => false end
  | JObj kvs => match kvs with [] => true | _ => false end
  end.

Fixpoint chars (s : string) : list json :=
  match s with
  | EmptyString => []
  | String c r => JStr (String c EmptyString) :: chars r
  end.

Section Access.

Context {C : Carriers}.

(** [key in data]. *)
Definition contains (key : string) (data : json) : M event bool :=
  match data with
  | JObj kvs =>
      ret (match dict_lookup kvs key with Some _ => true | None => false end)
  | JArr xs => ret (existsb (is_str key) xs)
  | JStr s =>
      ret (match String.index 0 key s with Some _ => true | None => false end)
  | _ => raise (Exc TypeError "argument is not iterable")
  end.

(** [data[key]] for a string key. *)
Definition getitem_str (data : json) (key : string) : M event json :=
  match data with
  | JObj kvs =>
      match dict_lookup kvs key with
      | Some v => ret v
      | None => raise (Exc KeyError key)
      end
  | _ => raise (Exc TypeError "indices must be integers")
  end.

(** [for n in data]: what the loop ranges over. *)
Definition iter (data : json) : M event (list json) :=
  match data with
  | JArr xs => ret xs
  | JObj kvs => ret (map (fun kv => JStr (fst kv)) kvs)
  | JStr s => ret (chars s)
  | _ => raise (Exc TypeError "object is not iterable")
  end.

(** [v.upper()]. *)
Definition upper (v : json) : M event string :=
  match v with
  | JStr s => ret (Py.upper s)
  | _ => raise (Exc AttributeError "object has no attribute 'upper'")
  end.

End Access.

End Json.

(** ** sam3_cloud.py *)

(** Python's truth value of [os.environ.get(...)]: set and not empty. *)
Definition truthy (s : option string) : bool :=
  match s with
  | Some v => negb (v =? "")
  | None => false
  end.

Definition or_else (a b : option string) : option string :=
  if truthy a then a else b.

(** An f-string's rendering of an optional string. *)
Definition str_of_opt (s : option string) : string :=
  match s with Some v => v | None => "None" end.

Section Http.

Context {C : Carriers}.

(** A [requests.Response]: [response_json] is what [response.json()] does. *)
Record response : Type := {
  status_code : Z;
  content : Bytes;
  text : string;
  response_json : outcome json
}.

(** [requests.post] with the bearer token and the JSON body of the client,
    the base64 codec, and Python's formatting of a parsed JSON value. *)
Class Requests : Type := {
  requests_post :
    string -> string -> string -> string -> string -> string -> Z ->
    outcome response;
  b64encode : Bytes -> string;
  b64decode : string -> outcome Bytes;
  repr_json : json -> string
}.

End Http.

(** [requests.get] with the bearer token and a timeout. *)
Class RequestsGet {C : Carriers} : Type := {
  requests_get : string -> string -> Z -> outcome response
}.

Module Sam3Cloud.

(** The module's configuration, read from the environment at import. *)
Record config : Type := {
  SAM3_ENDPOINT_URL : option string;
  HF_TOKEN : option string
}.

Section Client.

Context {C : Carriers} {P : PIL} {RQ : Requests}.

(** [base64.b64decode(v)]. *)
Definition json_b64decode (v : json) : M event Bytes :=
  match v with
  | JStr s => call (b64decode s)
  | _ => raise (Exc TypeError "argument should be a bytes-like object or ASCII string")
  end.

(** An f-string's rendering of a JSON value. *)
Definition format_json (v : json) : string :=
  match v with JStr s => s | _ => repr_json v end.

(** [error_data.get('error', 'Unknown error')], rendered. *)
Definition json_get_error (error_data : json) : M event string :=
  match error_data with
  | JObj kvs =>
      ret (match Json.dict_lookup kvs "error" with
           | Some v => format_json v
           | None => "Unknown error"
           end)
  | _ => raise (Exc AttributeError "object has no attribute 'get'")
  end.

(** The branch for status 200: the body is an image, or JSON holding one. *)
Definition parse_success (r : response) : M event (option Image * option string) :=
  try_except
    (result_image <- call (Image_open_bytes (content r)) ;;
     ret (Some result_image, None))
    (fun e =>
       try_except
         (data <- call (response_json r) ;;
          has_image <- Json.contains "image" data ;;
          if has_image : bool then
            v <- Json.getitem_str data "image" ;;
            img_data <- json_b64decode v ;;
            result_image <- call (Image_open_bytes img_data) ;;
            ret (Some result_image, None)
          else
            ret (None, Some ("Unexpected response format: " ++ format_json data)%string))
         (fun _ =>
            ret (None, Some ("Failed to parse response: " ++ str_of_exn e)%string))).

(** The branch for any other status than 200, 503 and 404. *)
Definition parse_error (r : response) : M event (option Image * option string) :=
  let prefix := ("SAM3 error (" ++ Py.str_of_Z (status_code r) ++ "): ")%string in
  try_except
    (error_data <- call (response_json r) ;;
     msg <- json_get_error error_data ;;
     ret (None, Some (prefix ++ msg)%string))
    (fun _ =>
       ret (None, Some (prefix ++ String.substring 0 200 (text r))%string)).

(** The body of the outer [try]. *)
Definition request_body (url token : string) (image : Image)
  (prompt bg_mode bg_color : string) (timeout : Z)
  : M event (option Image * option string) :=
  img_bytes <- call (save_bytes image "JPEG" 95) ;;
  let img_base64 := b64encode img_bytes in
  r <- effect (HttpPost url img_base64 prompt bg_mode bg_color timeout)
         (requests_post url token img_base64 prompt bg_mode bg_color timeout) ;;
  if (status_code r =? 200)%Z then parse_success r
  else if (status_code r =? 503)%Z then
    ret (None, Some "SAM3 endpoint is still initializing")
  else if (status_code r =? 404)%Z then
    ret (None, Some "No segmentation mask found for the given prompt")
  else parse_error r.

Definition segment_with_sam3_cloud (cfg : config) (image : Image)
  (prompt bg_mode bg_color : string) (timeout : Z)
  : M event (option Image * option string) :=
  if negb (truthy (SAM3_ENDPOINT_URL cfg)) then
    ret (None, Some "SAM3_ENDPOINT_URL not configured")
  else if negb (truthy (HF_TOKEN cfg)) then
    ret (None, Some "HF_TOKEN not configured")
  else
    try_except
      (request_body (str_of_opt (SAM3_ENDPOINT_URL cfg))
         (str_of_opt (HF_TOKEN cfg)) image prompt bg_mode bg_color timeout)
      (fun e =>
         if is_Timeout e then
           ret (None, Some ("SAM3 request timed out after "
                            ++ Py.str_of_Z timeout ++ "s")%string)
         else if is_ConnectionError e then
           ret (None, Some "Failed to connect to SAM3 endpoint")
         else
           ret (None, Some ("SAM3 request failed: " ++ str_of_exn e)%string)).

Context {RG : RequestsGet}.

Definition is_endpoint_ready (cfg : config) : M event bool :=
  if negb (truthy (SAM3_ENDPOINT_URL cfg)) || negb (truthy (HF_TOKEN cfg)) then
    ret false
  else
    try_except
      (r <- call (requests_get (str_of_opt (SAM3_ENDPOINT_URL cfg))
                    (str_of_opt (HF_TOKEN cfg)) 10) ;;
       ret (status_code r =? 200)%Z)
      (fun _ => ret false).

(** The first [try] of [segment_and_save] returns from the function when
    the image does not load: its outcome is the image or the message. *)
Definition segment_and_save (cfg : config)
  (image_path output_path prompt bg_mode bg_color : string)
  : M event (bool * option string) :=
  loaded <-
    try_except
      (image <- call (Image_open image_path) ;;
       image <- call (convert image "RGB") ;;
       ret (inl image))
      (fun e => ret (inr ("Failed to load image: " ++ str_of_exn e)%string)) ;;
  match loaded with
  | inr msg => ret (false, Some msg)
  | inl image =>
      res <- segment_with_sam3_cloud cfg image prompt bg_mode bg_color 120 ;;
      let '(result, error) := res in
      match result with
      | None => ret (false, error)
      | Some result =>
          try_except
            ((if Py.endswith (Py.lower output_path) ".png" then
                Image_save result output_path (Some "PNG") None
              else
                Image_save result output_path (Some "JPEG") (Some 95%Z)) ;;;
             ret (true, None))
            (fun e =>
               ret (false, Some ("Failed to save result: " ++ str_of_exn e)%string))
      end
  end.

End Client.

End Sam3Cloud.

(** ** main.py *)

(** A boolean mask as numpy holds it: rows of pixels. *)
Definition mask : Type := list (list bool).

(** BioCLIP through open_clip and torch.  [bioclip_embed] is the body of
    [get_bioclip_embedding]: preprocessing, [encode_image] and the
    normalisation, all tensor arithmetic. *)
Class Bioclip {C : Carriers} : Type := {
  BioclipModel : Type;
  BioclipPreprocess : Type;
  create_model_and_transforms : string -> outcome (BioclipModel * BioclipPreprocess);
  bioclip_embed : BioclipModel -> BioclipPreprocess -> Image -> outcome Embedding;
  tolist : Embedding -> list float
}.

(** The arguments of [LogisticRegression(...)]. *)
Record lr_params : Type := {
  max_iter : Z;
  class_weight : string;
  solver : string;
  C_reg : float;
  random_state : Z
}.

(** scikit-learn: a fitted classifier and label encoder, and the training
    calls.  [format_float] is Python's rendering of a float by a format
    specification. *)
Class SklearnLib {C : Carriers} : Type := {
  Classifier : Type;
  LabelEncoder : Type;
  predict : Classifier -> list Embedding -> outcome (list Z);
  predict_proba : Classifier -> list Embedding -> outcome (list (list float));
  classes_ : LabelEncoder -> list string;
  inverse_transform : LabelEncoder -> list Z -> outcome (list string);
  transform : LabelEncoder -> list string -> outcome (list Z);
  LabelEncoder_fit_transform : list string -> outcome (LabelEncoder * list Z);
  LogisticRegression_fit :
    lr_params -> list Embedding -> list Z -> outcome Classifier;
  KNeighborsClassifier_fit :
    Z -> string -> list Embedding -> list Z -> outcome Classifier;
  score : Classifier -> list Embedding -> list Z -> outcome float;
  accuracy_score : list Z -> list Z -> outcome float;
  format_float : string -> float -> string
}.

(** SAM 2.1 through transformers: one pass with a point prompt (processor,
    model, [post_process_masks(...)[0]]), which gives the masks by object
    and by candidate. *)
Class Sam2 {C : Carriers} : Type := {
  Sam2Model : Type;
  Sam2Processor : Type;
  Sam2_masks :
    Sam2Processor -> Sam2Model -> Image -> Z * Z -> outcome (list (list mask))
}.

(** What [main.py] takes from elsewhere: the segmentation function of
    [evf_sam_wrapper.py] (not embedded here: any behaviour), and an upload's
    [await file.read()]. *)
Class MainDeps {C : Carriers} : Type := {
  segment_with_evf_sam2 : Image -> string -> M event (option Image);
  UploadFile : Type;
  file_read : UploadFile -> outcome Bytes
}.

(** What the start-up of [main.py] takes from elsewhere: the directory of
    the module, [joblib.load] of the classifier file with the read of its
    three entries, Python's rendering of a list of strings, the loading of
    SAM 2.1, and [load_evf_sam2] of [evf_sam_wrapper.py] as the server calls
    it.  A model's [eval()] is taken not to raise. *)
Class MainStartup {C : Carriers} {SK : SklearnLib} {S2 : Sam2} : Type := {
  module_dir : string;
  joblib_load : string -> outcome (Classifier * LabelEncoder * list string);
  repr_list : list string -> string;
  Sam2Processor_from_pretrained : string -> outcome Sam2Processor;
  Sam2Model_from_pretrained : string -> outcome Sam2Model;
  _load_evf : string -> M event unit
}.

Module Main.

(** [np.any(mask, axis=1)]: which rows hold a True pixel. *)
Definition any_rows (m : mask) : list bool :=
  map (existsb (fun b => b)) m.

(** [mask.shape[1]]. *)
Definition mask_width (m : mask) : nat :=
  match m with
  | [] => 0
  | row :: _ => List.length row
  end.

(** [np.any(mask, axis=0)]: which columns hold a True pixel. *)
Definition any_cols (m : mask) : list bool :=
  map (fun j => existsb (fun row => nth j row false) m) (seq 0 (mask_width m)).

(** [v.any()]. *)
Definition np_any (v : list bool) : bool := existsb (fun b => b) v.

(** [np.where(v)[0]]: the indices of the True entries, from index [i] on. *)
Fixpoint np_where_from (i : Z) (v : list bool) : list Z :=
  match v with
  | [] => []
  | b :: v' =>
      if b then i :: np_where_from (i + 1) v' else np_where_from (i + 1) v'
  end.

Definition np_where (v : list bool) : list Z := np_where_from 0 v.

(** The padding and the clamp of the mask's box. *)
Definition pad_box (w h : Z) (xmin ymin xmax ymax : Z) : box Z :=
  let padding := 20%Z in
  let xmin := Z.max 0 (xmin - padding) in
  let ymin := Z.max 0 (ymin - padding) in
  let xmax := Z.min w (xmax + padding) in
  let ymax := Z.min h (ymax + padding) in
  (xmin, ymin, xmax, ymax).

(** An integer box as the tuple handed to [Image.crop]. *)
Definition box_of_Z (b : box Z) : box float :=
  let '(x0, y0, x1, y1) := b in
  (inject_Z x0, inject_Z y0, inject_Z x1, inject_Z y1).

Section Server.

Context {C : Carriers} {P : PIL} {RQ : Requests} {B : Bioclip}
  {SK : SklearnLib} {S2 : Sam2} {O : Owlv2} {D : MainDeps}.

(** [idx[[0, -1]]]: the first and the last element. *)
Definition first_last (idx : list Z) : M event (Z * Z) :=
  match idx with
  | [] => raise (Exc IndexError "index 0 is out of bounds")
  | i :: _ => ret (i, last idx i)
  end.

(** What [classifier.pkl] holds. *)
Record classifier_record : Type := {
  cd_classifier : Classifier;
  cd_label_encoder : LabelEncoder;
  cd_classes : list string
}.

(** The module's configuration and global variables. *)
Record globals : Type := {
  SEGMENTATION_MODEL : string;
  USE_LINEAR_PROBE : bool;
  SEGMENTATION_PROMPT : string;
  sam3_config : Sam3Cloud.config;
  bioclip_model : option BioclipModel;
  bioclip_preprocess : option BioclipPreprocess;
  classifier_data : option classifier_record;
  evf_loaded : bool;
  sam2_model : option Sam2Model;
  sam2_processor : option Sam2Processor;
  owlv2_model : option Owlv2Model;
  owlv2_processor : option Owlv2Processor
}.

Record EmbeddingResponse : Type := {
  embedding : list float
}.

Record ClassificationResponse : Type := {
  estrus_stage : string;
  confidence_scores : list (string * float);
  cropped : bool
}.

(** The crop box derived from a mask: the box of its True pixels, padded
    and clamped; [None] when the mask has no True pixel. *)
Definition mask_box (w h : Z) (m : mask) : M event (option (box Z)) :=
  let rows := any_rows m in
  let cols := any_cols m in
  if np_any rows && np_any cols then
    ys <- first_last (np_where rows) ;;
    xs <- first_last (np_where cols) ;;
    let '(ymin, ymax) := ys in
    let '(xmin, xmax) := xs in
    ret (Some (pad_box w h xmin ymin xmax ymax))
  else ret None.

(** The body of the [try] of [segment_with_sam2]. *)
Definition sam2_body (model : Sam2Model) (processor : Sam2Processor)
  (image : Image) : M event (option Image) :=
  let '(w, h) := size image in
  let center := ((w / 2)%Z, (h / 2)%Z) in
  masks <- call (Sam2_masks processor model image center) ;;
  if (0 <? List.length masks)%nat then
    masks0 <- getitem masks 0 ;;
    m <- getitem masks0 0 ;;
    b <- mask_box w h m ;;
    match b with
    | Some b =>
        cropped_image <- call (crop image (box_of_Z b)) ;;
        ret (Some cropped_image)
    | None => ret None
    end
  else ret None.

Definition segment_with_sam2 (g : globals) (image : Image)
  : M event (option Image) :=
  match sam2_model g, sam2_processor g with
  | Some model, Some processor =>
      try_except (sam2_body model processor image)
        (fun e =>
           emit (Print ("SAM 2.1 segmentation error: " ++ str_of_exn e)) ;;;
           ret None)
  | _, _ => ret None
  end.

Definition segment_with_owlv2 (g : globals) (image : Image) (prompt : string)
  : M event (option Image) :=
  match owlv2_model g, owlv2_processor g with
  | Some model, Some processor =>
      try_except
        (results <- call (Owlv2_detect processor model image prompt (1 # 10)) ;;
         if (0 <? List.length (boxes results))%nat then
           best_idx <- call (argmax (scores results)) ;;
           b <- getitem (boxes results) best_idx ;;
           cropped_image <- call (crop image b) ;;
           ret (Some cropped_image)
         else ret None)
        (fun e =>
           emit (Print ("OWLv2 segmentation error: " ++ str_of_exn e)) ;;;
           ret None)
  | _, _ => ret None
  end.

Definition segment_image (g : globals) (image : Image)
  : M event (option Image) :=
  if SEGMENTATION_MODEL g =? "sam3_cloud" then
    res <- Sam3Cloud.segment_with_sam3_cloud (sam3_config g) image
             (SEGMENTATION_PROMPT g) "mask_crop" "black" 120 ;;
    let '(result, error) := res in
    (if truthy error then
       emit (Print ("SAM3 cloud segmentation error: " ++ str_of_opt error))
     else ret tt) ;;;
    ret result
  else if SEGMENTATION_MODEL g =? "evf" then
    segment_with_evf_sam2 image (SEGMENTATION_PROMPT g)
  else if SEGMENTATION_MODEL g =? "sam2" then
    segment_with_sam2 g image
  else if SEGMENTATION_MODEL g =? "owlv2" then
    segment_with_owlv2 g image (SEGMENTATION_PROMPT g)
  else ret None.

Definition get_bioclip_embedding (g : globals) (image : Image)
  : M event Embedding :=
  match bioclip_preprocess g, bioclip_model g with
  | Some preprocess, Some model => call (bioclip_embed model preprocess image)
  | _, _ => raise (Exc TypeError "'NoneType' object is not callable")
  end.

(** [d[key] = v] on a dict kept as its list of items. *)
Fixpoint dict_set (d : list (string * float)) (key : string) (v : float)
  : list (string * float) :=
  match d with
  | [] => [(key, v)]
  | (k, old) :: d' =>
      if k =? key then (k, v) :: d' else (k, old) :: dict_set d' key v
  end.

(** The loop filling [confidence_scores], from class index [i] on. *)
Fixpoint fill_scores (classes : list string) (probabilities : list float)
  (i : nat) (confidence_scores : list (string * float))
  : M event (list (string * float)) :=
  match classes with
  | [] => ret confidence_scores
  | class_name :: rest =>
      let formatted_name := Py.capitalize class_name in
      p <- getitem probabilities i ;;
      fill_scores rest probabilities (S i)
        (dict_set confidence_scores formatted_name p)
  end.

Definition classify_with_linear_probe (g : globals) (e : Embedding)
  : M event (string * list (string * float)) :=
  match classifier_data g with
  | None => raise (Exc ValueError "Classifier not loaded")
  | Some cd =>
      let classifier := cd_classifier cd in
      let label_encoder := cd_label_encoder cd in
      let embedding_2d := [e] in
      predictions <- effect (Sklearn "predict") (predict classifier embedding_2d) ;;
      prediction <- getitem predictions 0 ;;
      probas <- effect (Sklearn "predict_proba")
                  (predict_proba classifier embedding_2d) ;;
      probabilities <- getitem probas 0 ;;
      stages <- effect (Sklearn "inverse_transform")
                  (inverse_transform label_encoder [prediction]) ;;
      predicted_stage <- getitem stages 0 ;;
      confidence_scores <-
        fill_scores (classes_ label_encoder) probabilities 0 [] ;;
      ret (Py.capitalize predicted_stage, confidence_scores)
  end.

(** [Image.open(io.BytesIO(contents)).convert("RGB")] on the upload. *)
Definition read_image (file : UploadFile) : M event Image :=
  contents <- call (file_read file) ;;
  image <- call (Image_open_bytes contents) ;;
  call (convert image "RGB").

Definition is_None {A} (x : option A) : bool :=
  match x with None => true | Some _ => false end.

(** POST /embed. *)
Definition generate_embedding (g : globals) (file : UploadFile)
  : M event EmbeddingResponse :=
  if is_None (bioclip_model g) || is_None (bioclip_preprocess g) then
    raise (HTTPException 503 "BioCLIP model not initialized")
  else
    try_except
      (image <- read_image file ;;
       cropped_image <- segment_image g image ;;
       let image :=
         match cropped_image with Some c => c | None => image end in
       e <- get_bioclip_embedding g image ;;
       ret {| embedding := tolist e |})
      (fun e =>
         emit (Print ("Embedding error: " ++ str_of_exn e)) ;;;
         raise (HTTPException 500 ("Error processing image: " ++ str_of_exn e))).

(** POST /classify. *)
Definition classify_image (g : globals) (file : UploadFile)
  : M event ClassificationResponse :=
  if is_None (bioclip_model g) || is_None (bioclip_preprocess g) then
    raise (HTTPException 503 "BioCLIP model not initialized")
  else if negb (USE_LINEAR_PROBE g) then
    raise (HTTPException 400
             "Linear Probe disabled. Use /embed endpoint for k-NN classification.")
  else if is_None (classifier_data g) then
    raise (HTTPException 503
             "Classifier not loaded. Run train_classifier.py first.")
  else
    try_except
      (image <- read_image file ;;
       cropped_image <- segment_image g image ;;
       let was_cropped := negb (is_None cropped_image) in
       let image :=
         match cropped_image with Some c => c | None => image end in
       e <- get_bioclip_embedding g image ;;
       res <- classify_with_linear_probe g e ;;
       ret {| estrus_stage := fst res;
              confidence_scores := snd res;
              cropped := was_cropped |})
      (fun e =>
         if is_ValueError e then raise (HTTPException 503 (str_of_exn e))
         else
           emit (Print ("Classification error: " ++ str_of_exn e)) ;;;
           raise (HTTPException 500
                    ("Error classifying image: " ++ str_of_exn e))).

(** *** Start-up *)

Context {FS : FileSystem} {RG : RequestsGet} {MS : MainStartup}.

(** Assignments to the module's global variables. *)
Definition set_bioclip (model : option BioclipModel)
  (preprocess : option BioclipPreprocess) (g : globals) : globals :=
  {| SEGMENTATION_MODEL := SEGMENTATION_MODEL g;
     USE_LINEAR_PROBE := USE_LINEAR_PROBE g;
     SEGMENTATION_PROMPT := SEGMENTATION_PROMPT g;
     sam3_config := sam3_config g;
     bioclip_model := model;
     bioclip_preprocess := preprocess;
     classifier_data := classifier_data g;
     evf_loaded := evf_loaded g;
     sam2_model := sam2_model g;
     sam2_processor := sam2_processor g;
     owlv2_model := owlv2_model g;
     owlv2_processor := owlv2_processor g |}.

Definition set_classifier_data (cd : option classifier_record) (g : globals)
  : globals :=
  {| SEGMENTATION_MODEL := SEGMENTATION_MODEL g;
     USE_LINEAR_PROBE := USE_LINEAR_PROBE g;
     SEGMENTATION_PROMPT := SEGMENTATION_PROMPT g;
     sam3_config := sam3_config g;
     bioclip_model := bioclip_model g;
     bioclip_preprocess := bioclip_preprocess g;
     classifier_data := cd;
     evf_loaded := evf_loaded g;
     sam2_model := sam2_model g;
     sam2_processor := sam2_processor g;
     owlv2_model := owlv2_model g;
     owlv2_processor := owlv2_processor g |}.

Definition set_evf_loaded (b : bool) (g : globals) : globals :=
  {| SEGMENTATION_MODEL := SEGMENTATION_MODEL g;
     USE_LINEAR_PROBE := USE_LINEAR_PROBE g;
     SEGMENTATION_PROMPT := SEGMENTATION_PROMPT g;
     sam3_config := sam3_config g;
     bioclip_model := bioclip_model g;
     bioclip_preprocess := bioclip_preprocess g;
     classifier_data := classifier_data g;
     evf_loaded := b;
     sam2_model := sam2_model g;
     sam2_processor := sam2_processor g;
     owlv2_model := owlv2_model g;
     owlv2_processor := owlv2_processor g |}.

Definition set_sam2_processor (p : option Sam2Processor) (g : globals)
  : globals :=
  {| SEGMENTATION_MODEL := SEGMENTATION_MODEL g;
     USE_LINEAR_PROBE := USE_LINEAR_PROBE g;
     SEGMENTATION_PROMPT := SEGMENTATION_PROMPT g;
     sam3_config := sam3_config g;
     bioclip_model := bioclip_model g;
     bioclip_preprocess := bioclip_preprocess g;
     classifier_data := classifier_data g;
     evf_loaded := evf_loaded g;
     sam2_model := sam2_model g;
     sam2_processor := p;
     owlv2_model := owlv2_model g;
     owlv2_processor := owlv2_processor g |}.

Definition set_sam2_model (m : option Sam2Model) (g : globals) : globals :=
  {| SEGMENTATION_MODEL := SEGMENTATION_MODEL g;
     USE_LINEAR_PROBE := USE_LINEAR_PROBE g;
     SEGMENTATION_PROMPT := SEGMENTATION_PROMPT g;
     sam3_config := sam3_config g;
     bioclip_model := bioclip_model g;
     bioclip_preprocess := bioclip_preprocess g;
     classifier_data := classifier_data g;
     evf_loaded := evf_loaded g;
     sam2_model := m;
     sam2_processor := sam2_processor g;
     owlv2_model := owlv2_model g;
     owlv2_processor := owlv2_processor g |}.

Definition set_owlv2_processor (p : option Owlv2Processor) (g : globals)
  : globals :=
  {| SEGMENTATION_MODEL := SEGMENTATION_MODEL g;
     USE_LINEAR_PROBE := USE_LINEAR_PROBE g;
     SEGMENTATION_PROMPT := SEGMENTATION_PROMPT g;
     sam3_config := sam3_config g;
     bioclip_model := bioclip_model g;
     bioclip_preprocess := bioclip_preprocess g;
     classifier_data := classifier_data g;
     evf_loaded := evf_loaded g;
     sam2_model := sam2_model g;
     sam2_processor := sam2_processor g;
     owlv2_model := owlv2_model g;
     owlv2_processor := p |}.

Definition set_owlv2_model (m : option Owlv2Model) (g : globals) : globals :=
  {| SEGMENTATION_MODEL := SEGMENTATION_MODEL g;
     USE_LINEAR_PROBE := USE_LINEAR_PROBE g;
     SEGMENTATION_PROMPT := SEGMENTATION_PROMPT g;
     sam3_config := sam3_config g;
     bioclip_model := bioclip_model g;
     bioclip_preprocess := bioclip_preprocess g;
     classifier_data := classifier_data g;
     evf_loaded := evf_loaded g;
     sam2_model := sam2_model g;
     sam2_processor := sam2_processor g;
     owlv2_model := m;
     owlv2_processor := owlv2_processor g |}.

Definition print (s : string) : SM globals event unit :=
  slift (emit (Print s)).

Definition load_evf_sam2 : SM globals event unit :=
  (slift (_load_evf "fp32") ;;;
   smodify (set_evf_loaded true))%st.

Definition load_sam2 : SM globals event unit :=
  (print "Loading SAM 2.1 model..." ;;;
   p <- slift (call (Sam2Processor_from_pretrained "facebook/sam2.1-hiera-large")) ;;
   smodify (set_sam2_processor (Some p)) ;;;
   m <- slift (call (Sam2Model_from_pretrained "facebook/sam2.1-hiera-large")) ;;
   smodify (set_sam2_model (Some m)) ;;;
   print "SAM 2.1 loaded successfully.")%st.

Definition load_owlv2 : SM globals event unit :=
  (print "Loading OWLv2 model..." ;;;
   p <- slift (call (Owlv2Processor_from_pretrained
                       "google/owlv2-base-patch16-ensemble")) ;;
   smodify (set_owlv2_processor (Some p)) ;;;
   m <- slift (call (Owlv2Model_from_pretrained
                       "google/owlv2-base-patch16-ensemble")) ;;
   smodify (set_owlv2_model (Some m)) ;;;
   print "OWLv2 loaded successfully.")%st.

(** The UTF-8 bytes of the two signs the start-up prints. *)
Definition check_mark : string :=
  String "226" (String "156" (String "133" EmptyString)).

Definition hourglass : string :=
  String "226" (String "143" (String "179" EmptyString)).

(** The start-up handler. *)
Definition load_models : SM globals event unit :=
  (print "Loading BioCLIP model..." ;;;
   stry
     (mp <- slift (call (create_model_and_transforms "hf-hub:imageomics/bioclip")) ;;
      smodify (set_bioclip (Some (fst mp)) (Some (snd mp))) ;;;
      print "BioCLIP model loaded successfully.")
     (fun e =>
        print ("Error loading BioCLIP model: " ++ str_of_exn e) ;;;
        sraise e) ;;;
   let classifier_path := Py.path_join module_dir "classifier.pkl" in
   (if path_exists classifier_path then
      print "Loading Linear Probe classifier..." ;;;
      stry
        (loaded <- slift (call (joblib_load classifier_path)) ;;
         let '(classifier, label_encoder, classes) := loaded in
         smodify
           (set_classifier_data
              (Some {| cd_classifier := classifier;
                       cd_label_encoder := label_encoder;
                       cd_classes := classes |})) ;;;
         print ("Classifier loaded. Classes: " ++ repr_list classes))
        (fun e =>
           print ("Warning: Could not load classifier: " ++ str_of_exn e) ;;;
           smodify (set_classifier_data None))
    else
      print ("Warning: Classifier not found at " ++ classifier_path ++ ".") ;;;
      smodify (set_classifier_data None)) ;;;
   g <- sget ;;
   print ("Configured segmentation model: " ++ SEGMENTATION_MODEL g) ;;;
   (if Py.str_in (SEGMENTATION_MODEL g) ["evf"; "owlv2"; "sam3_cloud"] then
      print ("Segmentation prompt: '" ++ SEGMENTATION_PROMPT g ++ "'")
    else sret tt) ;;;
   stry
     (if SEGMENTATION_MODEL g =? "sam3_cloud" then
        ready <- slift (Sam3Cloud.is_endpoint_ready (sam3_config g)) ;;
        if ready : bool then
          print (check_mark ++ " SAM3 cloud endpoint is ready!")
        else
          print (hourglass
                 ++ " SAM3 cloud endpoint not ready yet (will retry on each request)")
      else if SEGMENTATION_MODEL g =? "evf" then load_evf_sam2
      else if SEGMENTATION_MODEL g =? "sam2" then load_sam2
      else if SEGMENTATION_MODEL g =? "owlv2" then load_owlv2
      else sret tt)
     (fun e =>
        print ("Warning: Failed to load segmentation model ("
               ++ SEGMENTATION_MODEL g ++ "): " ++ str_of_exn e) ;;;
        print "Auto-cropping will be disabled."))%st.

(** GET /: what the health check reports. *)
Record health : Type := {
  status : string;
  bioclip_loaded : bool;
  classifier_loaded : bool;
  segmentation_model : string;
  segmentation_enabled : bool;
  use_linear_probe : bool
}.

Definition health_check (g : globals) : health :=
  let segmentation_enabled :=
    ((SEGMENTATION_MODEL g =? "evf") && evf_loaded g)
    || ((SEGMENTATION_MODEL g =? "sam2") && negb (is_None (sam2_model g)))
    || ((SEGMENTATION_MODEL g =? "owlv2") && negb (is_None (owlv2_model g))) in
  {| status := "ready";
     bioclip_loaded := negb (is_None (bioclip_model g));
     classifier_loaded := negb (is_None (classifier_data g));
     segmentation_model := SEGMENTATION_MODEL g;
     segmentation_enabled := segmentation_enabled;
     use_linear_probe := USE_LINEAR_PROBE g |}.

End Server.

End Main.

(** ** evf_sam_wrapper.py *)

(** EVF-SAM2 through transformers, torch and the EVF-SAM repository: the
    two imports of [load_evf_sam2], the loading of the tokenizer and of the
    model for a dtype, the move of the model to the GPU, and one inference
    pass with the module's model, tokenizer, device and dtype, which stands
    for the lines from [np.array(image)] to [pred_mask > 0] and gives the
    binary mask.  [print_exc] is what [traceback.print_exc()] writes. *)
Class EvfSam {C : Carriers} : Type := {
  EvfModel : Type;
  EvfTokenizer : Type;
  evf_imports : outcome unit;
  cuda_is_available : bool;
  AutoTokenizer_from_pretrained : string -> outcome EvfTokenizer;
  EvfSam2Model_from_pretrained : string -> string -> outcome EvfModel;
  model_cuda : EvfModel -> outcome EvfModel;
  evf_predict_mask :
    option EvfModel -> option EvfTokenizer -> option string -> option string ->
    Image -> string -> outcome mask;
  print_exc : exn -> list event
}.

Module EvfSamWrapper.

Section Wrapper.

Context {C : Carriers} {P : PIL} {EVF : EvfSam}.

(** The module's global model instances. *)
Record evf_globals : Type := {
  _evf_model : option EvfModel;
  _evf_tokenizer : option EvfTokenizer;
  _evf_device : option string;
  _evf_dtype : option string
}.

Definition set_device_dtype (device dtype : string) (g : evf_globals)
  : evf_globals :=
  {| _evf_model := _evf_model g; _evf_tokenizer := _evf_tokenizer g;
     _evf_device := Some device; _evf_dtype := Some dtype |}.

Definition set_tokenizer (tokenizer : EvfTokenizer) (g : evf_globals)
  : evf_globals :=
  {| _evf_model := _evf_model g; _evf_tokenizer := Some tokenizer;
     _evf_device := _evf_device g; _evf_dtype := _evf_dtype g |}.

Definition set_model (model : EvfModel) (g : evf_globals) : evf_globals :=
  {| _evf_model := Some model; _evf_tokenizer := _evf_tokenizer g;
     _evf_device := _evf_device g; _evf_dtype := _evf_dtype g |}.

Definition print (s : string) : SM evf_globals event unit :=
  slift (emit (Print s)).

Definition load_evf_sam2 (precision : string)
  : SM evf_globals event (option EvfModel * option EvfTokenizer) :=
  (g <- sget ;;
   if negb (Main.is_None (_evf_model g)) then
     sret (_evf_model g, _evf_tokenizer g)
   else
     slift (call evf_imports) ;;;
     print "Loading EVF-SAM2 model..." ;;;
     let device := if cuda_is_available then "cuda" else "cpu" in
     let dtype :=
       if precision =? "bf16" then "torch.bfloat16"
       else if precision =? "fp16" then "torch.half"
       else "torch.float32" in
     smodify (set_device_dtype device dtype) ;;;
     tokenizer <- slift (call (AutoTokenizer_from_pretrained "YxZhang/evf-sam2")) ;;
     smodify (set_tokenizer tokenizer) ;;;
     model <- slift (call (EvfSam2Model_from_pretrained "YxZhang/evf-sam2" dtype)) ;;
     smodify (set_model model) ;;;
     (if device =? "cuda" then
        model <- slift (call (model_cuda model)) ;;
        smodify (set_model model)
      else sret tt) ;;;
     print ("EVF-SAM2 loaded on " ++ device ++ " with " ++ precision
            ++ " precision.") ;;;
     g <- sget ;;
     sret (_evf_model g, _evf_tokenizer g))%st.

(** "Find bounding box from mask" and "Add padding": the crop box, or None
    when the mask has no True pixel. *)
Definition crop_box (original_size : Z * Z) (pred_mask : mask)
  : M event (option (box Z)) :=
  let rows := Main.any_rows pred_mask in
  let cols := Main.any_cols pred_mask in
  if Main.np_any rows && Main.np_any cols then
    ys <- Main.first_last (Main.np_where rows) ;;
    xs <- Main.first_last (Main.np_where cols) ;;
    let '(ymin, ymax) := ys in
    let '(xmin, xmax) := xs in
    let '(h, w) := original_size in
    let padding := 20%Z in
    let xmin := Z.max 0 (xmin - padding) in
    let ymin := Z.max 0 (ymin - padding) in
    let xmax := Z.min w (xmax + padding) in
    let ymax := Z.min h (ymax + padding) in
    ret (Some (xmin, ymin, xmax, ymax))
  else ret None.

(** The body of the [try]: [image_np.shape[:2]] is the height and the width
    of the image. *)
Definition segment_body (g : evf_globals) (image : Image) (prompt : string)
  : M event (option Image) :=
  let original_size := (snd (size image), fst (size image)) in
  pred_mask <- call (evf_predict_mask (_evf_model g) (_evf_tokenizer g)
                       (_evf_device g) (_evf_dtype g) image prompt) ;;
  b <- crop_box original_size pred_mask ;;
  match b with
  | Some b =>
      cropped <- call (crop image (Main.box_of_Z b)) ;;
      ret (Some cropped)
  | None => ret None
  end.

Definition segment_with_evf_sam2 (image : Image) (prompt : string)
  : SM evf_globals event (option Image) :=
  (g <- sget ;;
   (if Main.is_None (_evf_model g) then
      load_evf_sam2 "fp32" ;;; sret tt
    else sret tt) ;;;
   g <- sget ;;
   slift
     (try_except (segment_body g image prompt)
        (fun e =>
           (emit (Print ("EVF-SAM2 segmentation error: " ++ str_of_exn e)) ;;;
            (print_exc e, Ok tt) ;;;
            ret None)%eff)))%st.

End Wrapper.

End EvfSamWrapper.

(** ** ingest.py *)

(** The supabase client: [create_client], and the [execute()] of an insert,
    of the delete of all rows, and of a remote procedure call, whose result
    is [response.data]. *)
Class Supabase : Type := {
  Client : Type;
  create_client : string -> string -> outcome Client;
  table_insert : Client -> string -> reference_row -> outcome unit;
  table_delete_all : Client -> string -> outcome unit;
  rpc : Client -> string -> list float -> float -> Z -> outcome json
}.

(** [os.environ.get]. *)
Class Environ : Type := {
  environ_get : string -> option string
}.

Module Ingest.

(** The parsed command line. *)
Record args : Type := {
  arg_dir : string;
  arg_url : option string;
  arg_key : option string;
  arg_clear : bool
}.

Definition supported_exts : list string :=
  [".jpg"; ".jpeg"; ".png"; ".webp"; ".bmp"].

Definition supported (f : string) : bool :=
  Py.str_in (Py.lower (snd (Py.splitext f))) supported_exts.

(** [if embedding:] on an optional list. *)
Definition nonempty (embedding : option (list float)) : bool :=
  match embedding with
  | Some (_ :: _) => true
  | _ => false
  end.

Section Script.

Context {C : Carriers} {P : PIL} {FS : FileSystem} {B : Bioclip}
  {SB : Supabase} {EV : Environ}.

Definition get_embedding (model : BioclipModel) (processor : BioclipPreprocess)
  (image_path : string) : M event (option (list float)) :=
  try_except
    (image <- call (Image_open image_path) ;;
     image <- call (convert image "RGB") ;;
     e <- call (bioclip_embed model processor image) ;;
     ret (Some (tolist e)))
    (fun e =>
       emit (Print ("Error processing image " ++ image_path ++ ": "
                    ++ str_of_exn e)) ;;;
       ret None).

(** One iteration of the loop over the files of a label. *)
Definition ingest_file (supabase : Client) (model : BioclipModel)
  (processor : BioclipPreprocess) (label label_path fname : string)
  : M event unit :=
  let fpath := Py.path_join label_path fname in
  emb <- get_embedding model processor fpath ;;
  if nonempty emb then
    let data := {| row_label := label;
                   row_embedding := match emb with Some v => v | None => [] end;
                   row_image_path := fpath;
                   row_filename := fname;
                   row_original_path := fpath |} in
    try_except
      (effect (TableInsert "reference_images" data)
         (table_insert supabase "reference_images" data))
      (fun db_err =>
         emit (Print ("Database insert error for " ++ fname ++ ": "
                      ++ str_of_exn db_err)))
  else ret tt.

(** One iteration of the loop over the subfolders. *)
Definition ingest_label (supabase : Client) (model : BioclipModel)
  (processor : BioclipPreprocess) (dir label : string) : M event unit :=
  let label_path := Py.path_join dir label in
  emit (Print (String "010" "Processing Class: " ++ label)) ;;;
  let files := filter supported (listdir label_path) in
  for_each files (ingest_file supabase model processor label label_path).

(** [main], after the model is loaded. *)
Definition ingest_dir (supabase : Client) (model : BioclipModel)
  (processor : BioclipPreprocess) (dir : string) : M event unit :=
  if negb (path_exists dir) then
    emit (Print ("Directory " ++ dir ++ " does not exist."))
  else
    let subfolders :=
      filter (fun d => isdir (Py.path_join dir d)) (listdir dir) in
    match subfolders with
    | [] =>
        emit (Print ("No subdirectories found in " ++ dir
                     ++ ". Expected structure: " ++ dir
                     ++ "/<Label>/<Image.jpg>"))
    | _ :: _ =>
        for_each subfolders (ingest_label supabase model processor dir) ;;;
        emit (Print (String "010" "Ingestion complete."))
    end.

Definition main (a : args) : M event unit :=
  let url := or_else (arg_url a)
               (or_else (environ_get "NEXT_PUBLIC_SUPABASE_URL")
                  (environ_get "SUPABASE_URL")) in
  let key := or_else (arg_key a) (environ_get "SUPABASE_SERVICE_ROLE_KEY") in
  if negb (truthy url) || negb (truthy key) then
    emit (Print "Error: Supabase credentials required. Set SUPABASE_URL/NEXT_PUBLIC_SUPABASE_URL and SUPABASE_SERVICE_ROLE_KEY env vars or pass arguments.")
  else
    emit (Print ("Connecting to Supabase at " ++ str_of_opt url ++ "...")) ;;;
    supabase <- call (create_client (str_of_opt url) (str_of_opt key)) ;;
    (if arg_clear a then
       emit (Print "Clearing existing reference images...") ;;;
       effect (TableDelete "reference_images")
         (table_delete_all supabase "reference_images")
     else ret tt) ;;;
    emit (Print "Loading BioCLIP model (this may take a moment)...") ;;;
    loaded <-
      try_except
        (mp <- call (create_model_and_transforms "hf-hub:imageomics/bioclip") ;;
         ret (Some mp))
        (fun e =>
           if is_ImportError e then
             emit (Print "open_clip_torch not found. Please install it: pip install open_clip_torch") ;;;
             ret None
           else
             emit (Print ("Failed to load model with open_clip: "
                          ++ str_of_exn e)) ;;;
             ret None) ;;
    match loaded with
    | None => ret tt
    | Some (model, preprocess) => ingest_dir supabase model preprocess (arg_dir a)
    end.

End Script.

End Ingest.

(** ** eval.py *)

Module Eval.

(** [votes]: a dict from label to count, kept as its list of items. *)
Definition votes_dict : Type := list (string * Z).

(** [votes.get(label, 0)]. *)
Fixpoint votes_get (votes : votes_dict) (label : string) : Z :=
  match votes with
  | [] => 0
  | (k, n) :: votes' => if k =? label then n else votes_get votes' label
  end.

(** [votes[label] = n]. *)
Fixpoint votes_set (votes : votes_dict) (label : string) (n : Z) : votes_dict :=
  match votes with
  | [] => [(label, n)]
  | (k, old) :: votes' =>
      if k =? label then (k, n) :: votes'
      else (k, old) :: votes_set votes' label n
  end.

(** [max(votes, key=votes.get)] from a current best on: a later key replaces
    the best one only with strictly more votes. *)
Fixpoint max_key_from (best : string) (best_n : Z) (votes : votes_dict)
  : string :=
  match votes with
  | [] => best
  | (k, n) :: votes' =>
      if (best_n <? n)%Z then max_key_from k n votes'
      else max_key_from best best_n votes'
  end.

Section Script.

Context {C : Carriers} {SB : Supabase} {SK : SklearnLib}.

(** [max(votes, key=votes.get)]. *)
Definition max_key (votes : votes_dict) : M event string :=
  match votes with
  | [] => raise (Exc ValueError "max() arg is an empty sequence")
  | (k, n) :: votes' => ret (max_key_from k n votes')
  end.

(** The voting loop. *)
Fixpoint count_votes (neighbors : list json) (votes : votes_dict)
  : M event votes_dict :=
  match neighbors with
  | [] => ret votes
  | n :: rest =>
      v <- Json.getitem_str n "label" ;;
      label <- Json.upper v ;;
      count_votes rest (votes_set votes label (votes_get votes label + 1))
  end.

Definition classify_with_knn (e : list float) (supabase : Client) (k : Z)
  : M event string :=
  try_except
    (neighbors <- effect (Rpc "match_reference_images" e k)
                    (rpc supabase "match_reference_images" e 0 k) ;;
     if Json.falsy neighbors then ret "UNKNOWN"
     else
       ns <- Json.iter neighbors ;;
       votes <- count_votes ns [] ;;
       max_key votes)
    (fun e =>
       emit (Print ("k-NN RPC Error: " ++ str_of_exn e)) ;;;
       ret "ERROR").

(** The linear probe of [eval.py], on a loaded [classifier.pkl]. *)
Definition classify_with_linear_probe (e : Embedding)
  (classifier : Classifier) (label_encoder : LabelEncoder) : M event string :=
  let embedding_2d := [e] in
  predictions <- effect (Sklearn "predict") (predict classifier embedding_2d) ;;
  prediction <- getitem predictions 0 ;;
  stages <- effect (Sklearn "inverse_transform")
              (inverse_transform label_encoder [prediction]) ;;
  predicted_stage <- getitem stages 0 ;;
  ret (Py.upper predicted_stage).

(** *** The evaluation loops *)

Context {P : PIL} {FS : FileSystem} {B : Bioclip}.

Definition VALID_STAGES : list string :=
  ["PROESTRUS"; "ESTRUS"; "METESTRUS"; "DIESTRUS"].

Definition SUPPORTED_EXTS : list string :=
  [".jpg"; ".jpeg"; ".png"; ".webp"; ".bmp"].

Definition supported (f : string) : bool :=
  Py.str_in (Py.lower (snd (Py.splitext f))) SUPPORTED_EXTS.

Definition get_embedding (model : BioclipModel) (processor : BioclipPreprocess)
  (image_path : string) : M event (option Embedding) :=
  try_except
    (image <- call (Image_open image_path) ;;
     image <- call (convert image "RGB") ;;
     embedding <- call (bioclip_embed model processor image) ;;
     ret (Some embedding))
    (fun e =>
       emit (Print ("Error processing image " ++ image_path ++ ": "
                    ++ str_of_exn e)) ;;;
       ret None).

(** "Walk test directory" in [run_eval_knn] and in [run_eval_linear_probe]:
    the loop over the subfolders and their files, which fills [y_true] and
    [y_pred]; [classify] is the classifier of the function. *)
Definition eval_file (classify : Embedding -> M event string)
  (model : BioclipModel) (preprocess : BioclipPreprocess)
  (label_upper label_path : string) (acc : list string * list string)
  (fname : string) : M event (list string * list string) :=
  let '(y_true, y_pred) := acc in
  let fpath := Py.path_join label_path fname in
  embedding <- get_embedding model preprocess fpath ;;
  match embedding with
  | None => ret (y_true, y_pred)
  | Some embedding =>
      pred <- classify embedding ;;
      ret (y_true ++ [label_upper], y_pred ++ [pred])
  end.

Definition eval_label (classify : Embedding -> M event string)
  (model : BioclipModel) (preprocess : BioclipPreprocess) (test_dir : string)
  (acc : list string * list string) (label : string)
  : M event (list string * list string) :=
  if negb (Py.str_in (Py.upper label) VALID_STAGES) then ret acc
  else
    let label_upper := Py.upper label in
    let label_path := Py.path_join test_dir label in
    let files := filter supported (listdir label_path) in
    fold_each files acc (eval_file classify model preprocess label_upper label_path).

Definition walk_test_dir (classify : Embedding -> M event string)
  (model : BioclipModel) (preprocess : BioclipPreprocess) (test_dir : string)
  : M event (list string * list string) :=
  let subfolders :=
    filter (fun d => isdir (Py.path_join test_dir d)) (listdir test_dir) in
  fold_each subfolders ([], []) (eval_label classify model preprocess test_dir).

(** The loop of [run_eval_knn] and the loop of [run_eval_linear_probe]. *)
Definition walk_test_dir_knn (supabase : Client) (k : Z)
  (model : BioclipModel) (preprocess : BioclipPreprocess) (test_dir : string)
  : M event (list string * list string) :=
  walk_test_dir (fun embedding => classify_with_knn (tolist embedding) supabase k)
    model preprocess test_dir.

Definition walk_test_dir_linear_probe (classifier : Classifier)
  (label_encoder : LabelEncoder)
  (model : BioclipModel) (preprocess : BioclipPreprocess) (test_dir : string)
  : M event (list string * list string) :=
  walk_test_dir
    (fun embedding => classify_with_linear_probe embedding classifier label_encoder)
    model preprocess test_dir.

End Script.

End Eval.

(** ** train_classifier.py *)

Module TrainClassifier.

Section Script.

Context {C : Carriers} {SK : SklearnLib}.

Definition params : lr_params :=
  {| max_iter := 2000; class_weight := "balanced"; solver := "lbfgs";
     C_reg := 1 # 10; random_state := 42 |}.

Definition train_classifier (X : list Embedding) (y : list string)
  : M event (Classifier * LabelEncoder) :=
  emit (Print (String "010" "Training Logistic Regression on "
               ++ Py.str_of_Z (Z.of_nat (List.length X)) ++ " samples...")) ;;;
  enc <- effect (Sklearn "LabelEncoder.fit_transform")
           (LabelEncoder_fit_transform y) ;;
  let '(label_encoder, y_encoded) := enc in
  classifier <- effect (Sklearn "LogisticRegression.fit")
                  (LogisticRegression_fit params X y_encoded) ;;
  train_accuracy <- effect (Sklearn "LogisticRegression.score")
                      (score classifier X y_encoded) ;;
  emit (Print ("Training accuracy: " ++ format_float ".4f" train_accuracy)) ;;;
  ret (classifier, label_encoder).

(** *** Collecting the training data *)

Context {P : PIL} {FS : FileSystem} {B : Bioclip}.

Definition VALID_STAGES : list string :=
  ["PROESTRUS"; "ESTRUS"; "METESTRUS"; "DIESTRUS"].

Definition SUPPORTED_EXTS : list string :=
  [".jpg"; ".jpeg"; ".png"; ".webp"; ".bmp"].

Definition supported (f : string) : bool :=
  Py.str_in (Py.lower (snd (Py.splitext f))) SUPPORTED_EXTS.

Definition get_embedding (model : BioclipModel) (preprocess : BioclipPreprocess)
  (image_path : string) : M event (option Embedding) :=
  try_except
    (image <- call (Image_open image_path) ;;
     image <- call (convert image "RGB") ;;
     embedding <- call (bioclip_embed model preprocess image) ;;
     ret (Some embedding))
    (fun e =>
       emit (Print ("Error processing image " ++ image_path ++ ": "
                    ++ str_of_exn e)) ;;;
       ret None).

(** One iteration of the loop over the files of a label, on the two lists
    built so far. *)
Definition collect_file (model : BioclipModel) (preprocess : BioclipPreprocess)
  (label label_path : string) (acc : list Embedding * list string)
  (fname : string) : M event (list Embedding * list string) :=
  let '(embeddings, labels) := acc in
  let fpath := Py.path_join label_path fname in
  embedding <- get_embedding model preprocess fpath ;;
  match embedding with
  | Some embedding => ret (embeddings ++ [embedding], labels ++ [Py.upper label])
  | None => ret (embeddings, labels)
  end.

(** One iteration of the loop over the subfolders. *)
Definition collect_label (model : BioclipModel) (preprocess : BioclipPreprocess)
  (train_dir : string) (acc : list Embedding * list string) (label : string)
  : M event (list Embedding * list string) :=
  if negb (Py.str_in (Py.upper label) VALID_STAGES) then
    emit (Print ("Skipping unknown label: " ++ label)) ;;;
    ret acc
  else
    let label_path := Py.path_join train_dir label in
    let files := filter supported (listdir label_path) in
    emit (Print (String "010" "Processing " ++ label ++ " ("
                 ++ Py.str_of_Z (Z.of_nat (List.length files)) ++ " images)...")) ;;;
    fold_each files acc (collect_file model preprocess label label_path).

Definition collect_training_data (train_dir : string) (model : BioclipModel)
  (preprocess : BioclipPreprocess) : M event (list Embedding * list string) :=
  let subfolders :=
    filter (fun d => isdir (Py.path_join train_dir d)) (listdir train_dir) in
  fold_each subfolders ([], []) (collect_label model preprocess train_dir).

End Script.

End TrainClassifier.

(** ** sam3_modal.py *)

(** The Modal functions [sam3_modal.py] calls remotely, and [len] of a
    bytes object. *)
Class ModalRemote {C : Carriers} : Type := {
  segment_remote : Bytes -> json -> json -> outcome Bytes;
  embed_remote : Bytes -> outcome (list float);
  bytes_length : Bytes -> Z
}.

Module Sam3Modal.

Section Script.

Context {C : Carriers} {SK : SklearnLib}.

Definition params : lr_params :=
  {| max_iter := 1000; class_weight := "balanced"; solver := "lbfgs";
     C_reg := 1; random_state := 42 |}.

(** The UTF-8 bytes of the check mark the report line starts with. *)
Definition check_mark : string :=
  String "226" (String "156" (String "133" EmptyString)).

(** [evaluate_method] of [run_comparison_eval]: both classifiers, trained
    and scored on the same embeddings. *)
Definition evaluate_method (name : string)
  (train_emb : list Embedding) (train_labels : list string)
  (test_emb : list Embedding) (test_labels : list string)
  : M event (float * float) :=
  enc <- effect (Sklearn "LabelEncoder.fit_transform")
           (LabelEncoder_fit_transform train_labels) ;;
  let '(le, y_train) := enc in
  y_test <- effect (Sklearn "LabelEncoder.transform")
              (transform le test_labels) ;;
  knn <- effect (Sklearn "KNeighborsClassifier.fit")
           (KNeighborsClassifier_fit 5 "cosine" train_emb y_train) ;;
  knn_pred <- effect (Sklearn "KNeighborsClassifier.predict")
                (predict knn test_emb) ;;
  knn_acc <- effect (Sklearn "accuracy_score")
               (accuracy_score y_test knn_pred) ;;
  linear <- effect (Sklearn "LogisticRegression.fit")
              (LogisticRegression_fit params train_emb y_train) ;;
  linear_pred <- effect (Sklearn "LogisticRegression.predict")
                   (predict linear test_emb) ;;
  linear_acc <- effect (Sklearn "accuracy_score")
                  (accuracy_score y_test linear_pred) ;;
  emit (Print (check_mark ++ " " ++ name ++ ": k-NN="
               ++ format_float ".1f" (knn_acc * 100)
               ++ "%, Linear=" ++ format_float ".1f" (linear_acc * 100)
               ++ "%")) ;;;
  ret (knn_acc, linear_acc).

(** *** The pipeline and the HTTP endpoints *)

Context {RQ : Requests} {MR : ModalRemote}.

(** An entry of the list [process_batch] returns. *)
Record batch_result : Type := {
  cropped_image : option Bytes;
  embedding : option (list float);
  error : option string
}.

(** One iteration of the loop of [process_batch], for the [i]-th of [n]
    images; [segment.remote] is called with its default [bg_mode]. *)
Definition process_one (n : nat) (prompt : string) (results : list batch_result)
  (item : nat * Bytes) : M event (list batch_result) :=
  let '(i, img_bytes) := item in
  emit (Print ("Processing " ++ Py.str_of_Z (Z.of_nat i + 1) ++ "/"
               ++ Py.str_of_Z (Z.of_nat n) ++ "...")) ;;;
  r <- try_except
         (cropped <- call (segment_remote img_bytes (JStr prompt)
                             (JStr "mask_crop")) ;;
          embedding <- call (embed_remote cropped) ;;
          ret {| cropped_image := Some cropped;
                 embedding := Some embedding;
                 error := None |})
         (fun e =>
            ret {| cropped_image := None;
                   embedding := None;
                   error := Some (str_of_exn e) |}) ;;
  ret (results ++ [r]).

Definition process_batch (images_bytes : list Bytes) (prompt : string)
  : M event (list batch_result) :=
  let n := List.length images_bytes in
  fold_each (combine (seq 0 n) images_bytes) [] (process_one n prompt).

(** [item.get(key)] and [item.get(key, default)] on the request body. *)
Definition item_get (item : list (string * json)) (key : string) : json :=
  match Json.dict_lookup item key with
  | Some v => v
  | None => JNull
  end.

Definition item_get_default (item : list (string * json)) (key : string)
  (default : json) : json :=
  match Json.dict_lookup item key with
  | Some v => v
  | None => default
  end.

Definition error_response (msg : string) : json :=
  JObj [("error", JStr msg)].

Definition segment_endpoint (item : list (string * json)) : M event json :=
  let image_b64 := item_get item "image" in
  let prompt := item_get_default item "prompt" (JStr "mouse body") in
  let bg_mode := item_get_default item "bg_mode" (JStr "mask_crop") in
  if Json.falsy image_b64 then ret (error_response "No image provided")
  else
    image_bytes <- Sam3Cloud.json_b64decode image_b64 ;;
    result_bytes <- call (segment_remote image_bytes prompt bg_mode) ;;
    ret (JObj [("image", JStr (b64encode result_bytes));
               ("format", JStr (if Json.is_str "transparent" bg_mode then "png"
                                else "jpeg"))]).

(** The first [try] of [embed_endpoint] returns from the function when the
    image does not decode: its outcome is the bytes or the response. *)
Definition embed_endpoint (item : list (string * json)) : M event json :=
  let image_b64 := item_get item "image" in
  if Json.falsy image_b64 then ret (error_response "No image provided")
  else
    decoded <-
      try_except
        (image_bytes <- Sam3Cloud.json_b64decode image_b64 ;;
         ret (inl image_bytes))
        (fun e =>
           ret (inr (error_response
                       ("Invalid base64 encoding: " ++ str_of_exn e)))) ;;
    match decoded with
    | inr response => ret response
    | inl image_bytes =>
        if (bytes_length image_bytes <? 100)%Z then
          ret (error_response
                 ("Image too small: " ++ Py.str_of_Z (bytes_length image_bytes)
                  ++ " bytes"))
        else
          try_except
            (embedding <- call (embed_remote image_bytes) ;;
             ret (JObj [("embedding", JArr (map JNum embedding))]))
            (fun e =>
               ret (error_response ("Embedding failed: " ++ str_of_exn e)))
    end.

End Script.

End Sam3Modal.

(** * Part II: the vocabulary of the statements

    Predicates and summaries the theorems are written with.  None of them
    is part of the scripts: each says in one place what a statement means by
    a word such as "the first part naming a stage", "the tight box" or "the
    events of one conversion". *)

Unset Implicit Arguments.

(** ** split_data.py *)

Module SplitDataSpec.

(** The name is split on underscores and dots. *)
Definition is_separator (c : ascii) : bool :=
  Ascii.eqb c "_" || Ascii.eqb c ".".

Fixpoint split_where (sep : ascii -> bool) (s : string) : list string :=
  match s with
  | EmptyString => [EmptyString]
  | String c r =>
      if sep c then EmptyString :: split_where sep r
      else match split_where sep r with
           | [] => [String c EmptyString]
           | p :: ps => String c p :: ps
           end
  end.

Definition name_parts (filename : string) : list string :=
  split_where is_separator filename.

(** The uppercase form of a part, with the misspelling corrected. *)
Definition stage_of (part : string) : string :=
  if Py.upper part =? "PROESTTRUS" then "PROESTRUS" else Py.upper part.

Definition names_stage (part : string) : bool :=
  Py.str_in (stage_of part) SplitData.valid_stages.

(** The stage of the first part that names one, else "UNKNOWN". *)
Definition first_stage (filename : string) : string :=
  match find names_stage (name_parts filename) with
  | Some part => stage_of part
  | None => "UNKNOWN"
  end.

End SplitDataSpec.

(** ** Masks and boxes *)

Module MaskSpec.

(** The pixel of a mask at row [y] and column [x]. *)
Definition pixel (m : mask) (y x : nat) : bool := nth x (nth y m []) false.

(** A mask over an image of width [w] and height [h]: [h] rows of [w]
    pixels. *)
Definition over_image (m : mask) (w h : Z) : Prop :=
  Z.of_nat (List.length m) = h
  /\ Forall (fun row => Z.of_nat (List.length row) = w) m.

Definition nonempty (m : mask) : Prop := exists y x, pixel m y x = true.

(** The tightest axis-aligned box of the True pixels: rows [ymin..ymax] and
    columns [xmin..xmax] hold them all, and each bound is attained. *)
Definition tight_box (m : mask) (xmin ymin xmax ymax : nat) : Prop :=
  (exists x, pixel m ymin x = true)
  /\ (exists x, pixel m ymax x = true)
  /\ (exists y, pixel m y xmin = true)
  /\ (exists y, pixel m y xmax = true)
  /\ (forall y x, pixel m y x = true ->
        (ymin <= y <= ymax)%nat /\ (xmin <= x <= xmax)%nat).

(** Every coordinate of the box lies within the image. *)
Definition within (w h : Z) (b : box Z) : Prop :=
  let '(xmin, ymin, xmax, ymax) := b in
  (0 <= xmin <= w /\ 0 <= xmax <= w /\ 0 <= ymin <= h /\ 0 <= ymax <= h)%Z.

(** The box is well-formed and within the image, for integer and for float
    coordinates. *)
Definition well_formed (w h : Z) (b : box Z) : Prop :=
  let '(xmin, ymin, xmax, ymax) := b in
  (0 <= xmin <= xmax /\ xmax <= w /\ 0 <= ymin <= ymax /\ ymax <= h)%Z.

Definition well_formedQ (w h : Z) (b : box float) : Prop :=
  let '(xmin, ymin, xmax, ymax) := b in
  0 <= xmin /\ xmin <= xmax /\ xmax <= inject_Z w
  /\ 0 <= ymin /\ ymin <= ymax /\ ymax <= inject_Z h.

End MaskSpec.

(** ** eval.py: the vote *)

(** The label of a neighbour row, when the row is a dict whose "label" is a
    string. *)
Definition label_of_row (n : json) : option string :=
  match n with
  | JObj kvs =>
      match Json.dict_lookup kvs "label" with
      | Some (JStr s) => Some s
      | _ => None
      end
  | _ => None
  end.

(** The votes after a list of labels. *)
Definition tally (labels : list string) (votes : Eval.votes_dict)
  : Eval.votes_dict :=
  fold_left
    (fun v l => Eval.votes_set v l (Eval.votes_get v l + 1)%Z) labels votes.

(** The number of neighbours voting for a label. *)
Definition votes_for (labels : list string) (l : string) : Z :=
  Z.of_nat (count_occ string_dec labels l).

(** A computation that records no event. *)
Definition silent {E A} (m : M E A) : Prop := fst m = [].

(** ** Events and outcomes of the scripts *)

Section Vocabulary.

Context {C : Carriers} {P : PIL} {RQ : Requests} {B : Bioclip}
  {D : MainDeps}.

(** split_data.py: the copy calls for a list of items. *)
Definition copies (dir label : string) (items : list (string * string))
  : list event :=
  map (fun it => Copy2 (snd it) (Py.path_join (Py.path_join dir label) (fst it)))
    items.

(** unpack_zips.py: "converts it to RGB if needed", the opened image,
    converted unless its mode is RGB already. *)
Definition load_rgb (src : string) : outcome Image :=
  match Image_open src with
  | Ok img => if mode img =? "RGB" then Ok img else convert img "RGB"
  | Raised e => Raised e
  end.

Definition failed_to_convert (file : string) (e : exn) : event :=
  Print ("Failed to convert " ++ file ++ ": " ++ str_of_exn e).

(** What happens to one image file: it is saved as a JPEG named after it,
    or the step that raised is reported. *)
Definition conversion_events (target_dir root file : string) : list event :=
  match load_rgb (Py.path_join root file) with
  | Ok img =>
      let dst := Py.path_join target_dir (fst (Py.splitext file) ++ ".jpg") in
      ImageSave img dst (Some "JPEG") (Some 90%Z)
      :: match save img dst (Some "JPEG") (Some 90%Z) with
         | Ok _ => []
         | Raised e => [failed_to_convert file e]
         end
  | Raised e => [failed_to_convert file e]
  end.

(** The files the loop converts: not Mac junk, and with an image suffix
    whatever its case. *)
Definition is_image_file (file : string) : bool :=
  negb (Py.startswith file "._")
  && Py.endswith_any (Py.lower file) [".heic"; ".jpg"; ".jpeg"; ".png"].

(** The label of a zip, its temporary and its target directory, and the
    events that precede its conversions. *)
Definition zip_label (zip_name : string) : string :=
  Py.upper (fst (Py.splitext zip_name)).

Definition zip_temp_dir (output_dir zip_name : string) : string :=
  Py.path_join (Py.path_join output_dir "temp") (zip_label zip_name).

Definition zip_target_dir (output_dir zip_name : string) : string :=
  Py.path_join output_dir (zip_label zip_name).

Definition zip_prologue (root_dir output_dir zip_name : string) : list event :=
  [Print ("Processing " ++ zip_name ++ " as " ++ zip_label zip_name ++ "...");
   ExtractAll (Py.path_join root_dir zip_name) (zip_temp_dir output_dir zip_name);
   Makedirs (zip_target_dir output_dir zip_name)].

(** sam3_cloud.py: the image a response with status 200 yields, its body
    read as an image or, failing that, the base64 image under the key
    "image" of its JSON body. *)
Definition response_image (r : response) : option Image :=
  match Image_open_bytes (content r) with
  | Ok img => Some img
  | Raised _ =>
      match response_json r with
      | Ok (JObj kvs) =>
          match Json.dict_lookup kvs "image" with
          | Some (JStr s) =>
              match b64decode s with
              | Ok img_data =>
                  match Image_open_bytes img_data with
                  | Ok img => Some img
                  | Raised _ => None
                  end
              | Raised _ => None
              end
          | _ => None
          end
      | _ => None
      end
  end.

(** The request a call sends, and its outcome: none unless the endpoint and
    the token are configured and the image could be encoded. *)
Definition sent_request (cfg : Sam3Cloud.config) (image : Image)
  (prompt bg_mode bg_color : string) (timeout : Z)
  : option (event * outcome response) :=
  if truthy (Sam3Cloud.SAM3_ENDPOINT_URL cfg)
     && truthy (Sam3Cloud.HF_TOKEN cfg)
  then
    match save_bytes image "JPEG" 95 with
    | Ok img_bytes =>
        let url := str_of_opt (Sam3Cloud.SAM3_ENDPOINT_URL cfg) in
        let token := str_of_opt (Sam3Cloud.HF_TOKEN cfg) in
        Some (HttpPost url (b64encode img_bytes) prompt bg_mode bg_color timeout,
              requests_post url token (b64encode img_bytes) prompt bg_mode
                bg_color timeout)
    | Raised _ => None
    end
  else None.

(** The segmented image of a call, if it succeeds: the request was sent,
    answered with status 200, and the answer held an image.  Everything else
    is a failure: missing configuration, an image that cannot be encoded, a
    request that raised (timeout, connection error or other), another
    status, an answer that does not parse. *)
Definition segmented (cfg : Sam3Cloud.config) (image : Image)
  (prompt bg_mode bg_color : string) (timeout : Z) : option Image :=
  match sent_request cfg image prompt bg_mode bg_color timeout with
  | Some (_, Ok r) =>
      if (status_code r =? 200)%Z then response_image r else None
  | _ => None
  end.

(** segment.py: the line printed for a file that failed. *)
Definition error_processing (fname : string) (e : exn) : event :=
  Print ("Error processing " ++ fname ++ ": " ++ str_of_exn e).

(** main.py: an upload that is read and decoded to [image]. *)
Definition decodes_to (file : UploadFile) (image : Image) : Prop :=
  exists contents opened,
    file_read file = Ok contents
    /\ Image_open_bytes contents = Ok opened
    /\ convert opened "RGB" = Ok image.

(** The image the embedding is computed on: the crop if segmentation gave
    one, the image itself otherwise. *)
Definition embedded_image (image : Image) (cropped_image : option Image)
  : Image :=
  match cropped_image with
  | Some c => c
  | None => image
  end.

(** An endpoint call that fails with an HTTP status, having done nothing
    that leaves an event. *)
Definition fails_with {A} (m : M event A) (status : Z) : Prop :=
  fst m = [] /\ exists detail, snd m = Raised (HTTPException status detail).

(** ingest.py: the embedding computation of [get_embedding], load, convert,
    embed. *)
Definition embedding_of (model : BioclipModel) (processor : BioclipPreprocess)
  (image_path : string) : outcome (list float) :=
  match Image_open image_path with
  | Ok opened =>
      match convert opened "RGB" with
      | Ok image =>
          match bioclip_embed model processor image with
          | Ok e => Ok (tolist e)
          | Raised e => Raised e
          end
      | Raised e => Raised e
      end
  | Raised e => Raised e
  end.

(** Events that insert a row, and events that call scikit-learn. *)
Definition is_insert (ev : event) : bool :=
  match ev with
  | TableInsert _ _ => true
  | _ => false
  end.

Definition is_sklearn (ev : event) : bool :=
  match ev with
  | Sklearn _ => true
  | _ => false
  end.

End Vocabulary.

(** ** Traces of whole runs *)

Section RunVocabulary.

Context {C : Carriers} {FS : FileSystem}.

(** The entry of a dict kept as its list of items. *)
Definition dict_get (d : SplitData.files_dict) (label : string)
  : option (list (string * string)) :=
  match find (fun kv => fst kv =? label) d with
  | Some kv => Some (snd kv)
  | None => None
  end.

(** The sources of the copies a run made, in order. *)
Definition copy_sources (t : list event) : list string :=
  flat_map (fun ev => match ev with Copy2 s _ => [s] | _ => [] end) t.

(** The subdirectories of a directory, and the paths of the files in it
    that [split_data.py] takes for images. *)
Definition subfolders_of (dir : string) : list string :=
  filter (fun d => isdir (Py.path_join dir d)) (listdir dir).

Definition eligible_paths (dir : string) : list string :=
  map (Py.path_join dir) (filter SplitData.eligible (listdir dir)).

(** The files [split_dataset] has to copy: those of the subfolders when
    there are subfolders, those of the directory itself otherwise. *)
Definition split_sources (source_dir : string) : list string :=
  match subfolders_of source_dir with
  | [] => eligible_paths source_dir
  | subfolders =>
      flat_map (fun label => eligible_paths (Py.path_join source_dir label))
        subfolders
  end.

(** The directories [split_dataset] creates, and the groups it splits. *)
Definition created_dirs (output_dir : string) : list event :=
  flat_map
    (fun stage =>
       [Makedirs (Py.path_join (Py.path_join output_dir "train") stage);
        Makedirs (Py.path_join (Py.path_join output_dir "test") stage)])
    SplitData.stage_dirs.

Definition files_by_label (source_dir : string) : SplitData.files_dict :=
  match subfolders_of source_dir with
  | [] => SplitData.collect_flat source_dir
  | subfolders => SplitData.collect_subfolders source_dir subfolders
  end.

(** The paths a run saved an image to, in order. *)
Definition saved_paths (t : list event) : list string :=
  flat_map (fun ev => match ev with ImageSave _ p _ _ => [p] | _ => [] end) t.

(** The image files [crop_genitals] goes through: the supported files of
    each subfolder of the input directory, as (label, name). *)
Definition crop_candidates (input_dir : string) : list (string * string) :=
  flat_map
    (fun label =>
       map (fun fname => (label, fname))
         (filter Segment.supported (listdir (Py.path_join input_dir label))))
    (subfolders_of input_dir).

End RunVocabulary.

(** ** ingest.py *)

Section IngestVocabulary.

Context {C : Carriers} {EV : Environ}.

(** The credentials [main] works with: the arguments first, then the
    environment. *)
Definition supabase_url (a : Ingest.args) : option string :=
  or_else (Ingest.arg_url a)
    (or_else (environ_get "NEXT_PUBLIC_SUPABASE_URL")
       (environ_get "SUPABASE_URL")).

Definition supabase_key (a : Ingest.args) : option string :=
  or_else (Ingest.arg_key a) (environ_get "SUPABASE_SERVICE_ROLE_KEY").

(** Events that clear the table. *)
Definition is_delete (ev : event) : bool :=
  match ev with
  | TableDelete _ => true
  | _ => false
  end.

End IngestVocabulary.

(** ** eval.py: the order of the votes *)

(** The labels in the order in which they first occur, leaving out those
    seen before. *)
Fixpoint firsts (seen : list string) (labels : list string) : list string :=
  match labels with
  | [] => []
  | l :: rest =>
      if existsb (String.eqb l) seen then firsts seen rest
      else l :: firsts (l :: seen) rest
  end.

(** ** sam3_cloud.py *)

Section CloudVocabulary.

Context {C : Carriers} {P : PIL}.

(** [Image.open(path).convert("RGB")]: the image as the scripts load it. *)
Definition load_rgb_always (path : string) : outcome Image :=
  match Image_open path with
  | Ok opened => convert opened "RGB"
  | Raised e => Raised e
  end.

End CloudVocabulary.

(** ** train_classifier.py, eval.py and sam3_modal.py: what the loops build *)

Section LoopVocabulary.

Context {C : Carriers} {P : PIL} {FS : FileSystem} {B : Bioclip}
  {SB : Supabase} {SK : SklearnLib} {MR : ModalRemote}.

(** The embedding of the image at a path: load, convert, embed. *)
Definition embedding_at (model : BioclipModel) (preprocess : BioclipPreprocess)
  (path : string) : outcome Embedding :=
  match load_rgb_always path with
  | Ok image => bioclip_embed model preprocess image
  | Raised e => Raised e
  end.

(** The training samples of a directory: for each subfolder named after a
    stage, whatever its case, and each supported file in it whose embedding
    can be computed, the embedding and the uppercased name of the
    subfolder. *)
Definition training_pairs (train_dir : string) (model : BioclipModel)
  (preprocess : BioclipPreprocess) : list (Embedding * string) :=
  flat_map
    (fun label =>
       if Py.str_in (Py.upper label) TrainClassifier.VALID_STAGES then
         flat_map
           (fun fname =>
              match embedding_at model preprocess
                      (Py.path_join (Py.path_join train_dir label) fname) with
              | Ok e => [(e, Py.upper label)]
              | Raised _ => []
              end)
           (filter TrainClassifier.supported
              (listdir (Py.path_join train_dir label)))
       else [])
    (subfolders_of train_dir).

(** The answer of the k-NN classifier, which never raises. *)
Definition knn_answer (q : list float) (supabase : Client) (k : Z) : string :=
  match snd (Eval.classify_with_knn q supabase k) with
  | Ok r => r
  | Raised _ => ""
  end.

(** The evaluated samples of a test directory under k-NN: the true label
    and the answer, for each file as above. *)
Definition knn_pairs (supabase : Client) (k : Z) (test_dir : string)
  (model : BioclipModel) (preprocess : BioclipPreprocess)
  : list (string * string) :=
  flat_map
    (fun label =>
       if Py.str_in (Py.upper label) Eval.VALID_STAGES then
         flat_map
           (fun fname =>
              match embedding_at model preprocess
                      (Py.path_join (Py.path_join test_dir label) fname) with
              | Ok e => [(Py.upper label, knn_answer (tolist e) supabase k)]
              | Raised _ => []
              end)
           (filter Eval.supported (listdir (Py.path_join test_dir label)))
       else [])
    (subfolders_of test_dir).

(** The entry [process_batch] returns for an image. *)
Definition batch_entry (prompt : string) (img_bytes : Bytes)
  : Sam3Modal.batch_result :=
  match segment_remote img_bytes (JStr prompt) (JStr "mask_crop") with
  | Ok cropped =>
      match embed_remote cropped with
      | Ok embedding =>
          {| Sam3Modal.cropped_image := Some cropped;
             Sam3Modal.embedding := Some embedding;
             Sam3Modal.error := None |}
      | Raised e =>
          {| Sam3Modal.cropped_image := None;
             Sam3Modal.embedding := None;
             Sam3Modal.error := Some (str_of_exn e) |}
      end
  | Raised e =>
      {| Sam3Modal.cropped_image := None;
         Sam3Modal.embedding := None;
         Sam3Modal.error := Some (str_of_exn e) |}
  end.

End LoopVocabulary.

(** ** main.py: the stages of the start-up *)

Section StartupVocabulary.

Context {C : Carriers} {P : PIL} {RQ : Requests} {B : Bioclip}
  {SK : SklearnLib} {S2 : Sam2} {O : Owlv2} {D : MainDeps}
  {FS : FileSystem} {RG : RequestsGet} {MS : MainStartup}.

(** "Load BioCLIP", "Load Linear Probe classifier" and "Load segmentation
    model based on config", as [load_models] has them one after the
    other. *)
Definition load_bioclip_stage : SM Main.globals event unit :=
  (stry
     (mp <- slift (call (create_model_and_transforms "hf-hub:imageomics/bioclip")) ;;
      smodify (Main.set_bioclip (Some (fst mp)) (Some (snd mp))) ;;;
      Main.print "BioCLIP model loaded successfully.")
     (fun e =>
        Main.print ("Error loading BioCLIP model: " ++ str_of_exn e) ;;;
        sraise e))%st.

Definition load_classifier_stage : SM Main.globals event unit :=
  (let classifier_path := Py.path_join module_dir "classifier.pkl" in
   if path_exists classifier_path then
     Main.print "Loading Linear Probe classifier..." ;;;
     stry
       (loaded <- slift (call (joblib_load classifier_path)) ;;
        let '(classifier, label_encoder, classes) := loaded in
        smodify
          (Main.set_classifier_data
             (Some {| Main.cd_classifier := classifier;
                      Main.cd_label_encoder := label_encoder;
                      Main.cd_classes := classes |})) ;;;
        Main.print ("Classifier loaded. Classes: " ++ repr_list classes))
       (fun e =>
          Main.print ("Warning: Could not load classifier: " ++ str_of_exn e) ;;;
          smodify (Main.set_classifier_data None))
   else
     Main.print ("Warning: Classifier not found at " ++ classifier_path ++ ".") ;;;
     smodify (Main.set_classifier_data None))%st.

Definition load_segmentation_stage : SM Main.globals event unit :=
  (g <- sget ;;
   Main.print ("Configured segmentation model: " ++ Main.SEGMENTATION_MODEL g) ;;;
   (if Py.str_in (Main.SEGMENTATION_MODEL g) ["evf"; "owlv2"; "sam3_cloud"] then
      Main.print ("Segmentation prompt: '" ++ Main.SEGMENTATION_PROMPT g ++ "'")
    else sret tt) ;;;
   stry
     (if Main.SEGMENTATION_MODEL g =? "sam3_cloud" then
        ready <- slift (Sam3Cloud.is_endpoint_ready (Main.sam3_config g)) ;;
        if ready : bool then
          Main.print (Main.check_mark ++ " SAM3 cloud endpoint is ready!")
        else
          Main.print
            (Main.hourglass
             ++ " SAM3 cloud endpoint not ready yet (will retry on each request)")
      else if Main.SEGMENTATION_MODEL g =? "evf" then Main.load_evf_sam2
      else if Main.SEGMENTATION_MODEL g =? "sam2" then Main.load_sam2
      else if Main.SEGMENTATION_MODEL g =? "owlv2" then Main.load_owlv2
      else sret tt)
     (fun e =>
        Main.print ("Warning: Failed to load segmentation model ("
                    ++ Main.SEGMENTATION_MODEL g ++ "): " ++ str_of_exn e) ;;;
        Main.print "Auto-cropping will be disabled."))%st.

(** What the health check says of segmentation agrees with the segmenters:
    enabled means that the configured model is a local one and is loaded
    as its segmenter requires. *)
Definition segmenter_ready (g : Main.globals) : Prop :=
  (Main.SEGMENTATION_MODEL g = "evf" /\ Main.evf_loaded g = true)
  \/ (Main.SEGMENTATION_MODEL g = "sam2"
      /\ Main.sam2_processor g <> None /\ Main.sam2_model g <> None)
  \/ (Main.SEGMENTATION_MODEL g = "owlv2"
      /\ Main.owlv2_processor g <> None /\ Main.owlv2_model g <> None).

End StartupVocabulary.

(** ** A small concrete world

    One instance of every interface, on which the scripts run by
    computation: pictures are a name, a size and a mode. *)

Module Demo.

Record picture : Type := {
  pic_name : string;
  pic_size : Z * Z;
  pic_mode : string
}.

Definition carriers : Carriers :=
  {| Image := picture; Bytes := string; Embedding := list Q |}.

(** Files named [broken.jpg] do not open; files on disk are 100 x 400 and
    PNG files are RGBA; uploads are 4 x 3. *)
Definition open_path (path : string) : outcome picture :=
  if Py.endswith path "broken.jpg" then
    Raised (Exc OtherException "cannot identify image file")
  else
    Ok {| pic_name := path; pic_size := (100, 400)%Z;
          pic_mode := if Py.endswith (Py.lower path) ".png" then "RGBA"
                      else "RGB" |}.

Definition open_bytes (b : string) : outcome picture :=
  if b =? "" then Raised (Exc OtherException "cannot identify image file")
  else Ok {| pic_name := b; pic_size := (4, 3)%Z; pic_mode := "RGB" |}.

Definition convert_to (img : picture) (m : string) : outcome picture :=
  Ok {| pic_name := pic_name img; pic_size := pic_size img; pic_mode := m |}.

(** Cropping refuses a box whose right or lower side comes first, as Pillow
    does. *)
Definition crop_to (img : picture) (b : box float) : outcome picture :=
  let '(x0, y0, x1, y1) := b in
  if Qltb x1 x0 || Qltb y1 y0 then
    Raised (Exc ValueError "Coordinate 'right' is less than 'left'")
  else
    Ok {| pic_name := pic_name img ++ "#crop";
          pic_size := (Qfloor (x1 - x0), Qfloor (y1 - y0));
          pic_mode := pic_mode img |}.

Definition pil : @PIL carriers :=
  @Build_PIL carriers
    open_path                            (* Image_open *)
    open_bytes                           (* Image_open_bytes *)
    pic_mode                             (* mode *)
    pic_size                             (* size *)
    convert_to                           (* convert *)
    crop_to                              (* crop *)
    (fun _ _ _ _ => Ok tt)               (* save *)
    (fun img _ _ => Ok (pic_name img)).  (* save_bytes *)

Definition file_system : FileSystem :=
  {| path_exists := fun _ => true;
     isdir := fun p => negb (Py.endswith p ".txt");
     listdir := fun p =>
       if p =? "raw" then ["ESTRUS"; "notes.txt"]
       else if p =? "raw/ESTRUS" then ["empty.jpg"; "broken.jpg"; "m1.jpg"]
       else [] |}.

Definition random : Random :=
  {| shuffle := fun A _ xs => rev xs;
     shuffle_perm := fun A _ xs => Permutation_rev xs |}.

Definition zip_files : ZipFiles :=
  {| extractall := fun _ _ => Ok tt;
     walk_extracted := fun _ temp_dir =>
       [(temp_dir, [], ["a.HEIC"; "._a.HEIC"; "broken.jpg"; "notes.txt"; "c.png"])] |}.

(** The detector finds nothing in [empty.jpg], and elsewhere one box in the
    padding to the right of a portrait image. *)
Definition detect (img : picture) : outcome detections :=
  if Py.endswith (pic_name img) "empty.jpg" then
    Ok {| scores := []; boxes := [] |}
  else
    Ok {| scores := [9 # 10]; boxes := [(300, 10, 350, 60)] |}.

Definition owlv2 : @Owlv2 carriers :=
  @Build_Owlv2 carriers unit unit
    (fun _ => Ok tt)                     (* Owlv2Processor_from_pretrained *)
    (fun _ => Ok tt)                     (* Owlv2Model_from_pretrained *)
    (fun _ _ img _ _ => detect img)      (* Owlv2_detect *)
    (fun _ => Ok 0%nat).                 (* argmax *)

(** The endpoint at [https://slow] times out; any other answers 200 with an
    image. *)
Definition post (url : string) : outcome (@response carriers) :=
  if url =? "https://slow" then Raised (Exc Timeout "timed out")
  else Ok {| status_code := 200; content := "segmented" : @Bytes carriers;
             text := ""; response_json := Raised (Exc ValueError "not JSON") |}.

Definition requests : @Requests carriers :=
  @Build_Requests carriers
    (fun url _ _ _ _ _ _ => post url)    (* requests_post *)
    (fun b => b)                         (* b64encode *)
    (fun s => Ok s)                      (* b64decode *)
    (fun _ => "{...}").                  (* repr_json *)

Definition embed (img : picture) : outcome (list Q) :=
  if Py.endswith (pic_name img) "#crop" then Ok [0; 1] else Ok [1; 0].

Definition bioclip : @Bioclip carriers :=
  @Build_Bioclip carriers unit unit
    (fun _ => Ok (tt, tt))               (* create_model_and_transforms *)
    (fun _ _ img => embed img)           (* bioclip_embed *)
    (fun e => e).                        (* tolist *)

Definition encode (ls : list string) : list Z :=
  map (fun l => if l =? "DIESTRUS" then 0%Z else 1%Z) ls.

Definition decode (ys : list Z) : list string :=
  map (fun y => if (y =? 0)%Z then "DIESTRUS" else "ESTRUS") ys.

(** A classifier that always answers class 1 with probability 3/4. *)
Definition sklearn : @SklearnLib carriers :=
  @Build_SklearnLib carriers unit unit
    (fun _ xs => Ok (map (fun _ => 1%Z) xs))              (* predict *)
    (fun _ xs => Ok (map (fun _ => [1 # 4; 3 # 4]) xs))   (* predict_proba *)
    (fun _ => ["DIESTRUS"; "ESTRUS"])                     (* classes_ *)
    (fun _ ys => Ok (decode ys))                          (* inverse_transform *)
    (fun _ ls => Ok (encode ls))                          (* transform *)
    (fun ls => Ok (tt, encode ls))           (* LabelEncoder_fit_transform *)
    (fun _ _ _ => Ok tt)                     (* LogisticRegression_fit *)
    (fun _ _ _ _ => Ok tt)                   (* KNeighborsClassifier_fit *)
    (fun _ _ _ => Ok 1)                      (* score *)
    (fun _ _ => Ok (1 # 2))                  (* accuracy_score *)
    (fun _ _ => "0.5").                      (* format_float *)

(** A 4 x 3 mask with three True pixels. *)
Definition demo_mask : mask :=
  [[false; false; false; false];
   [false; true;  true;  false];
   [false; false; true;  false]].

Definition sam2 : @Sam2 carriers :=
  @Build_Sam2 carriers unit unit (fun _ _ _ _ => Ok [[demo_mask]]).

Definition main_deps : @MainDeps carriers :=
  @Build_MainDeps carriers
    (fun _ _ => ret None)                (* segment_with_evf_sam2 *)
    string                               (* UploadFile *)
    (fun f => Ok f).                     (* file_read *)

(** The rows the remote procedure answers with. *)
Definition three_neighbours : list json :=
  [JObj [("label", JStr "estrus")];
   JObj [("label", JStr "Diestrus")];
   JObj [("label", JStr "ESTRUS")]].

Definition supabase : Supabase :=
  {| Client := unit;
     create_client := fun _ _ => Ok tt;
     table_insert := fun _ _ _ => Ok tt;
     table_delete_all := fun _ _ => Ok tt;
     rpc := fun _ _ _ _ _ => Ok (JArr three_neighbours) |}.

Definition environ : Environ :=
  {| environ_get := fun _ => None |}.

Definition sam3_configured : Sam3Cloud.config :=
  {| Sam3Cloud.SAM3_ENDPOINT_URL := Some "https://sam3";
     Sam3Cloud.HF_TOKEN := Some "hf_token" |}.

Definition sam3_unconfigured : Sam3Cloud.config :=
  {| Sam3Cloud.SAM3_ENDPOINT_URL := None; Sam3Cloud.HF_TOKEN := None |}.

Definition classifier_pkl : @Main.classifier_record carriers sklearn :=
  @Main.Build_classifier_record carriers sklearn tt tt ["DIESTRUS"; "ESTRUS"].

(** The server's globals with everything loaded, for a given segmentation
    model. *)
Definition loaded (segmentation_model : string) (use_linear_probe : bool)
  : @Main.globals carriers bioclip sklearn sam2 owlv2 :=
  @Main.Build_globals carriers bioclip sklearn sam2 owlv2
    segmentation_model                   (* SEGMENTATION_MODEL *)
    use_linear_probe                     (* USE_LINEAR_PROBE *)
    "mouse genitalia"                    (* SEGMENTATION_PROMPT *)
    sam3_configured                      (* sam3_config *)
    (Some tt) (Some tt)                  (* bioclip_model, bioclip_preprocess *)
    (Some classifier_pkl)                (* classifier_data *)
    false                                (* evf_loaded *)
    (Some tt) (Some tt)                  (* sam2_model, sam2_processor *)
    (Some tt) (Some tt).                 (* owlv2_model, owlv2_processor *)

(** The globals before any model is loaded. *)
Definition unloaded : @Main.globals carriers bioclip sklearn sam2 owlv2 :=
  @Main.Build_globals carriers bioclip sklearn sam2 owlv2
    "sam3_cloud" false "mouse genitalia" sam3_unconfigured
    None None None false None None None None.

(** The globals with the models loaded, the probe enabled and no
    classifier. *)
Definition no_classifier : @Main.globals carriers bioclip sklearn sam2 owlv2 :=
  @Main.Build_globals carriers bioclip sklearn sam2 owlv2
    "sam2" true "mouse genitalia" sam3_configured
    (Some tt) (Some tt) None false (Some tt) (Some tt) (Some tt) (Some tt).

(** An upload as it decodes, its crop, a file on disk, and the files of one
    label. *)
Definition upload : picture :=
  {| pic_name := "upload"; pic_size := (4, 3)%Z; pic_mode := "RGB" |}.

Definition cropped_upload : picture :=
  {| pic_name := "upload#crop"; pic_size := (4, 3)%Z; pic_mode := "RGB" |}.

Definition empty_jpg : picture :=
  {| pic_name := "raw/ESTRUS/empty.jpg"; pic_size := (100, 400)%Z;
     pic_mode := "RGB" |}.

Definition three_files : list (string * string) :=
  [("a.jpg", "src/a.jpg"); ("b.jpg", "src/b.jpg"); ("c.jpg", "src/c.jpg")].

Definition two_files : list (string * string) :=
  [("a.jpg", "src/a.jpg"); ("b.jpg", "src/b.jpg")].

End Demo.
(** ** A second concrete world

    A flat directory of images, an archive that does not extract, a
    detector that finds two boxes, a database that answers by the number of
    neighbours asked for, and the interfaces of the start-up, of the EVF
    wrapper and of the Modal functions.  Pictures are those of [Demo]. *)

Module Lab.

(** [flat] holds files and no subfolder; [zips] holds three archives;
    [missing] does not exist. *)
Definition file_system : FileSystem :=
  {| path_exists := fun p => negb (p =? "missing");
     isdir := fun _ => false;
     listdir := fun p =>
       if p =? "flat" then
         ["estrus_1.jpg"; "3_Diestrus.png"; "notes.txt"; "ESTRUS_2.jpeg"]
       else if p =? "zips" then ["a.zip"; "bad.zip"; "c.zip"]
       else [] |}.

(** [bad.zip] is not a zip file; the others are empty. *)
Definition zip_files : ZipFiles :=
  {| extractall := fun zip_path _ =>
       if Py.endswith zip_path "bad.zip" then
         Raised (Exc OtherException "File is not a zip file")
       else Ok tt;
     walk_extracted := fun _ _ => [] |}.

(** Two boxes inside a 100 x 400 image, the second with the higher
    score. *)
Definition two_boxes : detections :=
  {| scores := [1 # 2; 9 # 10];
     boxes := [(0, 0, 10, 10); (30, 200, 70, 260)] |}.

Definition owlv2 : @Owlv2 Demo.carriers :=
  @Build_Owlv2 Demo.carriers unit unit
    (fun _ => Ok tt)                     (* Owlv2Processor_from_pretrained *)
    (fun _ => Ok tt)                     (* Owlv2Model_from_pretrained *)
    (fun _ _ _ _ _ => Ok two_boxes)      (* Owlv2_detect *)
    (fun _ => Ok 1%nat).                 (* argmax *)

(** Asked for no neighbour the remote procedure fails; asked for one it
    finds none; asked for two it answers with a row that has no label; and
    otherwise with three rows of different labels. *)
Definition one_row_without_label : list json :=
  [JObj [("label", JStr "estrus")]; JObj [("id", JNum 7)]].

Definition three_labels : list json :=
  [JObj [("label", JStr "metestrus")];
   JObj [("label", JStr "estrus")];
   JObj [("label", JStr "Diestrus")]].

Definition supabase : Supabase :=
  {| Client := unit;
     create_client := fun _ _ => Ok tt;
     table_insert := fun _ _ _ => Ok tt;
     table_delete_all := fun _ _ => Ok tt;
     rpc := fun _ _ _ _ k =>
       if (k =? 0)%Z then Raised (Exc OtherException "connection refused")
       else if (k =? 1)%Z then Ok (JArr [])
       else if (k =? 2)%Z then Ok (JArr one_row_without_label)
       else Ok (JArr three_labels) |}.

Definition requests_get : @RequestsGet Demo.carriers :=
  @Build_RequestsGet Demo.carriers
    (fun _ _ _ =>
       Ok {| status_code := 200; content := "ok" : @Bytes Demo.carriers;
             text := "ok"; response_json := Raised (Exc ValueError "not JSON") |}).

(** A server whose classifier file loads and whose SAM 2.1 loads; the EVF
    repository is not installed. *)
Definition startup : @MainStartup Demo.carriers Demo.sklearn Demo.sam2 :=
  @Build_MainStartup Demo.carriers Demo.sklearn Demo.sam2
    "/srv"                                            (* module_dir *)
    (fun _ => Ok (tt, tt, ["DIESTRUS"; "ESTRUS"]))    (* joblib_load *)
    (fun _ => "['DIESTRUS', 'ESTRUS']")               (* repr_list *)
    (fun _ => Ok tt)                  (* Sam2Processor_from_pretrained *)
    (fun _ => Ok tt)                  (* Sam2Model_from_pretrained *)
    (fun _ => ([], Raised (Exc ImportError "No module named 'model'"))).

(** The server's variables as the module sets them at import, for a given
    segmentation model. *)
Definition at_import (segmentation_model : string) (use_linear_probe : bool)
  : @Main.globals Demo.carriers Demo.bioclip Demo.sklearn Demo.sam2 Demo.owlv2 :=
  @Main.Build_globals Demo.carriers Demo.bioclip Demo.sklearn Demo.sam2
    Demo.owlv2
    segmentation_model use_linear_probe "mouse genitalia"
    Demo.sam3_configured
    None None None false None None None None.

(** The wrapper's inference finds the demo mask; its imports fail. *)
Definition evf : @EvfSam Demo.carriers :=
  @Build_EvfSam Demo.carriers unit unit
    (Raised (Exc ImportError "No module named 'model'"))  (* evf_imports *)
    false                                                 (* cuda_is_available *)
    (fun _ => Ok tt)                       (* AutoTokenizer_from_pretrained *)
    (fun _ _ => Ok tt)                     (* EvfSam2Model_from_pretrained *)
    (fun m => Ok m)                        (* model_cuda *)
    (fun _ _ _ _ _ _ => Ok Demo.demo_mask) (* evf_predict_mask *)
    (fun _ => [Print "Traceback (most recent call last): ..."]).

Definition evf_loaded : @EvfSamWrapper.evf_globals Demo.carriers evf :=
  @EvfSamWrapper.Build_evf_globals Demo.carriers evf
    (Some tt) (Some tt) (Some "cpu") (Some "torch.float32").

Definition evf_at_import : @EvfSamWrapper.evf_globals Demo.carriers evf :=
  @EvfSamWrapper.Build_evf_globals Demo.carriers evf None None None None.

(** The remote functions: a thumbnail is 64 bytes long, anything else
    2048. *)
Definition modal : @ModalRemote Demo.carriers :=
  @Build_ModalRemote Demo.carriers
    (fun (b : string) _ _ => Ok (b ++ "#segmented")%string)  (* segment.remote *)
    (fun _ => Ok [1; 0])                                     (* embed.remote *)
    (fun b : string => if b =? "thumbnail" then 64%Z else 2048%Z).

(** A row of the ingestion of [raw] in [Demo], and command lines of
    [ingest.py]. *)
Definition m1_row : reference_row :=
  {| row_label := "ESTRUS"; row_embedding := [1; 0];
     row_image_path := "raw/ESTRUS/m1.jpg"; row_filename := "m1.jpg";
     row_original_path := "raw/ESTRUS/m1.jpg" |}.

Definition ingest_args (dir : string) (clear : bool) : Ingest.args :=
  {| Ingest.arg_dir := dir; Ingest.arg_url := Some "https://db";
     Ingest.arg_key := Some "key"; Ingest.arg_clear := clear |}.

End Lab.
(** * Part III: theorems *)

Import MaskSpec.

(** ** Facts about the effect monad *)

Section EffFacts.

Variable E : Type.

Lemma bind_ok {A B} (t : list E) (a : A) (k : A -> M E B) :
  bind (t, Ok a) k = (t ++ fst (k a), snd (k a)).
Proof. unfold bind. destruct (k a); reflexivity. Qed.

Lemma bind_raised {A B} (t : list E) (e : exn) (k : A -> M E B) :
  bind (t, Raised e) k = (t, Raised e).
Proof. reflexivity. Qed.

Lemma bind_ret {A B} (a : A) (k : A -> M E B) : bind (ret a) k = k a.
Proof. unfold ret. rewrite bind_ok. simpl. destruct (k a); reflexivity. Qed.

Lemma bind_call_ok {A B} (a : A) (k : A -> M E B) : bind (call (Ok a)) k = k a.
Proof. apply bind_ret. Qed.

Lemma bind_call_raised {A B} (e : exn) (k : A -> M E B) :
  bind (call (Raised e)) k = raise e.
Proof. reflexivity. Qed.

Lemma for_each_cons {A} (x : A) (xs : list A) (body : A -> M E unit) :
  for_each (x :: xs) body = bind (body x) (fun _ => for_each xs body).
Proof. reflexivity. Qed.

Lemma for_each_emit {A} (f : A -> E) (xs : list A) :
  for_each xs (fun x => emit (f x)) = (map f xs, Ok tt).
Proof.
  induction xs as [|x xs IH]; [reflexivity|].
  rewrite for_each_cons. unfold emit at 1. rewrite bind_ok, IH. reflexivity.
Qed.

(** A loop whose body never raises runs it on every element. *)
Lemma for_each_total {A} (xs : list A) (body : A -> M E unit) :
  (forall x, In x xs -> snd (body x) = Ok tt) ->
  for_each xs body = (flat_map (fun x => fst (body x)) xs, Ok tt).
Proof.
  induction xs as [|x xs IH]; intros H; [reflexivity|].
  rewrite for_each_cons.
  assert (Hx := H x (or_introl eq_refl)).
  destruct (body x) as [t o] eqn:Eb. simpl in Hx. subst o.
  rewrite bind_ok, IH by (intros y Hy; apply H; right; exact Hy).
  simpl. rewrite Eb. reflexivity.
Qed.

(** A [try] whose handler returns never raises. *)
Lemma try_except_total {A} (m : M E A) (h : exn -> M E A) :
  (forall e, exists a, snd (h e) = Ok a) ->
  exists a, snd (try_except m h) = Ok a.
Proof.
  intros Hh. destruct m as [t [a|e]]; simpl.
  - now exists a.
  - destruct (Hh e) as [a Ha]. destruct (h e) as [t' o]. simpl in *. now exists a.
Qed.

Lemma try_except_ok {A} (t : list E) (a : A) (h : exn -> M E A) :
  try_except (t, Ok a) h = (t, Ok a).
Proof. reflexivity. Qed.

Lemma try_except_raised {A} (t : list E) (e : exn) (h : exn -> M E A) :
  try_except (t, Raised e) h = (t ++ fst (h e), snd (h e)).
Proof. unfold try_except. destruct (h e); reflexivity. Qed.

End EffFacts.

(** Running a computation whose calls are known. *)
Ltac run :=
  cbn [bind try_except call effect emit ret raise fst snd app] in *.

(** ** split_data.py: the label of a file name *)

(** Replacing dots by underscores and splitting on underscores is splitting
    on both. *)
Lemma split_replace_dots (s : string) :
  Py.split "_" (Py.replace_char "." "_" s)
  = SplitDataSpec.split_where SplitDataSpec.is_separator s.
Proof.
  induction s as [|c r IH]; simpl; [reflexivity|].
  unfold Py.replace_char in IH. rewrite IH.
  unfold SplitDataSpec.is_separator.
  destruct (Ascii.eqb_spec c "."%char) as [->|Hdot]; simpl.
  - reflexivity.
  - rewrite orb_false_r. reflexivity.
Qed.

Lemma parse_label_parts_cons (p : string) (ps : list string) :
  SplitData.parse_label_parts (p :: ps)
  = if SplitDataSpec.names_stage p then SplitDataSpec.stage_of p
    else SplitData.parse_label_parts ps.
Proof. reflexivity. Qed.

Lemma parse_label_parts_find (parts : list string) :
  SplitData.parse_label_parts parts
  = match find SplitDataSpec.names_stage parts with
    | Some part => SplitDataSpec.stage_of part
    | None => "UNKNOWN"
    end.
Proof.
  induction parts as [|p ps IH]; [reflexivity|].
  rewrite parse_label_parts_cons. cbn [find].
  destruct (SplitDataSpec.names_stage p); [reflexivity | exact IH].
Qed.

Lemma str_in_In (x : string) (xs : list string) :
  Py.str_in x xs = true -> In x xs.
Proof.
  unfold Py.str_in. intros H. apply existsb_exists in H.
  destruct H as [y [Hy Heq]]. apply String.eqb_eq in Heq. now subst.
Qed.

Lemma parse_label_parts_range (parts : list string) :
  In (SplitData.parse_label_parts parts)
     ["PROESTRUS"; "ESTRUS"; "METESTRUS"; "DIESTRUS"; "UNKNOWN"].
Proof.
  induction parts as [|p ps IH].
  - simpl. tauto.
  - rewrite parse_label_parts_cons.
    destruct (SplitDataSpec.names_stage p) eqn:E; [|exact IH].
    apply str_in_In in E. unfold SplitData.valid_stages in E.
    simpl in E |- *. tauto.
Qed.


Example parse_label_ex1 :
  SplitData.parse_label "222_10_11_METESTRUS.jpg" = "METESTRUS".
Proof. reflexivity. Qed.

Example parse_label_ex2 :
  SplitData.parse_label "a_proesttrus_estrus.png" = "PROESTRUS".
Proof. reflexivity. Qed.

Example parse_label_ex3 :
  SplitData.parse_label "IMG_0012.jpeg" = "UNKNOWN".
Proof. reflexivity. Qed.

(** ** split_data.py: the split of a label *)

Lemma int_of_Q_floor (q : Q) : 0 <= q -> Py.int_of_Q q = Qfloor q.
Proof.
  destruct q as [n d]. unfold Qle, Py.int_of_Q, Qfloor. simpl. intros H.
  apply Z.quot_div_nonneg; lia.
Qed.

Lemma slice_app {A} (xs : list A) (k : Z) :
  Py.slice_to xs k ++ Py.slice_from xs k = xs.
Proof. apply firstn_skipn. Qed.

Lemma slice_to_length {A} (xs : list A) (k : Z) :
  (0 <= k <= Z.of_nat (List.length xs))%Z ->
  Z.of_nat (List.length (Py.slice_to xs k)) = k.
Proof.
  intros H. unfold Py.slice_to, Py.slice_index.
  rewrite length_firstn.
  destruct (Z.ltb_spec k 0); lia.
Qed.

Lemma floor_ratio_bounds (n : Z) (r : Q) :
  (0 <= n)%Z -> 0 <= r -> r <= 1 ->
  (0 <= Qfloor (inject_Z n * r) <= n)%Z.
Proof.
  intros Hn H0 H1.
  assert (Hlo : 0 <= inject_Z n * r).
  { apply Qmult_le_0_compat; [|exact H0].
    change 0 with (inject_Z 0). rewrite <- Zle_Qle. exact Hn. }
  assert (Hhi : inject_Z n * r <= inject_Z n).
  { rewrite <- (Qmult_1_r (inject_Z n)) at 2.
    rewrite !(Qmult_comm (inject_Z n)).
    apply Qmult_le_compat_r; [exact H1|].
    change 0 with (inject_Z 0). rewrite <- Zle_Qle. exact Hn. }
  split.
  - change 0%Z with (Qfloor (inject_Z 0)) at 1.
    apply Qfloor_resp_le. exact Hlo.
  - rewrite <- (Qfloor_Z n) at 2. apply Qfloor_resp_le. exact Hhi.
Qed.

Section SplitFacts.

Context {C : Carriers} {R : Random}.

Lemma copy_items_run (dir label : string) (items : list (string * string)) :
  SplitData.copy_items dir label items = (copies dir label items, Ok tt).
Proof. unfold SplitData.copy_items. apply for_each_emit. Qed.

Lemma split_label_run (train_dir test_dir : string) (r : float) (i : nat)
  (label : string) (items : list (string * string)) :
  SplitData.split_label train_dir test_dir r i label items
  = (copies train_dir label (SplitData.train_items (shuffle i items) r)
     ++ copies test_dir label (SplitData.test_items (shuffle i items) r),
     Ok tt).
Proof.
  unfold SplitData.split_label. rewrite !copy_items_run, bind_ok. reflexivity.
Qed.

Lemma train_test_app (items : list (string * string)) (r : float) :
  SplitData.train_items items r ++ SplitData.test_items items r = items.
Proof. apply slice_app. Qed.

Lemma NoDup_app_disjoint {A} (a b : list A) (x : A) :
  NoDup (a ++ b) -> In x a -> ~ In x b.
Proof.
  intros Hnd Ha Hb. apply in_split in Ha. destruct Ha as [a1 [a2 ->]].
  rewrite <- app_assoc in Hnd. apply NoDup_remove_2 in Hnd.
  apply Hnd. rewrite !in_app_iff. right. right. exact Hb.
Qed.

Lemma train_items_length (items : list (string * string)) (r : float) :
  0 <= r -> r <= 1 ->
  Z.of_nat (List.length (SplitData.train_items items r))
  = Qfloor (inject_Z (Z.of_nat (List.length items)) * r).
Proof.
  intros H0 H1. unfold SplitData.train_items, SplitData.split_idx.
  assert (Hb := floor_ratio_bounds (Z.of_nat (List.length items)) r
                  (Nat2Z.is_nonneg _) H0 H1).
  rewrite int_of_Q_floor.
  - apply slice_to_length. exact Hb.
  - apply Qmult_le_0_compat; [|exact H0].
    change 0 with (inject_Z 0). rewrite <- Zle_Qle. apply Nat2Z.is_nonneg.
Qed.


End SplitFacts.

(** ** Facts about Python strings *)

Lemma append_assoc (a b c : string) : ((a ++ b) ++ c = a ++ (b ++ c))%string.
Proof. induction a as [|x a IH]; simpl; [reflexivity | now rewrite IH]. Qed.

Lemma str_rev_onto_app (s acc : string) :
  Py.str_rev_onto s acc = (Py.str_rev_onto s "" ++ acc)%string.
Proof.
  revert acc. induction s as [|c r IH]; intros acc; simpl; [reflexivity|].
  rewrite IH, (IH (String c "")), append_assoc. reflexivity.
Qed.

Lemma str_rev_app (a b : string) :
  Py.str_rev (a ++ b) = (Py.str_rev b ++ Py.str_rev a)%string.
Proof.
  unfold Py.str_rev. induction a as [|x a IH]; simpl.
  - induction (Py.str_rev_onto b "") as [|y r IHr]; simpl; [reflexivity|].
    now rewrite <- IHr.
  - rewrite str_rev_onto_app, IH, (str_rev_onto_app a (String x "")).
    apply append_assoc.
Qed.

Lemma prefix_app (a b : string) : String.prefix a (a ++ b) = true.
Proof.
  induction a as [|x a IH]; simpl.
  - destruct b; reflexivity.
  - destruct (Ascii.ascii_dec x x) as [_|N]; [exact IH | now elim N].
Qed.

Lemma endswith_app (a b : string) : Py.endswith (a ++ b) b = true.
Proof. unfold Py.endswith. rewrite str_rev_app. apply prefix_app. Qed.

Lemma prefix_app_r (u v q : string) :
  String.prefix u v = true -> String.prefix u (v ++ q) = true.
Proof.
  revert v. induction u as [|c u IH]; intros v; simpl.
  - destruct (v ++ q)%string; reflexivity.
  - destruct v as [|c' v]; simpl; [discriminate|].
    destruct (Ascii.ascii_dec c c'); [apply IH | discriminate].
Qed.

Lemma endswith_path_join (d name suffix : string) :
  Py.endswith name suffix = true ->
  Py.endswith (Py.path_join d name) suffix = true.
Proof.
  intros H. unfold Py.path_join.
  assert (Happ : forall p, Py.endswith (p ++ name) suffix = true).
  { intros p. unfold Py.endswith in *. rewrite str_rev_app.
    apply prefix_app_r. exact H. }
  destruct (Py.startswith name "/"); [exact H|].
  destruct ((d =? "") || Py.endswith d "/").
  - apply Happ.
  - rewrite <- append_assoc. apply Happ.
Qed.

(** ** unpack_zips.py *)

Section UnpackFacts.

Context {C : Carriers} {P : PIL} {FS : FileSystem} {ZF : ZipFiles}.

Lemma convert_file_run (target_dir root file : string) :
  UnpackZips.convert_file target_dir root file
  = (if is_image_file file then conversion_events target_dir root file else [],
     Ok tt).
Proof.
  unfold UnpackZips.convert_file, is_image_file, conversion_events, load_rgb.
  destruct (Py.startswith file "._"); [reflexivity|]. simpl negb.
  change UnpackZips.image_suffixes with [".heic"; ".jpg"; ".jpeg"; ".png"].
  destruct (Py.endswith_any (Py.lower file) _); [|reflexivity].
  cbn [andb]. unfold UnpackZips.new_name, Image_save, call, effect.
  destruct (Image_open (Py.path_join root file)) as [img|e]; [|reflexivity].
  rewrite bind_ok. cbn [fst snd app].
  destruct (mode img =? "RGB"); cbn [negb].
  - unfold ret. rewrite bind_ok. cbn [fst snd app].
    destruct (save img _ _ _) as [[]|e]; reflexivity.
  - destruct (convert img "RGB") as [img'|e]; [|reflexivity].
    rewrite bind_ok. cbn [fst snd app].
    destruct (save img' _ _ _) as [[]|e]; reflexivity.
Qed.

Lemma convert_walk_run (target_dir : string)
  (entries : list (string * list string * list string)) :
  UnpackZips.convert_walk target_dir entries
  = (flat_map
       (fun entry =>
          flat_map
            (fun file => fst (UnpackZips.convert_file target_dir (fst (fst entry)) file))
            (snd entry))
       entries,
     Ok tt).
Proof.
  unfold UnpackZips.convert_walk.
  assert (Hin : forall entry : string * list string * list string,
             (let '(root, _, files) := entry in
              for_each files (UnpackZips.convert_file target_dir root))
             = (flat_map
                  (fun file =>
                     fst (UnpackZips.convert_file target_dir (fst (fst entry)) file))
                  (snd entry), Ok tt)).
  { intros [[root dirs] files]. simpl fst. simpl snd.
    apply for_each_total. intros f _. rewrite convert_file_run. reflexivity. }
  rewrite for_each_total.
  - f_equal. apply flat_map_ext. intros entry. rewrite Hin. reflexivity.
  - intros entry _. rewrite Hin. reflexivity.
Qed.

Lemma label_of_upper (zip_name : string) :
  UnpackZips.label_of zip_name = Py.upper (fst (Py.splitext zip_name)).
Proof.
  unfold UnpackZips.label_of.
  destruct (String.eqb_spec (Py.upper (fst (Py.splitext zip_name))) "ESTRUS")
    as [->|_]; reflexivity.
Qed.


End UnpackFacts.



Lemma nth_true_lt (v : list bool) (j : nat) :
  nth j v false = true -> (j < List.length v)%nat.
Proof.
  intros H. destruct (Nat.lt_ge_cases j (List.length v)) as [Hlt|Hge]; [exact Hlt|].
  rewrite nth_overflow in H by exact Hge. discriminate.
Qed.

Lemma np_any_nth (v : list bool) :
  Main.np_any v = true <-> exists j, nth j v false = true.
Proof.
  unfold Main.np_any. rewrite existsb_exists. split.
  - intros [b [Hin Hb]]. subst b.
    destruct (In_nth v true false Hin) as [j [_ Hj]]. now exists j.
  - intros [j Hj]. exists true. split; [|reflexivity].
    rewrite <- Hj. apply nth_In. now apply nth_true_lt.
Qed.

Lemma np_where_from_nil (i : Z) (v : list bool) :
  Main.np_any v = false -> Main.np_where_from i v = [].
Proof.
  revert i. induction v as [|b v IH]; intros i H; [reflexivity|].
  unfold Main.np_any in *. simpl in H. apply orb_false_iff in H.
  destruct H as [-> H]. simpl. apply IH. exact H.
Qed.

Lemma last_default {A} (l : list A) (d d' : A) :
  l <> [] -> last l d = last l d'.
Proof.
  induction l as [|a l IH]; intros H; [now elim H|].
  destruct l as [|b l]; [reflexivity|].
  cbn [last]. apply IH. discriminate.
Qed.

(** The indices [np.where] lists start at the first True entry and end at
    the last one. *)
Lemma np_where_from_bounds (i : Z) (v : list bool) :
  Main.np_any v = true ->
  exists (lo hi : nat) (rest : list Z),
    Main.np_where_from i v = (i + Z.of_nat lo)%Z :: rest
    /\ last (Main.np_where_from i v) (i + Z.of_nat lo)%Z = (i + Z.of_nat hi)%Z
    /\ nth lo v false = true
    /\ nth hi v false = true
    /\ (forall j, nth j v false = true -> (lo <= j <= hi)%nat).
Proof.
  revert i. induction v as [|b v IH]; intros i H; [discriminate|].
  destruct (Main.np_any v) eqn:Ev.
  - destruct (IH (i + 1)%Z eq_refl)
      as (lo & hi & rest & Hw & Hl & Hlo & Hhi & Hall).
    destruct b.
    + exists 0%nat, (S hi), (Main.np_where_from (i + 1) v).
      cbn [Main.np_where_from]. rewrite Z.add_0_r.
      split; [reflexivity|]. split; [|split; [reflexivity|split; [exact Hhi|]]].
      * rewrite Hw in Hl |- *.
        change (last (i :: (i + 1 + Z.of_nat lo)%Z :: rest) i)
          with (last ((i + 1 + Z.of_nat lo)%Z :: rest) i).
        rewrite (last_default _ i (i + 1 + Z.of_nat lo)%Z) by discriminate.
        rewrite Hl. lia.
      * intros [|j] Hj; [lia|]. simpl in Hj. apply Hall in Hj. lia.
    + exists (S lo), (S hi), rest. cbn [Main.np_where_from].
      split; [rewrite Hw; f_equal; lia|].
      split; [|split; [exact Hlo|split; [exact Hhi|]]].
      * replace (i + Z.of_nat (S lo))%Z with (i + 1 + Z.of_nat lo)%Z by lia.
        rewrite Hl. lia.
      * intros [|j] Hj; [discriminate|]. simpl in Hj. apply Hall in Hj. lia.
  - destruct b.
    + exists 0%nat, 0%nat, []. cbn [Main.np_where_from].
      rewrite (np_where_from_nil _ _ Ev), Z.add_0_r.
      split; [reflexivity|]. split; [reflexivity|].
      split; [reflexivity|]. split; [reflexivity|].
      intros [|j] Hj; [lia|]. simpl in Hj.
      assert (Hex : Main.np_any v = true) by (apply np_any_nth; now exists j).
      congruence.
    + unfold Main.np_any in H, Ev. simpl in H. congruence.
Qed.

Lemma any_rows_nth (m : mask) (y : nat) :
  nth y (Main.any_rows m) false = true <-> exists x, pixel m y x = true.
Proof.
  unfold Main.any_rows, pixel.
  change false with (existsb (fun b : bool => b) []) at 1.
  rewrite map_nth. apply np_any_nth.
Qed.

Lemma any_cols_nth (m : mask) (w h : Z) (x : nat) :
  over_image m w h ->
  nth x (Main.any_cols m) false = true <-> exists y, pixel m y x = true.
Proof.
  intros [Hh Hw]. unfold Main.any_cols, pixel.
  assert (Hcol : existsb (fun row => nth x row false) m = true
                 <-> exists y, nth x (nth y m []) false = true).
  { rewrite existsb_exists. split.
    - intros [row [Hin Hrow]].
      destruct (In_nth m row [] Hin) as [y [_ Hy]]. exists y. now rewrite Hy.
    - intros [y Hy]. exists (nth y m []). split; [|exact Hy].
      apply nth_In.
      destruct (Nat.lt_ge_cases y (List.length m)) as [Hlt|Hge]; [exact Hlt|].
      rewrite (nth_overflow m [] Hge) in Hy. destruct x; discriminate. }
  split.
  - intros H. apply Hcol.
    assert (Hlt := nth_true_lt _ _ H). rewrite length_map, length_seq in Hlt.
    rewrite (nth_indep _ false
               (existsb (fun row => nth x row false) m)) in H
      by (now rewrite length_map, length_seq).
    rewrite (map_nth (fun j => existsb (fun row => nth j row false) m)
               (seq 0 (Main.mask_width m)) x x) in H.
    rewrite seq_nth in H by exact Hlt. exact H.
  - intros Hex. assert (Hc := proj2 Hcol Hex).
    destruct Hex as [y Hy].
    assert (Hlt : (x < Main.mask_width m)%nat).
    { destruct m as [|row0 m']; [destruct y, x; discriminate|].
      cbn [Main.mask_width].
      assert (Hy' := nth_true_lt _ _ Hy).
      assert (Hin : In (nth y (row0 :: m') []) (row0 :: m')).
      { apply nth_In.
        destruct (Nat.lt_ge_cases y (List.length (row0 :: m'))) as [Hlt|Hge];
          [exact Hlt|].
        rewrite (nth_overflow (row0 :: m') [] Hge) in Hy.
        destruct x; discriminate. }
      rewrite Forall_forall in Hw.
      assert (H1 := Hw _ Hin). assert (H2 := Hw row0 (or_introl eq_refl)). lia. }
    rewrite (nth_indep _ false
               (existsb (fun row => nth x row false) m))
      by (now rewrite length_map, length_seq).
    rewrite (map_nth (fun j => existsb (fun row => nth j row false) m)
               (seq 0 (Main.mask_width m)) x x).
    rewrite seq_nth by exact Hlt. exact Hc.
Qed.

Section MaskFacts.

Context {C : Carriers}.

Lemma first_last_np_where (v : list bool) :
  Main.np_any v = true ->
  exists lo hi : nat,
    Main.first_last (Main.np_where v) = ret (Z.of_nat lo, Z.of_nat hi)
    /\ nth lo v false = true
    /\ nth hi v false = true
    /\ (forall j, nth j v false = true -> (lo <= j <= hi)%nat).
Proof.
  intros H.
  destruct (np_where_from_bounds 0 v H) as (lo & hi & rest & Hw & Hl & Hlo & Hhi & Hall).
  exists lo, hi. unfold Main.np_where, Main.first_last.
  rewrite Hw in Hl |- *. simpl Z.add in *. rewrite Hl. auto.
Qed.

(** The box of a non-empty mask is the tight box of its True pixels, padded
    by 20 and clamped to the image. *)
Lemma mask_box_tight (w h : Z) (m : mask) :
  over_image m w h -> nonempty m ->
  exists xmin ymin xmax ymax : nat,
    tight_box m xmin ymin xmax ymax
    /\ (Z.of_nat xmax < w)%Z /\ (Z.of_nat ymax < h)%Z
    /\ Main.mask_box w h m
       = ret (Some (Z.max 0 (Z.of_nat xmin - 20), Z.max 0 (Z.of_nat ymin - 20),
                    Z.min w (Z.of_nat xmax + 20), Z.min h (Z.of_nat ymax + 20))).
Proof.
  intros Hover [y0 [x0 Hp]].
  assert (Hr : Main.np_any (Main.any_rows m) = true).
  { apply np_any_nth. exists y0. apply any_rows_nth. now exists x0. }
  assert (Hc : Main.np_any (Main.any_cols m) = true).
  { apply np_any_nth. exists x0. apply (any_cols_nth m w h _ Hover). now exists y0. }
  destruct (first_last_np_where _ Hr) as (ymin & ymax & Hy & Hy1 & Hy2 & Hy3).
  destruct (first_last_np_where _ Hc) as (xmin & xmax & Hx & Hx1 & Hx2 & Hx3).
  exists xmin, ymin, xmax, ymax.
  assert (HT : tight_box m xmin ymin xmax ymax).
  { unfold tight_box. repeat split.
    - now apply any_rows_nth.
    - now apply any_rows_nth.
    - now apply (any_cols_nth m w h _ Hover).
    - now apply (any_cols_nth m w h _ Hover).
    - apply Hy3, any_rows_nth. now exists x.
    - apply Hy3, any_rows_nth. now exists x.
    - apply Hx3, (any_cols_nth m w h _ Hover). now exists y.
    - apply Hx3, (any_cols_nth m w h _ Hover). now exists y. }
  split; [exact HT|].
  destruct HT as (_ & [xa Hya] & _ & [yb Hxb] & _).
  destruct Hover as [Hh Hw]. unfold pixel in *.
  assert (Hylt : (ymax < List.length m)%nat).
  { destruct (Nat.lt_ge_cases ymax (List.length m)) as [Hlt|Hge]; [exact Hlt|].
    rewrite (nth_overflow m [] Hge) in Hya. destruct xa; discriminate. }
  assert (Hyb : (yb < List.length m)%nat).
  { destruct (Nat.lt_ge_cases yb (List.length m)) as [Hlt|Hge]; [exact Hlt|].
    rewrite (nth_overflow m [] Hge) in Hxb. destruct xmax; discriminate. }
  assert (Hxlt := nth_true_lt _ _ Hxb).
  rewrite Forall_forall in Hw.
  assert (Hwb := Hw _ (nth_In m [] Hyb)).
  repeat split; try lia.
  unfold Main.mask_box. rewrite Hr, Hc. cbn [andb].
  rewrite Hy, Hx. reflexivity.
Qed.

End MaskFacts.

Lemma Qltb_lt (x y : Q) : Qltb x y = true <-> x < y.
Proof.
  unfold Qltb. rewrite negb_true_iff, <- not_true_iff_false, Qle_bool_iff.
  split; [apply Qnot_le_lt | apply Qlt_not_le].
Qed.

Lemma Qltb_ge (x y : Q) : Qltb x y = false <-> y <= x.
Proof.
  unfold Qltb. rewrite negb_false_iff. apply Qle_bool_iff.
Qed.

Lemma py_max_l (a b : Q) : a <= py_max a b.
Proof.
  unfold py_max. destruct (Qltb a b) eqn:E.
  - apply Qlt_le_weak, Qltb_lt, E.
  - apply Qle_refl.
Qed.

Lemma py_max_lub (a b c : Q) : a <= c -> b <= c -> py_max a b <= c.
Proof. unfold py_max. destruct (Qltb a b); auto. Qed.

Lemma py_min_l (a b : Q) : py_min a b <= a.
Proof.
  unfold py_min. destruct (Qltb b a) eqn:E.
  - apply Qlt_le_weak, Qltb_lt, E.
  - apply Qle_refl.
Qed.

Lemma py_min_glb (a b c : Q) : c <= a -> c <= b -> c <= py_min a b.
Proof. unfold py_min. destruct (Qltb b a); auto. Qed.

Section BoxFacts.

Context {C : Carriers}.

Lemma mask_box_some_nonempty (w h : Z) (m : mask) (t : list event) (b : box Z) :
  Main.mask_box w h m = (t, Ok (Some b)) -> nonempty m.
Proof.
  unfold Main.mask_box.
  destruct (Main.np_any (Main.any_rows m)) eqn:Hr; [|discriminate].
  intros _. apply np_any_nth in Hr. destruct Hr as [y Hy].
  apply any_rows_nth in Hy. destruct Hy as [x Hx]. now exists y, x.
Qed.

Lemma mask_box_well_formed (w h : Z) (m : mask) (t : list event) (b : box Z) :
  over_image m w h -> Main.mask_box w h m = (t, Ok (Some b)) ->
  well_formed w h b.
Proof.
  intros Hover Hb.
  destruct (mask_box_tight w h m Hover (mask_box_some_nonempty _ _ _ _ _ Hb))
    as (xmin & ymin & xmax & ymax & HT & Hx & Hy & Heq).
  rewrite Heq in Hb. injection Hb as _ <-.
  destruct HT as ([xa Ha] & _ & [yb Hyb] & _ & Hall).
  destruct (Hall _ _ Ha) as [Hy1 _]. destruct (Hall _ _ Hyb) as [_ Hx1].
  unfold well_formed. lia.
Qed.

Lemma pad_box_well_formed (w h : Z) (xmin ymin xmax ymax : float) :
  (0 <= w)%Z -> (0 <= h)%Z ->
  xmin <= xmax -> ymin <= ymax ->
  xmin - inject_Z 20 <= inject_Z w -> ymin - inject_Z 20 <= inject_Z h ->
  0 <= xmax + inject_Z 20 -> 0 <= ymax + inject_Z 20 ->
  well_formedQ w h (Segment.pad_box w h (xmin, ymin, xmax, ymax)).
Proof.
  intros Hw Hh Hx Hy Hx0 Hy0 Hx1 Hy1.
  assert (Hw' : 0 <= inject_Z w) by (change 0 with (inject_Z 0); now rewrite <- Zle_Qle).
  assert (Hh' : 0 <= inject_Z h) by (change 0 with (inject_Z 0); now rewrite <- Zle_Qle).
  unfold well_formedQ, Segment.pad_box.
  change (inject_Z 0) with 0. change (inject_Z 20) with 20 in *.
  repeat split.
  - apply py_max_l.
  - apply py_max_lub; apply py_min_glb; try assumption. lra.
  - apply py_min_l.
  - apply py_max_l.
  - apply py_max_lub; apply py_min_glb; try assumption. lra.
  - apply py_min_l.
Qed.

End BoxFacts.



Section Sam2Facts.

Context {C : Carriers} {P : PIL} {RQ : Requests} {B : Bioclip}
  {SK : SklearnLib} {S2 : Sam2} {O : Owlv2} {D : MainDeps}.

(** C2.  With SAM 2.1 loaded, let the first mask returned for an image of
    width w and height h be a non-empty boolean mask over that image.  Then
    the crop box is derived from the tight box of the True pixels (ymin and
    ymax the first and last row holding one, xmin and xmax the first and
    last column holding one) by padding each side by 20 and clamping:
    (max(0, xmin - 20), max(0, ymin - 20), min(w, xmax + 20),
    min(h, ymax + 20)), every coordinate of which lies between 0 and w,
    respectively h; and [segment_with_sam2] returns the image cropped to
    that box, or prints the error and returns None if Pillow refuses the
    crop. *)
Theorem segment_with_sam2_crops_tight_box
  (g : Main.globals) (model : Sam2Model) (processor : Sam2Processor)
  (image : Image) (w h : Z) (masks0 : list mask) (masks : list (list mask))
  (m : mask) (ms : list mask) :
  Main.sam2_model g = Some model ->
  Main.sam2_processor g = Some processor ->
  size image = (w, h) ->
  Sam2_masks processor model image ((w / 2)%Z, (h / 2)%Z)
  = Ok ((m :: ms) :: masks) ->
  over_image m w h ->
  nonempty m ->
  exists (xmin ymin xmax ymax : nat) (b : box Z),
    tight_box m xmin ymin xmax ymax
    /\ b = (Z.max 0 (Z.of_nat xmin - 20), Z.max 0 (Z.of_nat ymin - 20),
            Z.min w (Z.of_nat xmax + 20), Z.min h (Z.of_nat ymax + 20))
    /\ within w h b
    /\ Main.mask_box w h m = ret (Some b)
    /\ Main.segment_with_sam2 g image
       = match crop image (Main.box_of_Z b) with
         | Ok cropped => ([], Ok (Some cropped))
         | Raised e =>
             ([Print ("SAM 2.1 segmentation error: " ++ str_of_exn e)], Ok None)
         end.
Proof.
  intros Hm Hp Hsize Hmasks Hover Hne.
  destruct (mask_box_tight w h m Hover Hne)
    as (xmin & ymin & xmax & ymax & HT & Hx & Hy & Hbox).
  exists xmin, ymin, xmax, ymax. eexists. split; [exact HT|].
  split; [reflexivity|]. split; [|split; [exact Hbox|]].
  - destruct HT as ([xa Ha] & _ & [yb Hyb] & _ & Hall).
    destruct (Hall _ _ Ha) as [Hy1 _]. destruct (Hall _ _ Hyb) as [_ Hx1].
    unfold within. lia.
  - unfold Main.segment_with_sam2, Main.sam2_body. rewrite Hm, Hp, Hsize, Hmasks.
    unfold call at 1. rewrite bind_ok. cbn [fst snd app Nat.ltb Nat.leb List.length].
    unfold getitem. cbn [nth_error]. rewrite !bind_ret. rewrite Hbox, bind_ret.
    unfold call.
    destruct (crop image _) as [c|e]; reflexivity.
Qed.

End Sam2Facts.

(** ** sam3_cloud.py *)

Section Sam3CloudFacts.

Context {C : Carriers} {P : PIL} {RQ : Requests}.

Lemma parse_success_run (r : response) :
  fst (Sam3Cloud.parse_success r) = []
  /\ match response_image r with
     | Some img => snd (Sam3Cloud.parse_success r) = Ok (Some img, None)
     | None => exists msg, snd (Sam3Cloud.parse_success r) = Ok (None, Some msg)
     end.
Proof.
  unfold Sam3Cloud.parse_success, response_image, call.
  destruct (Image_open_bytes (content r)) as [img|e]; [split; reflexivity|].
  rewrite bind_raised, try_except_raised.
  destruct (response_json r) as [data|e']; [|split; [reflexivity|eexists; reflexivity]].
  rewrite bind_ok. cbn [fst snd app].
  destruct data as [ | b | q | s | xs | kvs ];
    try (split; [reflexivity | eexists; reflexivity]).
  - (* a string *)
    unfold Json.contains.
    destruct (String.index 0 "image" s); rewrite bind_ret;
      split; try reflexivity; eexists; reflexivity.
  - (* a list *)
    unfold Json.contains.
    destruct (existsb (Json.is_str "image") xs); rewrite bind_ret;
      split; try reflexivity; eexists; reflexivity.
  - (* a dict *)
    unfold Json.contains, Json.getitem_str.
    destruct (Json.dict_lookup kvs "image") as [v|]; rewrite !bind_ret;
      [|split; [reflexivity | eexists; reflexivity]].
    unfold Sam3Cloud.json_b64decode, call.
    destruct v as [ | b | q | s | xs | kvs' ];
      try (split; [reflexivity | eexists; reflexivity]).
    destruct (b64decode s) as [img_data|e2];
      [|split; [reflexivity | eexists; reflexivity]].
    rewrite bind_ok. cbn [fst snd app].
    destruct (Image_open_bytes img_data) as [img|e3];
      split; try reflexivity. eexists; reflexivity.
Qed.

Lemma parse_error_run (r : response) :
  fst (Sam3Cloud.parse_error r) = []
  /\ exists msg, snd (Sam3Cloud.parse_error r) = Ok (None, Some msg).
Proof.
  unfold Sam3Cloud.parse_error, call.
  destruct (response_json r) as [data|e]; [|split; [reflexivity|eexists; reflexivity]].
  rewrite bind_ok. cbn [fst snd app].
  destruct data; split; try reflexivity; eexists; reflexivity.
Qed.

(** C4.  Every call of [segment_with_sam3_cloud] issues at most one HTTP
    POST: its trace is that one request when the client is configured and
    the image encodes, and empty otherwise.  It never raises: it returns
    (image, None) when the request was answered with status 200 and the
    answer held an image, and (None, message) in every other case, whether
    the configuration is missing, the request timed out, could not connect
    or raised otherwise, the status is not 200, or the answer does not
    parse; in none of them is the request issued again. *)
Theorem segment_with_sam3_cloud_single_request
  (cfg : Sam3Cloud.config) (image : Image) (prompt bg_mode bg_color : string)
  (timeout : Z) :
  fst (Sam3Cloud.segment_with_sam3_cloud cfg image prompt bg_mode bg_color timeout)
  = match sent_request cfg image prompt bg_mode bg_color timeout with
    | Some (post, _) => [post]
    | None => []
    end
  /\ match segmented cfg image prompt bg_mode bg_color timeout with
     | Some img =>
         snd (Sam3Cloud.segment_with_sam3_cloud cfg image prompt bg_mode
                bg_color timeout) = Ok (Some img, None)
     | None =>
         exists msg,
           snd (Sam3Cloud.segment_with_sam3_cloud cfg image prompt bg_mode
                  bg_color timeout) = Ok (None, Some msg)
     end.
Proof.
  unfold Sam3Cloud.segment_with_sam3_cloud, segmented, sent_request.
  destruct (truthy (Sam3Cloud.SAM3_ENDPOINT_URL cfg)); cbn [negb andb];
    [|split; [reflexivity | eexists; reflexivity]].
  destruct (truthy (Sam3Cloud.HF_TOKEN cfg)); cbn [negb];
    [|split; [reflexivity | eexists; reflexivity]].
  unfold Sam3Cloud.request_body.
  destruct (save_bytes image "JPEG" 95) as [img_bytes|e]; run.
  - destruct (requests_post _ _ _ _ _ _ _) as [r|e]; run.
    + destruct (status_code r =? 200)%Z.
      * destruct (parse_success_run r) as [Ht Hr].
        destruct (Sam3Cloud.parse_success r) as [t o]. cbn [fst snd] in Ht, Hr.
        subst t. run.
        destruct (response_image r) as [img|].
        -- rewrite Hr. split; reflexivity.
        -- destruct Hr as [msg Hr]. rewrite Hr. split; [reflexivity|].
           eexists; reflexivity.
      * destruct (status_code r =? 503)%Z;
          [split; [reflexivity | eexists; reflexivity]|].
        destruct (status_code r =? 404)%Z;
          [split; [reflexivity | eexists; reflexivity]|].
        destruct (parse_error_run r) as [Ht [msg Hr]].
        destruct (Sam3Cloud.parse_error r) as [t o]. cbn [fst snd] in Ht, Hr.
        subst t o. run. split; [reflexivity | eexists; reflexivity].
    + destruct (is_Timeout e); [split; [reflexivity | eexists; reflexivity]|].
      destruct (is_ConnectionError e); split; try reflexivity; eexists; reflexivity.
  - destruct (is_Timeout e); [split; [reflexivity | eexists; reflexivity]|].
    destruct (is_ConnectionError e); split; try reflexivity; eexists; reflexivity.
Qed.

End Sam3CloudFacts.

(** ** segment.py: failures of one file *)

Section SegmentFacts.

Context {C : Carriers} {P : PIL} {FS : FileSystem} {O : Owlv2}.

(** [crop_file] never raises: a failure of its body is printed. *)
Lemma crop_file_catches (processor : Owlv2Processor) (model : Owlv2Model)
  (prompt_text : string) (threshold : float)
  (label_path output_label_path fname : string) :
  Segment.crop_file processor model prompt_text threshold label_path
    output_label_path fname
  = match Segment.crop_file_body processor model prompt_text threshold
            (Py.path_join label_path fname) output_label_path fname with
    | (t, Ok _) => (t, Ok tt)
    | (t, Raised e) => (t ++ [error_processing fname e], Ok tt)
    end.
Proof.
  unfold Segment.crop_file.
  destruct (Segment.crop_file_body _ _ _ _ _ _ _) as [t [[]|e]]; reflexivity.
Qed.

Lemma crop_file_total (processor : Owlv2Processor) (model : Owlv2Model)
  (prompt_text : string) (threshold : float)
  (label_path output_label_path fname : string) :
  snd (Segment.crop_file processor model prompt_text threshold label_path
         output_label_path fname) = Ok tt.
Proof.
  rewrite crop_file_catches.
  destruct (Segment.crop_file_body _ _ _ _ _ _ _) as [t [[]|e]]; reflexivity.
Qed.

(** With no detection the image as loaded is saved under the same name. *)
Lemma crop_file_no_detection (processor : Owlv2Processor) (model : Owlv2Model)
  (prompt_text : string) (threshold : float)
  (label_path output_label_path fname : string)
  (opened image : Image) (results : detections) :
  Image_open (Py.path_join label_path fname) = Ok opened ->
  convert opened "RGB" = Ok image ->
  Owlv2_detect processor model image prompt_text threshold = Ok results ->
  scores results = [] ->
  Segment.crop_file processor model prompt_text threshold label_path
    output_label_path fname
  = (ImageSave image (Py.path_join output_label_path fname) None None
     :: match save image (Py.path_join output_label_path fname) None None with
        | Ok _ => []
        | Raised e => [error_processing fname e]
        end,
     Ok tt).
Proof.
  intros Ho Hc Hd Hs. rewrite crop_file_catches.
  unfold Segment.crop_file_body. rewrite Ho. run. rewrite Hc. run.
  rewrite Hd. run. rewrite Hs. cbn [List.length Nat.ltb Nat.leb].
  unfold Image_save. run.
  destruct (save image _ None None) as [[]|e]; reflexivity.
Qed.

(** The loop over the files of a label visits every file. *)
Lemma crop_files_all (processor : Owlv2Processor) (model : Owlv2Model)
  (prompt_text : string) (threshold : float)
  (label_path output_label_path : string) (files : list string) :
  for_each files
    (Segment.crop_file processor model prompt_text threshold label_path
       output_label_path)
  = (flat_map
       (fun fname =>
          fst (Segment.crop_file processor model prompt_text threshold
                 label_path output_label_path fname))
       files,
     Ok tt).
Proof. apply for_each_total. intros f _. apply crop_file_total. Qed.

End SegmentFacts.

(** ** main.py: the endpoints *)

Section MainFacts.

Context {C : Carriers} {P : PIL} {RQ : Requests} {B : Bioclip}
  {SK : SklearnLib} {S2 : Sam2} {O : Owlv2} {D : MainDeps}.

Lemma read_image_decoded (file : UploadFile) (image : Image) :
  decodes_to file image -> Main.read_image file = ([], Ok image).
Proof.
  intros (contents & opened & Hr & Ho & Hc). unfold Main.read_image.
  rewrite Hr. run. rewrite Ho. run. rewrite Hc. reflexivity.
Qed.

Lemma generate_embedding_run (g : Main.globals) (file : UploadFile)
  (model : BioclipModel) (preprocess : BioclipPreprocess)
  (image : Image) (t : list event) (cropped_image : option Image)
  (e : Embedding) :
  Main.bioclip_model g = Some model ->
  Main.bioclip_preprocess g = Some preprocess ->
  decodes_to file image ->
  Main.segment_image g image = (t, Ok cropped_image) ->
  bioclip_embed model preprocess (embedded_image image cropped_image) = Ok e ->
  Main.generate_embedding g file = (t, Ok {| Main.embedding := tolist e |}).
Proof.
  intros Hm Hp Hd Hs He. unfold Main.generate_embedding.
  rewrite Hm, Hp. cbn [Main.is_None orb].
  rewrite (read_image_decoded _ _ Hd). run. rewrite Hs. run.
  unfold Main.get_bioclip_embedding. rewrite Hm, Hp.
  fold (embedded_image image cropped_image). rewrite He. run.
  rewrite !app_nil_r. reflexivity.
Qed.

Lemma classify_image_run (g : Main.globals) (file : UploadFile)
  (model : BioclipModel) (preprocess : BioclipPreprocess)
  (cd : Main.classifier_record)
  (image : Image) (t t' : list event) (cropped_image : option Image)
  (e : Embedding) (stage : string) (confidence : list (string * float)) :
  Main.bioclip_model g = Some model ->
  Main.bioclip_preprocess g = Some preprocess ->
  Main.USE_LINEAR_PROBE g = true ->
  Main.classifier_data g = Some cd ->
  decodes_to file image ->
  Main.segment_image g image = (t, Ok cropped_image) ->
  bioclip_embed model preprocess (embedded_image image cropped_image) = Ok e ->
  Main.classify_with_linear_probe g e = (t', Ok (stage, confidence)) ->
  Main.classify_image g file
  = (t ++ t',
     Ok {| Main.estrus_stage := stage;
           Main.confidence_scores := confidence;
           Main.cropped := negb (Main.is_None cropped_image) |}).
Proof.
  intros Hm Hp Hu Hc Hd Hs He Hl. unfold Main.classify_image.
  rewrite Hm, Hp, Hu, Hc. cbn [Main.is_None orb negb].
  rewrite (read_image_decoded _ _ Hd). run. rewrite Hs. run.
  unfold Main.get_bioclip_embedding. rewrite Hm, Hp.
  fold (embedded_image image cropped_image). rewrite He. run.
  rewrite Hl. run. rewrite !app_nil_r. reflexivity.
Qed.

End MainFacts.

(** ** ingest.py *)

Section IngestFacts.

Context {C : Carriers} {P : PIL} {FS : FileSystem} {B : Bioclip}
  {SB : Supabase} {EV : Environ}.

Lemma get_embedding_run (model : BioclipModel) (processor : BioclipPreprocess)
  (image_path : string) :
  Ingest.get_embedding model processor image_path
  = match embedding_of model processor image_path with
    | Ok v => ([], Ok (Some v))
    | Raised e =>
        ([Print ("Error processing image " ++ image_path ++ ": "
                 ++ str_of_exn e)], Ok None)
    end.
Proof.
  unfold Ingest.get_embedding, embedding_of.
  destruct (Image_open image_path) as [opened|e]; run; [|reflexivity].
  destruct (convert opened "RGB") as [image|e]; run; [|reflexivity].
  destruct (bioclip_embed model processor image) as [v|e]; reflexivity.
Qed.

(** A file whose embedding computation fails is skipped: the failure is
    printed and nothing is inserted. *)
Lemma ingest_file_skips (supabase : Client) (model : BioclipModel)
  (processor : BioclipPreprocess) (label label_path fname : string) (e : exn) :
  embedding_of model processor (Py.path_join label_path fname) = Raised e ->
  Ingest.ingest_file supabase model processor label label_path fname
  = ([Print ("Error processing image " ++ Py.path_join label_path fname
             ++ ": " ++ str_of_exn e)], Ok tt).
Proof.
  intros H. unfold Ingest.ingest_file. rewrite get_embedding_run, H. reflexivity.
Qed.

End IngestFacts.

Lemma dict_set_fresh (d : list (string * float)) (k : string) (v : float) :
  ~ In k (map fst d) -> Main.dict_set d k v = d ++ [(k, v)].
Proof.
  induction d as [|[k' v'] d IH]; intros H; [reflexivity|].
  cbn [Main.dict_set]. destruct (String.eqb_spec k' k) as [->|Hne].
  - elim H. now left.
  - cbn [app]. rewrite IH; [reflexivity|]. intros Hin. apply H. now right.
Qed.

Section ProbeFacts.

Context {C : Carriers} {P : PIL} {RQ : Requests} {B : Bioclip}
  {SK : SklearnLib} {S2 : Sam2} {O : Owlv2} {D : MainDeps}.

(** With distinct formatted names the loop pairs every class with its
    probability, in the order of the classes. *)
Lemma fill_scores_distinct (classes : list string) (probabilities : list float)
  (i : nat) (acc : list (string * float)) :
  NoDup (map fst acc ++ map Py.capitalize classes) ->
  (i + List.length classes <= List.length probabilities)%nat ->
  Main.fill_scores classes probabilities i acc
  = ret (acc ++ combine (map Py.capitalize classes)
                  (firstn (List.length classes) (skipn i probabilities))).
Proof.
  revert i acc. induction classes as [|c classes IH]; intros i acc Hnd Hlen.
  - cbn. now rewrite app_nil_r.
  - cbn [Main.fill_scores List.length map] in *.
    destruct (nth_error probabilities i) as [p|] eqn:Hp.
    2:{ apply nth_error_None in Hp. lia. }
    unfold getitem. rewrite Hp, bind_ret.
    assert (Hskip : skipn i probabilities = p :: skipn (S i) probabilities).
    { clear - Hp. revert i Hp. induction probabilities as [|q qs IHq];
        intros [|i] Hp; try discriminate.
      - now injection Hp as ->.
      - apply (IHq i Hp). }
    rewrite Hskip. cbn [firstn combine].
    rewrite dict_set_fresh.
    + rewrite IH.
      * rewrite <- app_assoc. reflexivity.
      * rewrite map_app, <- app_assoc. exact Hnd.
      * lia.
    + intros Hin. apply NoDup_remove_2 in Hnd. apply Hnd.
      apply in_or_app. now left.
Qed.

Lemma classify_with_linear_probe_run (g : Main.globals)
  (cd : Main.classifier_record) (e : Embedding)
  (prediction : Z) (predictions : list Z)
  (probabilities : list float) (probas : list (list float))
  (stage : string) (stages : list string) :
  Main.classifier_data g = Some cd ->
  predict (Main.cd_classifier cd) [e] = Ok (prediction :: predictions) ->
  predict_proba (Main.cd_classifier cd) [e] = Ok (probabilities :: probas) ->
  inverse_transform (Main.cd_label_encoder cd) [prediction]
  = Ok (stage :: stages) ->
  (List.length (classes_ (Main.cd_label_encoder cd))
   <= List.length probabilities)%nat ->
  NoDup (map Py.capitalize (classes_ (Main.cd_label_encoder cd))) ->
  Main.classify_with_linear_probe g e
  = ([Sklearn "predict"; Sklearn "predict_proba"; Sklearn "inverse_transform"],
     Ok (Py.capitalize stage,
         combine (map Py.capitalize (classes_ (Main.cd_label_encoder cd)))
           (firstn (List.length (classes_ (Main.cd_label_encoder cd)))
              probabilities))).
Proof.
  intros Hc Hp Hpp Hi Hlen Hnd.
  unfold Main.classify_with_linear_probe, getitem.
  rewrite Hc, Hp. cbn [nth_error]. run. rewrite Hpp. cbn [nth_error]. run.
  rewrite Hi. cbn [nth_error]. run.
  rewrite fill_scores_distinct; [reflexivity | exact Hnd | cbn [skipn]; lia].
Qed.



End ProbeFacts.

Section FailureFacts.

Context {C : Carriers} {P : PIL} {FS : FileSystem} {O : Owlv2}
  {RQ : Requests} {B : Bioclip} {SK : SklearnLib} {S2 : Sam2} {D : MainDeps}
  {SB : Supabase} {EV : Environ}.


End FailureFacts.

(** ** eval.py, train_classifier.py, sam3_modal.py: the classifiers *)

Lemma votes_get_set (votes : Eval.votes_dict) (l l' : string) (n : Z) :
  Eval.votes_get (Eval.votes_set votes l n) l'
  = if l =? l' then n else Eval.votes_get votes l'.
Proof.
  induction votes as [|[k m] votes IH]; cbn [Eval.votes_set Eval.votes_get].
  - destruct (String.eqb_spec l l'); reflexivity.
  - destruct (String.eqb_spec k l) as [->|Hkl]; cbn [Eval.votes_get].
    + destruct (String.eqb_spec l l'); reflexivity.
    + rewrite IH. destruct (String.eqb_spec k l') as [->|Hkl'].
      * destruct (String.eqb_spec l l') as [->|]; [now elim Hkl | reflexivity].
      * reflexivity.
Qed.

Lemma votes_set_keys (votes : Eval.votes_dict) (l : string) (n : Z) :
  NoDup (map fst votes) ->
  NoDup (map fst (Eval.votes_set votes l n))
  /\ (forall k, In k (map fst (Eval.votes_set votes l n))
                <-> k = l \/ In k (map fst votes)).
Proof.
  induction votes as [|[k m] votes IH]; intros Hnd; cbn [Eval.votes_set map fst].
  - split; [repeat constructor; intros []|]. intros k. cbn. intuition.
  - inversion Hnd as [|? ? Hnotin Hnd']; subst.
    destruct (String.eqb_spec k l) as [->|Hkl]; cbn [map fst].
    + split; [exact Hnd|]. intros k'. cbn. intuition.
    + destruct (IH Hnd') as [IH1 IH2]. split.
      * constructor; [|exact IH1]. rewrite IH2. intros [->|Hin]; congruence.
      * intros k'. cbn [In]. rewrite IH2. intuition.
Qed.

Lemma tally_get (labels : list string) (votes : Eval.votes_dict) (l : string) :
  Eval.votes_get (tally labels votes) l
  = (Eval.votes_get votes l + votes_for labels l)%Z.
Proof.
  unfold tally, votes_for.
  revert votes. induction labels as [|x labels IH]; intros votes;
    cbn [fold_left count_occ]; [lia|].
  rewrite IH, votes_get_set.
  destruct (string_dec x l) as [->|Hne].
  - rewrite String.eqb_refl. lia.
  - destruct (String.eqb_spec x l); [contradiction | lia].
Qed.

Lemma tally_keys (labels : list string) (votes : Eval.votes_dict) :
  NoDup (map fst votes) ->
  NoDup (map fst (tally labels votes))
  /\ (forall k, In k (map fst (tally labels votes))
                <-> In k labels \/ In k (map fst votes)).
Proof.
  unfold tally.
  revert votes. induction labels as [|x labels IH]; intros votes Hnd;
    cbn [fold_left].
  - split; [exact Hnd|]. intros k. cbn. intuition.
  - destruct (votes_set_keys votes x (Eval.votes_get votes x + 1)%Z Hnd)
      as [H1 H2].
    destruct (IH _ H1) as [H3 H4]. split; [exact H3|].
    intros k. rewrite H4, H2. cbn [In]. intuition.
Qed.

Lemma votes_get_in (votes : Eval.votes_dict) (k : string) (n : Z) :
  NoDup (map fst votes) -> In (k, n) votes -> Eval.votes_get votes k = n.
Proof.
  induction votes as [|[k' n'] votes IH]; intros Hnd Hin; [contradiction|].
  inversion Hnd as [|? ? Hnotin Hnd']; subst.
  cbn [Eval.votes_get]. destruct Hin as [Heq|Hin].
  - injection Heq as -> ->. now rewrite String.eqb_refl.
  - destruct (String.eqb_spec k' k) as [->|_].
    + elim Hnotin. apply (in_map fst) in Hin. exact Hin.
    + apply IH; assumption.
Qed.

(** [max] returns an item of the dict with no fewer votes than any other. *)
Lemma max_key_from_spec (best : string) (best_n : Z) (votes : Eval.votes_dict) :
  exists n,
    In (Eval.max_key_from best best_n votes, n) ((best, best_n) :: votes)
    /\ (best_n <= n)%Z
    /\ (forall k m, In (k, m) votes -> (m <= n)%Z).
Proof.
  revert best best_n. induction votes as [|[k m] votes IH]; intros best best_n;
    cbn [Eval.max_key_from].
  - exists best_n. split; [now left|]. split; [lia|]. intros ? ? [].
  - destruct (Z.ltb_spec best_n m) as [Hlt|Hge].
    + destruct (IH k m) as (n & Hin & Hle & Hall). exists n.
      split; [right; exact Hin|]. split; [lia|].
      intros k' m' [Heq|Hin']; [injection Heq as <- <-; exact Hle|].
      eapply Hall; eassumption.
    + destruct (IH best best_n) as (n & Hin & Hle & Hall). exists n.
      split.
      * destruct Hin as [Heq|Hin]; [left; exact Heq | right; right; exact Hin].
      * split; [exact Hle|].
        intros k' m' [Heq|Hin']; [injection Heq as <- <-; lia|].
        eapply Hall; eassumption.
Qed.

Section KnnFacts.

Context {C : Carriers} {SB : Supabase} {SK : SklearnLib}.

Lemma count_votes_run (ns : list json) (labels : list string)
  (votes : Eval.votes_dict) :
  map label_of_row ns = map Some labels ->
  Eval.count_votes ns votes = ret (tally (map Py.upper labels) votes).
Proof.
  revert labels votes.
  induction ns as [|n ns IH]; intros [|l labels] votes H; try discriminate.
  - reflexivity.
  - cbn [map] in H. injection H as Hn Hns.
    cbn [Eval.count_votes]. unfold label_of_row in Hn.
    destruct n as [ | | | | | kvs]; try discriminate.
    unfold Json.getitem_str.
    destruct (Json.dict_lookup kvs "label") as [[ | | | s | | ]|]; try discriminate.
    injection Hn as ->. rewrite bind_ret. cbn [Json.upper]. rewrite bind_ret.
    rewrite (IH labels _ Hns). reflexivity.
Qed.

Lemma max_key_majority (labels : list string) :
  labels <> [] ->
  exists r,
    Eval.max_key (tally labels []) = ret r
    /\ In r labels
    /\ (forall l, (votes_for labels l <= votes_for labels r)%Z).
Proof.
  intros Hne.
  destruct (tally_keys labels [] (NoDup_nil _)) as [Hnd Hkeys].
  assert (Hget := tally_get labels []). cbn [Eval.votes_get] in Hget.
  destruct (tally labels []) as [|[k n] votes] eqn:Et.
  - destruct labels as [|l labels]; [now elim Hne|].
    assert (Hin : In l (map fst (@nil (string * Z)))).
    { apply Hkeys. left. now left. }
    destruct Hin.
  - cbn [Eval.max_key].
    destruct (max_key_from_spec k n votes) as (rn & Hin & Hle & Hall).
    set (r := Eval.max_key_from k n votes) in *.
    exists r. split; [reflexivity|].
    assert (Hr : Eval.votes_get ((k, n) :: votes) r = rn)
      by (apply votes_get_in; assumption).
    split.
    + apply (in_map fst) in Hin. apply Hkeys in Hin.
      destruct Hin as [Hin|[]]. exact Hin.
    + intros l.
      assert (Hl0 := Hget l). assert (Hr0 := Hget r).
      rewrite Z.add_0_l in Hl0, Hr0. rewrite <- Hl0, <- Hr0, Hr.
      destruct (in_dec string_dec l (map fst ((k, n) :: votes))) as [Hl|Hl].
      * apply in_map_iff in Hl. destruct Hl as [[l' m] [Heq Hlm]].
        cbn [fst] in Heq. subst l'.
        rewrite (votes_get_in _ _ _ Hnd Hlm).
        destruct Hlm as [Heq|Hlm]; [injection Heq as <- <-; exact Hle|].
        eapply Hall; eassumption.
      * assert (H0 : Eval.votes_get ((k, n) :: votes) l = 0%Z).
        { rewrite Hl0. unfold votes_for.
          rewrite (proj1 (count_occ_not_In string_dec labels l)); [reflexivity|].
          intros Hin'. apply Hl, Hkeys. now left. }
        rewrite H0. rewrite <- Hr, Hr0. unfold votes_for. lia.
Qed.

End KnnFacts.

(** A computation that records no event. *)
Lemma silent_bind {E A B} (m : M E A) (k : A -> M E B) :
  silent m -> (forall a, silent (k a)) -> silent (bind m k).
Proof.
  unfold silent. destruct m as [t [a|e]]; cbn [fst]; intros -> Hk.
  - rewrite bind_ok. cbn [fst app]. apply Hk.
  - reflexivity.
Qed.

Section KnnTrace.

Context {C : Carriers} {SB : Supabase} {SK : SklearnLib}.

Lemma count_votes_silent (ns : list json) (votes : Eval.votes_dict) :
  silent (Eval.count_votes ns votes).
Proof.
  revert votes. induction ns as [|n ns IH]; intros votes; [reflexivity|].
  cbn [Eval.count_votes]. apply silent_bind.
  - destruct n as [ | | | | |kvs]; try reflexivity.
    cbn [Json.getitem_str]. destruct (Json.dict_lookup kvs "label"); reflexivity.
  - intros v. apply silent_bind; [destruct v; reflexivity|]. intros l. apply IH.
Qed.

(** The trace of the k-NN classifier: the remote procedure call, and a
    printed error if anything raised. *)
Lemma classify_with_knn_trace (q : list float) (supabase : Client) (k : Z) :
  fst (Eval.classify_with_knn q supabase k) = [Rpc "match_reference_images" q k]
  \/ exists msg,
       fst (Eval.classify_with_knn q supabase k)
       = [Rpc "match_reference_images" q k; Print msg].
Proof.
  unfold Eval.classify_with_knn.
  destruct (rpc supabase "match_reference_images" q 0 k) as [neighbors|e]; run.
  2:{ right. eexists. reflexivity. }
  destruct (Json.falsy neighbors); [left; reflexivity|].
  assert (Hs : silent (ns <- Json.iter neighbors ;;
                       votes <- Eval.count_votes ns [] ;;
                       Eval.max_key votes)).
  { apply silent_bind; [destruct neighbors; reflexivity|]. intros ns.
    apply silent_bind; [apply count_votes_silent|].
    intros [|[k0 n0] votes]; reflexivity. }
  unfold silent in Hs.
  destruct (ns <- Json.iter neighbors ;; votes <- Eval.count_votes ns [] ;;
            Eval.max_key votes) as [t [r|e]].
  - cbn [fst] in Hs. subst t. left. reflexivity.
  - cbn [fst] in Hs. subst t. right. eexists. reflexivity.
Qed.

Lemma classify_with_knn_vote (q : list float) (supabase : Client) (k : Z)
  (ns : list json) (labels : list string) :
  rpc supabase "match_reference_images" q 0 k = Ok (JArr ns) ->
  ns <> [] ->
  map label_of_row ns = map Some labels ->
  exists r,
    Eval.classify_with_knn q supabase k
    = ([Rpc "match_reference_images" q k], Ok r)
    /\ In r (map Py.upper labels)
    /\ (forall l, (votes_for (map Py.upper labels) l
                   <= votes_for (map Py.upper labels) r)%Z).
Proof.
  intros Hrpc Hne Hrows.
  assert (Hl : map Py.upper labels <> []).
  { destruct ns; [now elim Hne|]. destruct labels; discriminate. }
  destruct (max_key_majority _ Hl) as (r & Hmax & Hin & Hall).
  exists r. split; [|split; assumption].
  unfold Eval.classify_with_knn. rewrite Hrpc. run.
  destruct ns as [|n ns]; [now elim Hne|]. cbn [Json.falsy Json.iter]. run.
  rewrite (count_votes_run _ _ _ Hrows). run. rewrite Hmax. reflexivity.
Qed.


Lemma train_classifier_run (X : list Embedding) (y : list string)
  (label_encoder : LabelEncoder) (y_encoded : list Z) (classifier : Classifier)
  (train_accuracy : float) :
  LabelEncoder_fit_transform y = Ok (label_encoder, y_encoded) ->
  LogisticRegression_fit TrainClassifier.params X y_encoded = Ok classifier ->
  score classifier X y_encoded = Ok train_accuracy ->
  TrainClassifier.train_classifier X y
  = ([Print (String "010" "Training Logistic Regression on "
             ++ Py.str_of_Z (Z.of_nat (List.length X)) ++ " samples...");
      Sklearn "LabelEncoder.fit_transform";
      Sklearn "LogisticRegression.fit";
      Sklearn "LogisticRegression.score";
      Print ("Training accuracy: " ++ format_float ".4f" train_accuracy)],
     Ok (classifier, label_encoder)).
Proof.
  intros Hf Hl Hs. unfold TrainClassifier.train_classifier. run.
  rewrite Hf. run. rewrite Hl. run. rewrite Hs. reflexivity.
Qed.

Lemma evaluate_method_run (name : string)
  (train_emb : list Embedding) (train_labels : list string)
  (test_emb : list Embedding) (test_labels : list string)
  (le : LabelEncoder) (y_train y_test knn_pred linear_pred : list Z)
  (knn linear : Classifier) (knn_acc linear_acc : float) :
  LabelEncoder_fit_transform train_labels = Ok (le, y_train) ->
  transform le test_labels = Ok y_test ->
  KNeighborsClassifier_fit 5 "cosine" train_emb y_train = Ok knn ->
  predict knn test_emb = Ok knn_pred ->
  accuracy_score y_test knn_pred = Ok knn_acc ->
  LogisticRegression_fit Sam3Modal.params train_emb y_train = Ok linear ->
  predict linear test_emb = Ok linear_pred ->
  accuracy_score y_test linear_pred = Ok linear_acc ->
  exists msg,
    Sam3Modal.evaluate_method name train_emb train_labels test_emb test_labels
    = ([Sklearn "LabelEncoder.fit_transform";
        Sklearn "LabelEncoder.transform";
        Sklearn "KNeighborsClassifier.fit";
        Sklearn "KNeighborsClassifier.predict";
        Sklearn "accuracy_score";
        Sklearn "LogisticRegression.fit";
        Sklearn "LogisticRegression.predict";
        Sklearn "accuracy_score";
        Print msg],
       Ok (knn_acc, linear_acc)).
Proof.
  intros H1 H2 H3 H4 H5 H6 H7 H8. unfold Sam3Modal.evaluate_method.
  rewrite H1. run. rewrite H2. run. rewrite H3. run. rewrite H4. run.
  rewrite H5. run. rewrite H6. run. rewrite H7. run. rewrite H8. run.
  eexists. reflexivity.
Qed.


End KnnTrace.

(** * Part IV: the theorems at work in the concrete world

    Each theorem with hypotheses is applied in the world of [Demo], where
    its hypotheses hold by computation; each amended claim comes with the
    input at which the claim as first stated fails. *)

Section Witnesses.

Existing Instance Demo.carriers.
Existing Instance Demo.pil.
Existing Instance Demo.file_system.
Existing Instance Demo.random.
Existing Instance Demo.zip_files.
Existing Instance Demo.owlv2.
Existing Instance Demo.requests.
Existing Instance Demo.bioclip.
Existing Instance Demo.sklearn.
Existing Instance Demo.sam2.
Existing Instance Demo.main_deps.
Existing Instance Demo.supabase.
Existing Instance Demo.environ.

(** ** split_data.py *)

Lemma three_files_NoDup : NoDup Demo.three_files.
Proof.
  unfold Demo.three_files.
  repeat constructor; cbn [In]; intros H;
    repeat (destruct H as [H|H]; [discriminate H|]); exact H.
Defined.



Example split_dataset_flat_labels :
  SplitData.collect_flat "flat" = [].
Proof. reflexivity. Qed.

(** ** unpack_zips.py *)


(** ** Masks and boxes *)

Lemma demo_mask_over_image : over_image Demo.demo_mask 4 3.
Proof. split; [reflexivity | repeat constructor]. Defined.

Lemma demo_mask_nonempty : nonempty Demo.demo_mask.
Proof. exists 1%nat, 1%nat. reflexivity. Defined.

(** The demo mask over the 4 x 3 upload. *)
Lemma segment_with_sam2_crops_tight_box_witness :
  exists (xmin ymin xmax ymax : nat) (b : box Z),
    tight_box Demo.demo_mask xmin ymin xmax ymax
    /\ b = (Z.max 0 (Z.of_nat xmin - 20), Z.max 0 (Z.of_nat ymin - 20),
            Z.min 4 (Z.of_nat xmax + 20), Z.min 3 (Z.of_nat ymax + 20))
    /\ within 4 3 b
    /\ Main.mask_box 4 3 Demo.demo_mask = ret (Some b)
    /\ Main.segment_with_sam2 (Demo.loaded "sam2" true) Demo.upload
       = match crop Demo.upload (Main.box_of_Z b) with
         | Ok cropped => ([], Ok (Some cropped))
         | Raised e =>
             ([Print ("SAM 2.1 segmentation error: " ++ str_of_exn e)], Ok None)
         end.
Proof.
  exact (segment_with_sam2_crops_tight_box (Demo.loaded "sam2" true) tt tt
           Demo.upload 4 3 [] [] Demo.demo_mask [] eq_refl eq_refl eq_refl
           eq_refl demo_mask_over_image demo_mask_nonempty).
Defined.

(** Its tight box is columns 1..2 and rows 1..2; padded by 20 and clamped it
    is the whole image. *)
Example demo_mask_box :
  Main.mask_box (C := Demo.carriers) 4 3 Demo.demo_mask
  = ret (Some (0, 0, 4, 3)%Z).
Proof. reflexivity. Qed.

Example demo_sam2_crop :
  Main.segment_with_sam2 (Demo.loaded "sam2" true) Demo.upload
  = ([], Ok (Some Demo.cropped_upload)).
Proof. reflexivity. Qed.



(** In [crop_genitals] that box reaches [Image.crop], which refuses it. *)
Example crop_file_beyond_image :
  Segment.crop_file tt tt "mouse genitalia" (1 # 10) "raw/ESTRUS"
    "cropped/ESTRUS" "m1.jpg"
  = ([Print "Error processing m1.jpg: Coordinate 'right' is less than 'left'"],
     Ok tt).
Proof. reflexivity. Qed.

(** ** sam3_cloud.py *)

Example sam3_cloud_success :
  Sam3Cloud.segment_with_sam3_cloud Demo.sam3_configured Demo.upload
    "mouse genitalia" "mask_crop" "black" 120
  = ([HttpPost "https://sam3" "upload" "mouse genitalia" "mask_crop" "black"
        120],
     Ok (Some {| Demo.pic_name := "segmented"; Demo.pic_size := (4, 3)%Z;
                 Demo.pic_mode := "RGB" |}, None)).
Proof. reflexivity. Qed.

Example sam3_cloud_timeout :
  Sam3Cloud.segment_with_sam3_cloud
    {| Sam3Cloud.SAM3_ENDPOINT_URL := Some "https://slow";
       Sam3Cloud.HF_TOKEN := Some "hf_token" |}
    Demo.upload "mouse genitalia" "mask_crop" "black" 120
  = ([HttpPost "https://slow" "upload" "mouse genitalia" "mask_crop" "black"
        120],
     Ok (None, Some "SAM3 request timed out after 120s")).
Proof. reflexivity. Qed.

Example sam3_cloud_unconfigured :
  Sam3Cloud.segment_with_sam3_cloud Demo.sam3_unconfigured Demo.upload
    "mouse genitalia" "mask_crop" "black" 120
  = ([], Ok (None, Some "SAM3_ENDPOINT_URL not configured")).
Proof. reflexivity. Qed.

(** ** main.py *)

Lemma upload_decodes : decodes_to "upload" Demo.upload.
Proof. exists "upload", Demo.upload. repeat split. Defined.

Lemma demo_classes_distinct :
  NoDup (map Py.capitalize ["DIESTRUS"; "ESTRUS"]).
Proof.
  repeat constructor; cbn [In]; intros H;
    repeat (destruct H as [H|H]; [discriminate H|]); exact H.
Defined.




(** ** Failures *)


(** The batch of [crop_genitals] in the demo: one file without detection,
    one that does not open, one whose box Pillow refuses; all three are
    visited. *)
Example crop_genitals_batch :
  Segment.crop_genitals "raw" "cropped" "mouse genitalia" (1 # 10)
  = ([Print "Loading OWLv2 for zero-shot detection of 'mouse genitalia'...";
      Makedirs "cropped/ESTRUS";
      Print "Processing ESTRUS (3 images)...";
      ImageSave Demo.empty_jpg "cropped/ESTRUS/empty.jpg" None None;
      Print "Error processing broken.jpg: cannot identify image file";
      Print "Error processing m1.jpg: Coordinate 'right' is less than 'left'"],
     Ok tt).
Proof. reflexivity. Qed.

(** ** The classifiers *)



End Witnesses.

(** * Part V: further properties of the scripts *)

(** ** split_data.py: grouping and copying *)

Section SplitRunFacts.

Context {C : Carriers} {FS : FileSystem} {R : Random}.

Lemma dict_get_append (d : SplitData.files_dict) (l l' : string)
  (it : string * string) :
  dict_get (SplitData.dict_append d l it) l'
  = if l =? l' then
      Some (match dict_get d l with Some old => old | None => [] end ++ [it])
    else dict_get d l'.
Proof.
  unfold dict_get.
  induction d as [|[k items] d IH]; cbn [SplitData.dict_append find fst snd].
  - destruct (l =? l'); reflexivity.
  - destruct (String.eqb_spec k l) as [->|Hkl]; cbn [find fst snd].
    + destruct (l =? l'); reflexivity.
    + destruct (String.eqb_spec k l') as [->|Hkl'].
      * destruct (String.eqb_spec l l') as [->|_]; [congruence | reflexivity].
      * exact IH.
Qed.

Lemma dict_append_keys (d : SplitData.files_dict) (l : string)
  (it : string * string) :
  map fst (SplitData.dict_append d l it)
  = if existsb (String.eqb l) (map fst d) then map fst d
    else map fst d ++ [l].
Proof.
  induction d as [|[k items] d IH]; cbn [SplitData.dict_append map fst existsb].
  - reflexivity.
  - rewrite (String.eqb_sym l k).
    destruct (k =? l); cbn [map fst orb]; [reflexivity|].
    rewrite IH. destruct (existsb _ _); reflexivity.
Qed.

Lemma dict_append_NoDup (d : SplitData.files_dict) (l : string)
  (it : string * string) :
  NoDup (map fst d) -> NoDup (map fst (SplitData.dict_append d l it)).
Proof.
  intros Hnd. rewrite dict_append_keys.
  destruct (existsb (String.eqb l) (map fst d)) eqn:E; [exact Hnd|].
  apply NoDup_app_remove_l with (l := []). cbn [app].
  apply Permutation_NoDup with (l := l :: map fst d).
  - apply Permutation_cons_append.
  - constructor; [|exact Hnd].
    intros Hin. enough (existsb (String.eqb l) (map fst d) = true) by congruence.
    apply existsb_exists. exists l. split; [exact Hin | apply String.eqb_refl].
Qed.

Lemma dict_get_In (d : SplitData.files_dict) (l : string)
  (items : list (string * string)) :
  NoDup (map fst d) -> (In (l, items) d <-> dict_get d l = Some items).
Proof.
  unfold dict_get.
  induction d as [|[k its] d IH]; cbn [map fst find snd In]; intros Hnd.
  - split; [tauto | discriminate].
  - inversion Hnd as [|? ? Hk Hnd']; subst.
    destruct (String.eqb_spec k l) as [->|Hkl]; cbn [snd].
    + split.
      * intros [H|H]; [congruence|].
        exfalso. apply Hk. apply (in_map fst) in H. exact H.
      * intros H. left. congruence.
    + rewrite <- (IH Hnd'). split; [|tauto].
      intros [H|H]; [congruence | exact H].
Qed.

(** The groups after filing a list of files one by one. *)
Lemma fold_dict_append (lab : string -> string) (item : string -> string * string)
  (fs : list string) (d : SplitData.files_dict) (l : string) :
  dict_get
    (fold_left (fun d f => SplitData.dict_append d (lab f) (item f)) fs d) l
  = match dict_get d l, map item (filter (fun f => lab f =? l) fs) with
    | Some old, new => Some (old ++ new)
    | None, [] => None
    | None, new => Some new
    end.
Proof.
  revert d. induction fs as [|f fs IH]; intros d; cbn [fold_left filter map].
  - destruct (dict_get d l); [rewrite app_nil_r|]; reflexivity.
  - rewrite IH, dict_get_append.
    destruct (String.eqb_spec (lab f) l) as [->|Hne]; cbn [map].
    + destruct (dict_get d l) as [old|].
      * rewrite <- app_assoc. reflexivity.
      * reflexivity.
    + reflexivity.
Qed.

Lemma fold_dict_append_NoDup (lab : string -> string)
  (item : string -> string * string) (fs : list string)
  (d : SplitData.files_dict) :
  NoDup (map fst d) ->
  NoDup (map fst
           (fold_left (fun d f => SplitData.dict_append d (lab f) (item f)) fs d)).
Proof.
  revert d. induction fs as [|f fs IH]; intros d Hnd; [exact Hnd|].
  cbn [fold_left]. apply IH, dict_append_NoDup, Hnd.
Qed.

Lemma parse_label_stage_dir (f : string) :
  In (SplitData.parse_label f) SplitData.stage_dirs.
Proof.
  unfold SplitData.parse_label, SplitData.stage_dirs.
  apply parse_label_parts_range.
Qed.

(** The group of a label in a flat directory. *)
Lemma collect_flat_groups (source_dir label : string)
  (items : list (string * string)) :
  In (label, items) (SplitData.collect_flat source_dir) ->
  In label SplitData.stage_dirs
  /\ items
     = map (fun f => (f, Py.path_join source_dir f))
         (filter (fun f => SplitData.parse_label f =? label)
            (filter SplitData.eligible (listdir source_dir))).
Proof.
  unfold SplitData.collect_flat.
  set (files := filter SplitData.eligible (listdir source_dir)).
  set (item := fun f : string => (f, Py.path_join source_dir f)).
  intros Hin.
  apply dict_get_In in Hin; [|apply fold_dict_append_NoDup; constructor].
  rewrite (fold_dict_append SplitData.parse_label item) in Hin.
  cbn [dict_get find] in Hin.
  destruct (map item (filter _ files)) as [|x xs] eqn:E; [discriminate|].
  injection Hin as <-. split; [|reflexivity].
  assert (Hx : In x (map item (filter (fun f => SplitData.parse_label f =? label) files)))
    by (rewrite E; left; reflexivity).
  apply in_map_iff in Hx. destruct Hx as (f & _ & Hf).
  apply filter_In in Hf. destruct Hf as [_ Hf].
  apply String.eqb_eq in Hf. subst label. apply parse_label_stage_dir.
Qed.

(** X1.  In a flat source directory the files are grouped by the label
    parsed from their names: the groups have distinct labels, each one of
    the five stage directories; the group of a label holds exactly the
    eligible files whose name parses to that label, in the order of the
    directory listing, each with its path in the source directory; no group
    is empty, and every eligible file has its group. *)
Theorem collect_flat_groups_by_label (source_dir : string) :
  NoDup (map fst (SplitData.collect_flat source_dir))
  /\ (forall label items, In (label, items) (SplitData.collect_flat source_dir) ->
        In label SplitData.stage_dirs
        /\ items <> []
        /\ items
           = map (fun f => (f, Py.path_join source_dir f))
               (filter (fun f => SplitData.parse_label f =? label)
                  (filter SplitData.eligible (listdir source_dir))))
  /\ (forall f, In f (filter SplitData.eligible (listdir source_dir)) ->
        exists items,
          In (SplitData.parse_label f, items) (SplitData.collect_flat source_dir)
          /\ In (f, Py.path_join source_dir f) items).
Proof.
  unfold SplitData.collect_flat.
  set (files := filter SplitData.eligible (listdir source_dir)).
  set (item := fun f : string => (f, Py.path_join source_dir f)).
  assert (Hnd : NoDup
                  (map fst
                     (fold_left
                        (fun d f =>
                           SplitData.dict_append d (SplitData.parse_label f) (item f))
                        files []))).
  { apply fold_dict_append_NoDup. constructor. }
  split; [exact Hnd|]. split.
  - intros label items Hin.
    apply (dict_get_In _ _ _ Hnd) in Hin.
    rewrite (fold_dict_append SplitData.parse_label item) in Hin.
    cbn [dict_get find] in Hin.
    destruct (map item (filter _ files)) as [|x xs] eqn:E; [discriminate|].
    injection Hin as <-. split; [|split; [discriminate | reflexivity]].
    assert (Hx : In x (map item (filter (fun f => SplitData.parse_label f =? label) files)))
      by (rewrite E; left; reflexivity).
    apply in_map_iff in Hx. destruct Hx as (f & _ & Hf).
    apply filter_In in Hf. destruct Hf as [_ Hf].
    apply String.eqb_eq in Hf. subst label. apply parse_label_stage_dir.
  - intros f Hf.
    exists (map item (filter (fun g => SplitData.parse_label g =? SplitData.parse_label f) files)).
    assert (Hi : In (item f)
                   (map item
                      (filter (fun g => SplitData.parse_label g =? SplitData.parse_label f)
                         files))).
    { apply in_map, filter_In. split; [exact Hf | apply String.eqb_refl]. }
    split; [|exact Hi].
    apply (dict_get_In _ _ _ Hnd).
    rewrite (fold_dict_append SplitData.parse_label item).
    cbn [dict_get find].
    destruct (map item (filter _ files)); [destruct Hi | reflexivity].
Qed.

Lemma copy_sources_app (a b : list event) :
  copy_sources (a ++ b) = copy_sources a ++ copy_sources b.
Proof. apply flat_map_app. Qed.

Lemma copy_sources_copies (dir label : string) (items : list (string * string)) :
  copy_sources (copies dir label items) = map snd items.
Proof.
  induction items as [|it items IH]; [reflexivity|].
  cbn [copies map copy_sources flat_map app] in *. rewrite <- IH. reflexivity.
Qed.

Lemma split_labels_ok (train_dir test_dir : string) (r : float) (i : nat)
  (d : SplitData.files_dict) :
  snd (SplitData.split_labels train_dir test_dir r i d) = Ok tt.
Proof.
  revert i. induction d as [|[label items] d IH]; intros i; [reflexivity|].
  cbn [SplitData.split_labels]. rewrite split_label_run, bind_ok. apply IH.
Qed.

Lemma split_labels_sources (train_dir test_dir : string) (r : float) (i : nat)
  (d : SplitData.files_dict) :
  Permutation
    (copy_sources (fst (SplitData.split_labels train_dir test_dir r i d)))
    (map snd (flat_map snd d)).
Proof.
  revert i. induction d as [|[label items] d IH]; intros i; [constructor|].
  cbn [SplitData.split_labels flat_map snd]. rewrite split_label_run, bind_ok.
  cbn [fst]. rewrite !copy_sources_app, !copy_sources_copies, map_app.
  apply Permutation_app; [|apply IH].
  rewrite <- map_app, train_test_app.
  apply Permutation_map, Permutation_sym, shuffle_perm.
Qed.

Lemma split_labels_copy (train_dir test_dir : string) (r : float) (i : nat)
  (d : SplitData.files_dict) (s dst : string) :
  In (Copy2 s dst) (fst (SplitData.split_labels train_dir test_dir r i d)) ->
  exists label items fname,
    In (label, items) d /\ In (fname, s) items
    /\ (dst = Py.path_join (Py.path_join train_dir label) fname
        \/ dst = Py.path_join (Py.path_join test_dir label) fname).
Proof.
  revert i. induction d as [|[label items] d IH]; intros i; [intros []|].
  cbn [SplitData.split_labels]. rewrite split_label_run, bind_ok. cbn [fst].
  rewrite !in_app_iff. intros [[H|H]|H].
  - unfold copies in H. apply in_map_iff in H. destruct H as ([f p] & Hev & Hin).
    injection Hev as <- <-. exists label, items, f. split; [left; reflexivity|].
    split; [|left; reflexivity].
    apply (Permutation_in _ (Permutation_sym (shuffle_perm i items))).
    rewrite <- (train_test_app (shuffle i items) r). apply in_or_app. left. exact Hin.
  - unfold copies in H. apply in_map_iff in H. destruct H as ([f p] & Hev & Hin).
    injection Hev as <- <-. exists label, items, f. split; [left; reflexivity|].
    split; [|right; reflexivity].
    apply (Permutation_in _ (Permutation_sym (shuffle_perm i items))).
    rewrite <- (train_test_app (shuffle i items) r). apply in_or_app. right. exact Hin.
  - destruct (IH _ H) as (l & its & f & Hd & Hi & Hdst).
    exists l, its, f. split; [right; exact Hd | split; assumption].
Qed.

(** The trace of a run on an existing source directory. *)
Lemma split_dataset_run (source_dir output_dir : string) (r : float) :
  path_exists source_dir = true ->
  SplitData.split_dataset source_dir output_dir r
  = (created_dirs output_dir
     ++ [Print (match subfolders_of source_dir with
                | [] => "Detected Flat Directory Structure."
                | _ => "Detected Class Subfolder Structure."
                end);
         Print "Found images distributed across labels:"]
     ++ map (fun kv =>
               Print ("  - " ++ fst kv ++ ": "
                      ++ Py.str_of_Z (Z.of_nat (List.length (snd kv)))))
          (files_by_label source_dir)
     ++ fst (SplitData.split_labels (Py.path_join output_dir "train")
               (Py.path_join output_dir "test") r 0 (files_by_label source_dir))
     ++ [Print (String "010" "Dataset split complete!");
         Print ("Train: " ++ Py.path_join output_dir "train");
         Print ("Test: " ++ Py.path_join output_dir "test")],
     Ok tt).
Proof.
  intros Hex. unfold SplitData.split_dataset. rewrite Hex. cbn [negb].
  unfold files_by_label, subfolders_of.
  set (tr := Py.path_join output_dir "train").
  set (te := Py.path_join output_dir "test").
  assert (Hdirs :
            for_each SplitData.stage_dirs
              (fun stage =>
                 emit (Makedirs (Py.path_join tr stage)) ;;;
                 emit (Makedirs (Py.path_join te stage)))
            = (created_dirs output_dir, Ok tt)) by reflexivity.
  rewrite Hdirs. clear Hdirs.
  destruct (filter _ (listdir source_dir)) as [|sub subs].
  - pose proof (split_labels_ok tr te r 0 (SplitData.collect_flat source_dir)) as Hok.
    run. rewrite for_each_emit. run.
    destruct (SplitData.split_labels tr te r 0 _) as [t o]. cbn [snd] in Hok.
    subst o. run. reflexivity.
  - pose proof (split_labels_ok tr te r 0
                  (SplitData.collect_subfolders source_dir (sub :: subs))) as Hok.
    run. rewrite for_each_emit. run.
    destruct (SplitData.split_labels tr te r 0 _) as [t o]. cbn [snd] in Hok.
    subst o. run. reflexivity.
Qed.

(** X2.  On a flat source directory, every copy of a run takes an eligible
    file of the directory to <output>/train/<label>/<name> or
    <output>/test/<label>/<name>, where <label> is the label parsed from
    the file's name: one of the five stage directories, which the run has
    created. *)
Theorem split_dataset_flat_copies_into_created_dirs
  (source_dir output_dir : string) (r : float) (s dst : string) :
  path_exists source_dir = true ->
  subfolders_of source_dir = [] ->
  In (Copy2 s dst) (fst (SplitData.split_dataset source_dir output_dir r)) ->
  exists side fname,
    (side = "train" \/ side = "test")
    /\ In fname (listdir source_dir)
    /\ SplitData.eligible fname = true
    /\ s = Py.path_join source_dir fname
    /\ dst = Py.path_join
              (Py.path_join (Py.path_join output_dir side)
                 (SplitData.parse_label fname)) fname
    /\ In (SplitData.parse_label fname) SplitData.stage_dirs
    /\ In (Makedirs
             (Py.path_join (Py.path_join output_dir side)
                (SplitData.parse_label fname)))
          (fst (SplitData.split_dataset source_dir output_dir r)).
Proof.
  intros Hex Hflat. rewrite (split_dataset_run _ _ _ Hex).
  unfold files_by_label. rewrite Hflat. cbn [fst].
  intros Hin.
  assert (Hcopy : In (Copy2 s dst)
                    (fst (SplitData.split_labels (Py.path_join output_dir "train")
                            (Py.path_join output_dir "test") r 0
                            (SplitData.collect_flat source_dir)))).
  { rewrite !in_app_iff in Hin. destruct Hin as [H|[H|[H|[H|H]]]].
    - unfold created_dirs in H. apply in_flat_map in H.
      destruct H as (st & _ & [H|[H|[]]]); discriminate H.
    - destruct H as [H|[H|[]]]; discriminate H.
    - apply in_map_iff in H. destruct H as (kv & H & _). discriminate H.
    - exact H.
    - destruct H as [H|[H|[H|[]]]]; discriminate H. }
  apply split_labels_copy in Hcopy.
  destruct Hcopy as (label & items & fname & Hd & Hi & Hdst).
  destruct (collect_flat_groups source_dir label items Hd) as (Hstage & Hitems).
  rewrite Hitems in Hi. apply in_map_iff in Hi. destruct Hi as (f & Hf & Hfin).
  injection Hf as -> <-. apply filter_In in Hfin. destruct Hfin as [Hfin Hlab].
  apply String.eqb_eq in Hlab. subst label.
  apply filter_In in Hfin. destruct Hfin as [Hls Hel].
  assert (Hmk : forall side, side = "train" \/ side = "test" ->
                  In (Makedirs (Py.path_join (Py.path_join output_dir side)
                                  (SplitData.parse_label fname)))
                    (created_dirs output_dir)).
  { intros side Hside. unfold created_dirs. apply in_flat_map.
    exists (SplitData.parse_label fname). split; [exact Hstage|].
    destruct Hside as [->| ->]; [left | right; left]; reflexivity. }
  destruct Hdst as [-> | ->].
  - exists "train", fname. repeat split; try assumption; [left; reflexivity|].
    apply in_or_app. left. apply Hmk. left. reflexivity.
  - exists "test", fname. repeat split; try assumption; [right; reflexivity|].
    apply in_or_app. left. apply Hmk. right. reflexivity.
Qed.

Lemma dict_append_items (d : SplitData.files_dict) (l : string)
  (it : string * string) :
  Permutation (flat_map snd (SplitData.dict_append d l it))
    (flat_map snd d ++ [it]).
Proof.
  induction d as [|[k items] d IH]; cbn [SplitData.dict_append flat_map snd app].
  - constructor. constructor.
  - destruct (k =? l); cbn [flat_map snd].
    + rewrite <- !app_assoc. apply Permutation_app_head.
      apply Permutation_app_comm.
    + rewrite <- app_assoc. apply Permutation_app_head. exact IH.
Qed.

Lemma collect_flat_items (source_dir : string) :
  Permutation (map snd (flat_map snd (SplitData.collect_flat source_dir)))
    (eligible_paths source_dir).
Proof.
  unfold SplitData.collect_flat, eligible_paths.
  set (item := fun f : string => (f, Py.path_join source_dir f)).
  assert (H : forall fs d,
             Permutation
               (flat_map snd
                  (fold_left
                     (fun d f =>
                        SplitData.dict_append d (SplitData.parse_label f) (item f))
                     fs d))
               (flat_map snd d ++ map item fs)).
  { induction fs as [|f fs IH]; intros d; cbn [fold_left map].
    - rewrite app_nil_r. reflexivity.
    - rewrite IH. rewrite dict_append_items, <- app_assoc. reflexivity. }
  eapply Permutation_trans; [apply Permutation_map; exact (H _ [])|].
  cbn [flat_map app]. rewrite map_map. reflexivity.
Qed.

Lemma dict_set_fresh_end (d : SplitData.files_dict) (l : string)
  (items : list (string * string)) :
  ~ In l (map fst d) -> SplitData.dict_set d l items = d ++ [(l, items)].
Proof.
  induction d as [|[k old] d IH]; cbn [SplitData.dict_set map fst In app];
    intros Hn; [reflexivity|].
  destruct (String.eqb_spec k l) as [->|_]; [tauto|].
  rewrite IH by tauto. reflexivity.
Qed.

Lemma collect_subfolders_items (source_dir : string) (subfolders : list string) :
  NoDup subfolders ->
  map snd (flat_map snd (SplitData.collect_subfolders source_dir subfolders))
  = flat_map (fun label => eligible_paths (Py.path_join source_dir label))
      subfolders.
Proof.
  unfold SplitData.collect_subfolders.
  set (group := fun label : string =>
                  map (fun f => (f, Py.path_join (Py.path_join source_dir label) f))
                    (filter SplitData.eligible
                       (listdir (Py.path_join source_dir label)))).
  assert (H : forall subs d,
             NoDup (map fst d ++ subs) ->
             fold_left (fun d label => SplitData.dict_set d label (group label))
               subs d
             = d ++ map (fun label => (label, group label)) subs).
  { induction subs as [|l subs IH]; intros d Hnd; cbn [fold_left map].
    - rewrite app_nil_r. reflexivity.
    - rewrite dict_set_fresh_end.
      + rewrite IH.
        * rewrite <- app_assoc. reflexivity.
        * rewrite map_app. cbn [map fst]. rewrite <- app_assoc. exact Hnd.
      + intros Hin. apply NoDup_remove_2 in Hnd. apply Hnd.
        apply in_or_app. left. exact Hin. }
  intros Hnd. rewrite (H _ []) by exact Hnd. cbn [app].
  induction subfolders as [|l subs IH]; [reflexivity|].
  cbn [map flat_map snd]. rewrite map_app, IH.
  - f_equal. unfold group, eligible_paths. rewrite map_map. reflexivity.
  - inversion Hnd; assumption.
Qed.

Lemma copy_sources_none (t : list event) :
  (forall s dst, ~ In (Copy2 s dst) t) -> copy_sources t = [].
Proof.
  induction t as [|ev t IH]; intros H; [reflexivity|].
  cbn [copy_sources flat_map].
  destruct ev as [| |s0 d0| | | | | | | |];
    try (apply IH; intros s1 d1 Hin; apply (H s1 d1); right; exact Hin).
  exfalso. apply (H s0 d0). left. reflexivity.
Qed.


End SplitRunFacts.

(** ** unpack_zips.py: the loop over the zips *)

Section UnpackRunFacts.

Context {C : Carriers} {P : PIL} {FS : FileSystem} {ZF : ZipFiles}.

Lemma process_zip_ok (root_dir output_dir zip_name : string) :
  extractall (Py.path_join root_dir zip_name) (zip_temp_dir output_dir zip_name)
  = Ok tt ->
  snd (UnpackZips.process_zip root_dir output_dir zip_name) = Ok tt.
Proof.
  intros Hx. unfold UnpackZips.process_zip. rewrite label_of_upper.
  fold (zip_label zip_name). fold (zip_temp_dir output_dir zip_name).
  unfold emit, effect. rewrite Hx, !bind_ok. cbn [fst snd].
  rewrite convert_walk_run, !bind_ok. reflexivity.
Qed.

Lemma process_zip_failed (root_dir output_dir zip_name : string) (e : exn) :
  extractall (Py.path_join root_dir zip_name) (zip_temp_dir output_dir zip_name)
  = Raised e ->
  UnpackZips.process_zip root_dir output_dir zip_name
  = ([Print ("Processing " ++ zip_name ++ " as " ++ zip_label zip_name ++ "...");
      ExtractAll (Py.path_join root_dir zip_name)
        (zip_temp_dir output_dir zip_name)],
     Raised e).
Proof.
  intros Hx. unfold UnpackZips.process_zip. rewrite label_of_upper.
  fold (zip_label zip_name). fold (zip_temp_dir output_dir zip_name).
  unfold emit, effect. rewrite Hx. reflexivity.
Qed.

(** A loop stops at the first element whose body raises. *)
Lemma for_each_raises {E A} (pre : list A) (x : A) (post : list A)
  (body : A -> M E unit) (t : list E) (e : exn) :
  (forall p, In p pre -> snd (body p) = Ok tt) ->
  body x = (t, Raised e) ->
  for_each (pre ++ x :: post) body
  = (flat_map (fun p => fst (body p)) pre ++ t, Raised e).
Proof.
  intros Hpre Hx. induction pre as [|p pre IH]; cbn [app flat_map].
  - rewrite for_each_cons, Hx. reflexivity.
  - rewrite for_each_cons.
    assert (Hp := Hpre p (or_introl eq_refl)).
    destruct (body p) as [tp o]. cbn [snd] in Hp. subst o.
    rewrite bind_ok, IH by (intros q Hq; apply Hpre; right; exact Hq).
    cbn [fst snd]. rewrite app_assoc. reflexivity.
Qed.


End UnpackRunFacts.

(** ** segment.py: what [crop_genitals] writes *)

Section SegmentRunFacts.

Context {C : Carriers} {P : PIL} {FS : FileSystem} {O : Owlv2}.

(** X5.  When OWLv2 finds something in a file that opens, [crop_genitals]
    takes the box with the highest score, pads and clamps it, crops the
    image to it and saves the crop, with Pillow's defaults, under the
    file's own name in the output directory of the label; a failure to save
    is printed, and the run goes on. *)
Theorem crop_file_saves_best_box
  (processor : Owlv2Processor) (model : Owlv2Model)
  (prompt_text : string) (threshold : float)
  (label_path output_label_path fname : string)
  (opened image cropped : Image) (results : detections)
  (best_idx : nat) (b : box float) (w h : Z) :
  Image_open (Py.path_join label_path fname) = Ok opened ->
  convert opened "RGB" = Ok image ->
  Owlv2_detect processor model image prompt_text threshold = Ok results ->
  scores results <> [] ->
  argmax (scores results) = Ok best_idx ->
  nth_error (boxes results) best_idx = Some b ->
  size image = (w, h) ->
  crop image (Segment.pad_box w h b) = Ok cropped ->
  Segment.crop_file processor model prompt_text threshold label_path
    output_label_path fname
  = (ImageSave cropped (Py.path_join output_label_path fname) None None
     :: match save cropped (Py.path_join output_label_path fname) None None with
        | Ok _ => []
        | Raised e => [error_processing fname e]
        end,
     Ok tt).
Proof.
  intros Ho Hc Hd Hs Ha Hb Hsz Hcr. rewrite crop_file_catches.
  unfold Segment.crop_file_body. rewrite Ho. run. rewrite Hc. run.
  rewrite Hd. run.
  destruct (scores results) as [|s0 ss] eqn:Es; [congruence|].
  cbn [List.length Nat.ltb Nat.leb]. rewrite Ha. run.
  unfold getitem. rewrite Hb. run. rewrite Hsz, Hcr. run.
  unfold Image_save. run.
  destruct (save cropped _ None None) as [[]|e]; reflexivity.
Qed.

Ltac crop_leaf :=
  first
    [ exists [], []; split; [reflexivity | cbn [List.length]; lia]
    | exists []; eexists [_]; split; [reflexivity | cbn [List.length]; lia]
    | eexists [_]; exists []; split; [reflexivity | cbn [List.length]; lia]
    | eexists [_]; eexists [_]; split; [reflexivity | cbn [List.length]; lia] ].

(** The events of one file: at most one save, to the output path of the
    file, and at most one printed line. *)
Lemma crop_file_trace (processor : Owlv2Processor) (model : Owlv2Model)
  (prompt_text : string) (threshold : float)
  (label_path output_label_path fname : string) :
  exists (saved : list Image) (printed : list string),
    fst (Segment.crop_file processor model prompt_text threshold label_path
           output_label_path fname)
    = map (fun img =>
             ImageSave img (Py.path_join output_label_path fname) None None)
        saved
      ++ map Print printed
    /\ (List.length saved <= 1)%nat.
Proof.
  rewrite crop_file_catches.
  unfold Segment.crop_file_body, Image_save, getitem, error_processing.
  destruct (Image_open _) as [opened|e]; run; [|crop_leaf].
  destruct (convert opened "RGB") as [image|e]; run; [|crop_leaf].
  destruct (Owlv2_detect _ _ _ _ _) as [results|e]; run; [|crop_leaf].
  destruct (0 <? List.length (scores results))%nat.
  - destruct (argmax _) as [best_idx|e]; run; [|crop_leaf].
    destruct (nth_error _ _) as [b|]; run; [|crop_leaf].
    destruct (size image) as [w h].
    destruct (crop image _) as [cropped|e]; run; [|crop_leaf].
    destruct (save cropped _ None None) as [[]|e]; crop_leaf.
  - destruct (save image _ None None) as [[]|e]; crop_leaf.
Qed.

Lemma saved_paths_app (a b : list event) :
  saved_paths (a ++ b) = saved_paths a ++ saved_paths b.
Proof. apply flat_map_app. Qed.

Lemma saved_paths_prints (printed : list string) :
  saved_paths (map Print printed) = [].
Proof. induction printed; [reflexivity | exact IHprinted]. Qed.

Lemma saved_paths_print (s : string) (t : list event) :
  saved_paths (Print s :: t) = saved_paths t.
Proof. reflexivity. Qed.

Lemma saved_paths_makedirs (d : string) (t : list event) :
  saved_paths (Makedirs d :: t) = saved_paths t.
Proof. reflexivity. Qed.

Lemma crop_label_run (processor : Owlv2Processor) (model : Owlv2Model)
  (input_dir output_dir prompt_text : string) (threshold : float)
  (label : string) :
  Segment.crop_label processor model input_dir output_dir prompt_text
    threshold label
  = (Makedirs (Py.path_join output_dir label)
     :: Print ("Processing " ++ label ++ " ("
               ++ Py.str_of_Z
                    (Z.of_nat
                       (List.length
                          (filter Segment.supported
                             (listdir (Py.path_join input_dir label)))))
               ++ " images)...")
     :: flat_map
          (fun fname =>
             fst (Segment.crop_file processor model prompt_text threshold
                    (Py.path_join input_dir label)
                    (Py.path_join output_dir label) fname))
          (filter Segment.supported (listdir (Py.path_join input_dir label))),
     Ok tt).
Proof.
  unfold Segment.crop_label. rewrite crop_files_all. reflexivity.
Qed.

(** The run of [crop_genitals], by cases on the loading of the models and
    on the input directory. *)
Lemma crop_genitals_run (input_dir output_dir prompt_text : string)
  (threshold : float) :
  let banner :=
    Print ("Loading OWLv2 for zero-shot detection of '" ++ prompt_text
           ++ "'...") in
  match Owlv2Processor_from_pretrained "google/owlv2-base-patch16-ensemble",
        Owlv2Model_from_pretrained "google/owlv2-base-patch16-ensemble" with
  | Raised e, _ =>
      Segment.crop_genitals input_dir output_dir prompt_text threshold
      = ([banner], Raised e)
  | Ok _, Raised e =>
      Segment.crop_genitals input_dir output_dir prompt_text threshold
      = ([banner], Raised e)
  | Ok processor, Ok model =>
      Segment.crop_genitals input_dir output_dir prompt_text threshold
      = if path_exists input_dir then
          (banner
           :: flat_map
                (fun label =>
                   fst (Segment.crop_label processor model input_dir
                          output_dir prompt_text threshold label))
                (subfolders_of input_dir),
           Ok tt)
        else
          ([banner; Print ("Input directory " ++ input_dir ++ " not found.")],
           Ok tt)
  end.
Proof.
  cbv zeta. unfold Segment.crop_genitals.
  destruct (Owlv2Processor_from_pretrained _) as [processor|e]; [|reflexivity].
  destruct (Owlv2Model_from_pretrained _) as [model|e]; [|reflexivity].
  run. destruct (path_exists input_dir); cbn [negb]; [|reflexivity].
  rewrite for_each_total.
  - reflexivity.
  - intros label _. rewrite crop_label_run. reflexivity.
Qed.

(** X6.  Whatever the detector and Pillow do, [crop_genitals] saves images
    only to <output>/<label>/<name>, for a subfolder <label> of the input
    directory and a supported file <name> of that subfolder, always with
    Pillow's default format and quality; and it saves at most one image per
    such file. *)
Theorem crop_genitals_saves_under_output
  (input_dir output_dir prompt_text : string) (threshold : float) :
  (forall (img : Image) (path : string) (format : option string)
      (quality : option Z),
      In (ImageSave img path format quality)
        (fst (Segment.crop_genitals input_dir output_dir prompt_text threshold)) ->
      exists label fname,
        In (label, fname) (crop_candidates input_dir)
        /\ path = Py.path_join (Py.path_join output_dir label) fname
        /\ format = None /\ quality = None)
  /\ (List.length
        (saved_paths
           (fst (Segment.crop_genitals input_dir output_dir prompt_text
                   threshold)))
      <= List.length (crop_candidates input_dir))%nat.
Proof.
  pose proof (crop_genitals_run input_dir output_dir prompt_text threshold) as Hrun.
  cbv zeta in Hrun.
  destruct (Owlv2Processor_from_pretrained _) as [processor|e].
  2:{ rewrite Hrun. split; [|cbn; lia].
      intros img path f q [H|[]]. discriminate H. }
  destruct (Owlv2Model_from_pretrained _) as [model|e].
  2:{ rewrite Hrun. split; [|cbn; lia].
      intros img path f q [H|[]]. discriminate H. }
  rewrite Hrun. clear Hrun.
  destruct (path_exists input_dir).
  2:{ split; [|cbn; lia]. intros img path f q [H|[H|[]]]; discriminate H. }
  cbn [fst]. unfold crop_candidates.
  induction (subfolders_of input_dir) as [|label labels IH].
  - split; [|cbn; lia]. intros img path f q [H|[]]. discriminate H.
  - destruct IH as [IHin IHlen]. cbn [flat_map]. rewrite crop_label_run. cbn [fst].
    set (files := filter Segment.supported (listdir (Py.path_join input_dir label))).
    assert (Hfiles :
              (forall img path f q,
                  In (ImageSave img path f q)
                    (flat_map
                       (fun fname =>
                          fst (Segment.crop_file processor model prompt_text
                                 threshold (Py.path_join input_dir label)
                                 (Py.path_join output_dir label) fname)) files) ->
                  exists fname,
                    In fname files
                    /\ path = Py.path_join (Py.path_join output_dir label) fname
                    /\ f = None /\ q = None)
              /\ (List.length
                    (saved_paths
                       (flat_map
                          (fun fname =>
                             fst (Segment.crop_file processor model prompt_text
                                    threshold (Py.path_join input_dir label)
                                    (Py.path_join output_dir label) fname)) files))
                  <= List.length files)%nat).
    { clearbody files. induction files as [|fname files IHf].
      - split; [intros ? ? ? ? [] | cbn; lia].
      - destruct IHf as [IHfin IHflen]. cbn [flat_map].
        destruct (crop_file_trace processor model prompt_text threshold
                    (Py.path_join input_dir label)
                    (Py.path_join output_dir label) fname)
          as (saved & printed & -> & Hone).
        split.
        + intros img path f q Hin. rewrite !in_app_iff in Hin.
          destruct Hin as [[Hin|Hin]|Hin].
          * apply in_map_iff in Hin. destruct Hin as (i & Hev & _).
            injection Hev as <- <- <- <-. exists fname.
            split; [left; reflexivity | repeat split].
          * apply in_map_iff in Hin. destruct Hin as (i & Hev & _). discriminate Hev.
          * destruct (IHfin _ _ _ _ Hin) as (fn & Hfn & Hrest).
            exists fn. split; [right; exact Hfn | exact Hrest].
        + rewrite !saved_paths_app, saved_paths_prints, app_nil_r, length_app.
          assert (Hs : List.length
                         (saved_paths
                            (map (fun img =>
                                    ImageSave img
                                      (Py.path_join (Py.path_join output_dir label) fname)
                                      None None) saved))
                       = List.length saved).
          { clear. induction saved as [|i sv IHs];
              [reflexivity | cbn; f_equal; exact IHs]. }
          rewrite Hs. cbn [List.length]. lia. }
    destruct Hfiles as [Hfin Hflen]. split.
    + intros img path f q Hin.
      destruct Hin as [Hin|Hin]; [discriminate Hin|].
      destruct Hin as [Hin|Hin]; [discriminate Hin|].
      destruct Hin as [Hin|Hin]; [discriminate Hin|].
      apply in_app_iff in Hin. destruct Hin as [Hin|Hin].
      * destruct (Hfin _ _ _ _ Hin) as (fname & Hfn & Hrest).
        exists label, fname. split; [|exact Hrest].
        apply in_or_app. left. apply in_map. exact Hfn.
      * destruct (IHin img path f q (or_intror Hin)) as (l & fn & Hc & Hrest).
        exists l, fn. split; [|exact Hrest]. apply in_or_app. right. exact Hc.
    + rewrite saved_paths_print in IHlen. cbn [app].
      rewrite saved_paths_print, saved_paths_makedirs, saved_paths_print.
      rewrite saved_paths_app, !length_app, length_map. lia.
Qed.

(** X7.  For a detection box that lies within the image, the padded box
    contains the detection box: each side moves outwards, by the padding of
    20 or, where the image ends before that, up to the border of the
    image. *)
Theorem pad_box_contains_detection (w h : Z) (xmin ymin xmax ymax : float) :
  0 <= xmin -> xmin <= xmax -> xmax <= inject_Z w ->
  0 <= ymin -> ymin <= ymax -> ymax <= inject_Z h ->
  exists x0 y0 x1 y1 : float,
    Segment.pad_box w h (xmin, ymin, xmax, ymax) = (x0, y0, x1, y1)
    /\ x0 <= xmin /\ xmax <= x1 /\ y0 <= ymin /\ ymax <= y1
    /\ (x0 == xmin - 20 \/ (x0 == 0 /\ xmin <= 20))
    /\ (y0 == ymin - 20 \/ (y0 == 0 /\ ymin <= 20))
    /\ (x1 == xmax + 20 \/ (x1 == inject_Z w /\ inject_Z w <= xmax + 20))
    /\ (y1 == ymax + 20 \/ (y1 == inject_Z h /\ inject_Z h <= ymax + 20)).
Proof.
  intros Hx0 Hx Hxw Hy0 Hy Hyh.
  unfold Segment.pad_box. do 4 eexists. split; [reflexivity|].
  change (inject_Z 20) with 20. change (inject_Z 0) with 0.
  unfold py_max, py_min.
  destruct (Qltb 0 (xmin - 20)) eqn:E1;
    [apply Qltb_lt in E1 | apply Qltb_ge in E1];
  destruct (Qltb 0 (ymin - 20)) eqn:E2;
    [apply Qltb_lt in E2 | apply Qltb_ge in E2 | apply Qltb_lt in E2 | apply Qltb_ge in E2];
  destruct (Qltb (xmax + 20) (inject_Z w)) eqn:E3;
    try (apply Qltb_lt in E3); try (apply Qltb_ge in E3);
  destruct (Qltb (ymax + 20) (inject_Z h)) eqn:E4;
    try (apply Qltb_lt in E4); try (apply Qltb_ge in E4);
  repeat match goal with |- _ /\ _ => split end; try lra;
    first [left; reflexivity | right; split; [reflexivity | lra]].
Qed.

End SegmentRunFacts.

(** ** main.py: segmentation never fails a request *)

Section SegmentImageFacts.

Context {C : Carriers} {P : PIL} {RQ : Requests} {B : Bioclip}
  {SK : SklearnLib} {S2 : Sam2} {O : Owlv2} {D : MainDeps}.

(** A [try] whose handler returns, returns. *)
Lemma try_except_returns {E A} (m : M E A) (h : exn -> M E A) :
  (forall e, exists t a, h e = (t, Ok a)) ->
  exists t a, try_except m h = (t, Ok a).
Proof.
  intros Hh. destruct m as [t [a|e]].
  - exists t, a. reflexivity.
  - destruct (Hh e) as (t' & a & Ha). exists (t ++ t'), a.
    rewrite try_except_raised, Ha. reflexivity.
Qed.

Lemma segment_with_sam3_cloud_returns (cfg : Sam3Cloud.config) (image : Image)
  (prompt bg_mode bg_color : string) (timeout : Z) :
  exists t r,
    Sam3Cloud.segment_with_sam3_cloud cfg image prompt bg_mode bg_color timeout
    = (t, Ok r).
Proof.
  unfold Sam3Cloud.segment_with_sam3_cloud.
  destruct (truthy (Sam3Cloud.SAM3_ENDPOINT_URL cfg)); cbn [negb];
    [|eexists _, _; reflexivity].
  destruct (truthy (Sam3Cloud.HF_TOKEN cfg)); cbn [negb];
    [|eexists _, _; reflexivity].
  apply try_except_returns. intros e.
  destruct (is_Timeout e); [eexists _, _; reflexivity|].
  destruct (is_ConnectionError e); eexists _, _; reflexivity.
Qed.

Lemma segment_with_sam2_returns (g : Main.globals) (image : Image) :
  exists t r, Main.segment_with_sam2 g image = (t, Ok r).
Proof.
  unfold Main.segment_with_sam2.
  destruct (Main.sam2_model g); [|eexists _, _; reflexivity].
  destruct (Main.sam2_processor g); [|eexists _, _; reflexivity].
  apply try_except_returns. intros e. eexists _, _. reflexivity.
Qed.

Lemma segment_with_owlv2_returns (g : Main.globals) (image : Image)
  (prompt : string) :
  exists t r, Main.segment_with_owlv2 g image prompt = (t, Ok r).
Proof.
  unfold Main.segment_with_owlv2.
  destruct (Main.owlv2_model g); [|eexists _, _; reflexivity].
  destruct (Main.owlv2_processor g); [|eexists _, _; reflexivity].
  apply try_except_returns. intros e. eexists _, _. reflexivity.
Qed.

(** X8.  With any segmentation model but "evf", [segment_image] never
    raises, whatever the model, Pillow and the network do: it returns a
    crop or None.  With a model name that is none of "sam3_cloud", "evf",
    "sam2" and "owlv2" it returns None at once and prints nothing. *)
Theorem segment_image_never_raises (g : Main.globals) (image : Image) :
  (Main.SEGMENTATION_MODEL g <> "evf" ->
   exists t r, Main.segment_image g image = (t, Ok r))
  /\ (~ In (Main.SEGMENTATION_MODEL g) ["sam3_cloud"; "evf"; "sam2"; "owlv2"] ->
      Main.segment_image g image = ([], Ok None)).
Proof.
  unfold Main.segment_image. split.
  - intros Hevf.
    destruct (Main.SEGMENTATION_MODEL g =? "sam3_cloud").
    { destruct (segment_with_sam3_cloud_returns (Main.sam3_config g) image
                  (Main.SEGMENTATION_PROMPT g) "mask_crop" "black" 120)
        as (t & [result error] & ->).
      run. destruct (truthy error); run; eexists _, _; reflexivity. }
    destruct (String.eqb_spec (Main.SEGMENTATION_MODEL g) "evf"); [contradiction|].
    destruct (Main.SEGMENTATION_MODEL g =? "sam2");
      [apply segment_with_sam2_returns|].
    destruct (Main.SEGMENTATION_MODEL g =? "owlv2");
      [apply segment_with_owlv2_returns|].
    eexists _, _. reflexivity.
  - intros Hn. cbn [In] in Hn.
    destruct (String.eqb_spec (Main.SEGMENTATION_MODEL g) "sam3_cloud");
      [exfalso; apply Hn; left; congruence|].
    destruct (String.eqb_spec (Main.SEGMENTATION_MODEL g) "evf");
      [exfalso; apply Hn; right; left; congruence|].
    destruct (String.eqb_spec (Main.SEGMENTATION_MODEL g) "sam2");
      [exfalso; apply Hn; right; right; left; congruence|].
    destruct (String.eqb_spec (Main.SEGMENTATION_MODEL g) "owlv2");
      [exfalso; apply Hn; right; right; right; left; congruence|].
    reflexivity.
Qed.

(** X9.  The two endpoints answer or fail with an HTTP status, never with
    another exception.  POST /embed fails with 503 exactly when BioCLIP is
    not initialised, and with 500 for any failure after that.  POST
    /classify fails with 503, 400 or 500, and with 400 exactly when BioCLIP
    is initialised and the linear probe is disabled. *)
Theorem endpoints_fail_only_with_http_status (g : Main.globals)
  (file : UploadFile) :
  match snd (Main.generate_embedding g file) with
  | Ok _ => True
  | Raised (HTTPException status _) =>
      (status = 503%Z
       /\ (Main.bioclip_model g = None \/ Main.bioclip_preprocess g = None))
      \/ (status = 500%Z
          /\ Main.bioclip_model g <> None /\ Main.bioclip_preprocess g <> None)
  | Raised (Exc _ _) => False
  end
  /\ match snd (Main.classify_image g file) with
     | Ok _ => True
     | Raised (HTTPException status _) =>
         (status = 503%Z \/ status = 400%Z \/ status = 500%Z)
         /\ (status = 400%Z <->
             Main.bioclip_model g <> None /\ Main.bioclip_preprocess g <> None
             /\ Main.USE_LINEAR_PROBE g = false)
     | Raised (Exc _ _) => False
     end.
Proof.
  split.
  - unfold Main.generate_embedding.
    destruct (Main.bioclip_model g) as [model|]; cbn [Main.is_None orb];
      [|left; split; [reflexivity | left; reflexivity]].
    destruct (Main.bioclip_preprocess g) as [preprocess|]; cbn [Main.is_None];
      [|left; split; [reflexivity | right; reflexivity]].
    match goal with |- context [try_except ?m _] => destruct m as [t [a|e]] end.
    + exact I.
    + rewrite try_except_raised. cbn [snd emit raise bind].
      right. split; [reflexivity | split; discriminate].
  - unfold Main.classify_image.
    destruct (Main.bioclip_model g) as [model|]; cbn [Main.is_None orb].
    2:{ cbn [snd raise]. split; [left; reflexivity|].
        split; [discriminate | intros (H & _); congruence]. }
    destruct (Main.bioclip_preprocess g) as [preprocess|]; cbn [Main.is_None].
    2:{ cbn [snd raise]. split; [left; reflexivity|].
        split; [discriminate | intros (_ & H & _); congruence]. }
    destruct (Main.USE_LINEAR_PROBE g); cbn [negb].
    2:{ cbn [snd raise]. split; [right; left; reflexivity|].
        split; [intros _; repeat split; discriminate | reflexivity]. }
    destruct (Main.classifier_data g) as [cd|]; cbn [Main.is_None].
    2:{ cbn [snd raise]. split; [left; reflexivity|].
        split; [discriminate | intros (_ & _ & H); discriminate H]. }
    match goal with |- context [try_except ?m _] => destruct m as [t [a|e]] end.
    + exact I.
    + rewrite try_except_raised.
      destruct (is_ValueError e); cbn [snd emit raise bind].
      * split; [left; reflexivity|].
        split; [discriminate | intros (_ & _ & H); discriminate H].
      * split; [right; right; reflexivity|].
        split; [discriminate | intros (_ & _ & H); discriminate H].
Qed.

(** X10.  [segment_with_owlv2] of the server crops to the detection box
    with the highest score as OWLv2 gives it, without padding or clamping.
    With the model loaded and the detection done: when there is no box it
    returns None without a trace; otherwise it returns the crop to the best
    box, or prints the error and returns None when the crop is refused. *)
Theorem segment_with_owlv2_crops_best_box (g : Main.globals) (image : Image)
  (prompt : string) (model : Owlv2Model) (processor : Owlv2Processor)
  (results : detections) :
  Main.owlv2_model g = Some model ->
  Main.owlv2_processor g = Some processor ->
  Owlv2_detect processor model image prompt (1 # 10) = Ok results ->
  (boxes results = [] ->
   Main.segment_with_owlv2 g image prompt = ([], Ok None))
  /\ (forall (best_idx : nat) (b : box float),
        argmax (scores results) = Ok best_idx ->
        nth_error (boxes results) best_idx = Some b ->
        Main.segment_with_owlv2 g image prompt
        = match crop image b with
          | Ok cropped => ([], Ok (Some cropped))
          | Raised e =>
              ([Print ("OWLv2 segmentation error: " ++ str_of_exn e)], Ok None)
          end).
Proof.
  intros Hm Hp Hd. unfold Main.segment_with_owlv2. rewrite Hm, Hp, Hd. split.
  - intros Hb. run. rewrite Hb. reflexivity.
  - intros best_idx b Ha Hb. run.
    destruct (boxes results) as [|b0 bs] eqn:Eb; [destruct best_idx; discriminate Hb|].
    cbn [List.length Nat.ltb Nat.leb]. rewrite Ha. run.
    unfold getitem. rewrite Hb. run.
    destruct (crop image b) as [cropped|e]; reflexivity.
Qed.

Lemma all_false_no_row (m : mask) :
  (forall y x, pixel m y x = false) -> Main.np_any (Main.any_rows m) = false.
Proof.
  intros Hall. destruct (Main.np_any (Main.any_rows m)) eqn:E; [|reflexivity].
  apply np_any_nth in E. destruct E as [y Hy].
  apply any_rows_nth in Hy. destruct Hy as [x Hx]. rewrite Hall in Hx. discriminate.
Qed.

(** X11.  [segment_with_sam2] never raises, and gives None in each of these
    cases: without a trace when the model or its processor is not loaded,
    when SAM 2.1 returns no mask, and when the first mask has no True pixel
    (nothing is cropped then); after printing the error when the SAM 2.1
    pass raises. *)
Theorem segment_with_sam2_without_mask (g : Main.globals) (image : Image) :
  (exists t r, Main.segment_with_sam2 g image = (t, Ok r))
  /\ (Main.sam2_model g = None \/ Main.sam2_processor g = None ->
      Main.segment_with_sam2 g image = ([], Ok None))
  /\ (forall (model : Sam2Model) (processor : Sam2Processor) (w h : Z),
        Main.sam2_model g = Some model ->
        Main.sam2_processor g = Some processor ->
        size image = (w, h) ->
        (Sam2_masks processor model image ((w / 2)%Z, (h / 2)%Z) = Ok [] ->
         Main.segment_with_sam2 g image = ([], Ok None))
        /\ (forall (m : mask) (ms : list mask) (masks : list (list mask)),
              Sam2_masks processor model image ((w / 2)%Z, (h / 2)%Z)
              = Ok ((m :: ms) :: masks) ->
              (forall y x, pixel m y x = false) ->
              Main.segment_with_sam2 g image = ([], Ok None))
        /\ (forall e : exn,
              Sam2_masks processor model image ((w / 2)%Z, (h / 2)%Z)
              = Raised e ->
              Main.segment_with_sam2 g image
              = ([Print ("SAM 2.1 segmentation error: " ++ str_of_exn e)],
                 Ok None))).
Proof.
  split; [apply segment_with_sam2_returns|]. split.
  - unfold Main.segment_with_sam2. intros [-> | ->]; [reflexivity|].
    destruct (Main.sam2_model g); reflexivity.
  - intros model processor w h Hm Hp Hsz.
    unfold Main.segment_with_sam2, Main.sam2_body. rewrite Hm, Hp, Hsz.
    split; [|split].
    + intros ->. reflexivity.
    + intros m ms masks -> Hall. run.
      cbn [List.length Nat.ltb Nat.leb]. unfold getitem. cbn [nth_error]. run.
      unfold Main.mask_box. rewrite (all_false_no_row _ Hall). reflexivity.
    + intros e ->. reflexivity.
Qed.

End SegmentImageFacts.

(** ** ingest.py: what is inserted, and when the table is cleared *)

Section IngestRunFacts.

Context {C : Carriers} {P : PIL} {FS : FileSystem} {B : Bioclip}
  {SB : Supabase} {EV : Environ}.

(** The events of one file: nothing, an error line, or one insert of the
    row of the file, followed by an error line if the insert failed. *)
Lemma ingest_file_run (supabase : Client) (model : BioclipModel)
  (processor : BioclipPreprocess) (label label_path fname : string) :
  let fpath := Py.path_join label_path fname in
  Ingest.ingest_file supabase model processor label label_path fname
  = match embedding_of model processor fpath with
    | Raised e =>
        ([Print ("Error processing image " ++ fpath ++ ": " ++ str_of_exn e)],
         Ok tt)
    | Ok [] => ([], Ok tt)
    | Ok (x :: v) =>
        let data := {| row_label := label; row_embedding := x :: v;
                       row_image_path := fpath; row_filename := fname;
                       row_original_path := fpath |} in
        (TableInsert "reference_images" data
         :: match table_insert supabase "reference_images" data with
            | Ok _ => []
            | Raised db_err =>
                [Print ("Database insert error for " ++ fname ++ ": "
                        ++ str_of_exn db_err)]
            end,
         Ok tt)
    end.
Proof.
  cbv zeta. unfold Ingest.ingest_file. rewrite get_embedding_run.
  destruct (embedding_of model processor _) as [[|x v]|e]; run; try reflexivity.
  unfold effect. destruct (table_insert _ _ _) as [[]|db_err]; reflexivity.
Qed.

Lemma ingest_file_ok (supabase : Client) (model : BioclipModel)
  (processor : BioclipPreprocess) (label label_path fname : string) :
  snd (Ingest.ingest_file supabase model processor label label_path fname)
  = Ok tt.
Proof.
  pose proof (ingest_file_run supabase model processor label label_path fname) as H.
  cbv zeta in H. rewrite H.
  destruct (embedding_of model processor _) as [[|x v]|e]; reflexivity.
Qed.

Lemma ingest_label_run (supabase : Client) (model : BioclipModel)
  (processor : BioclipPreprocess) (dir label : string) :
  Ingest.ingest_label supabase model processor dir label
  = (Print (String "010" "Processing Class: " ++ label)
     :: flat_map
          (fun fname =>
             fst (Ingest.ingest_file supabase model processor label
                    (Py.path_join dir label) fname))
          (filter Ingest.supported (listdir (Py.path_join dir label))),
     Ok tt).
Proof.
  unfold Ingest.ingest_label. rewrite for_each_total.
  - reflexivity.
  - intros f _. apply ingest_file_ok.
Qed.

Lemma ingest_dir_run (supabase : Client) (model : BioclipModel)
  (processor : BioclipPreprocess) (dir : string) :
  Ingest.ingest_dir supabase model processor dir
  = (if path_exists dir then
       match subfolders_of dir with
       | [] =>
           [Print ("No subdirectories found in " ++ dir
                   ++ ". Expected structure: " ++ dir ++ "/<Label>/<Image.jpg>")]
       | subfolders =>
           flat_map
             (fun label =>
                fst (Ingest.ingest_label supabase model processor dir label))
             subfolders
           ++ [Print (String "010" "Ingestion complete.")]
       end
     else [Print ("Directory " ++ dir ++ " does not exist.")],
     Ok tt).
Proof.
  unfold Ingest.ingest_dir, subfolders_of.
  destruct (path_exists dir); cbn [negb]; [|reflexivity].
  destruct (filter _ (listdir dir)) as [|sub subs]; [reflexivity|].
  rewrite for_each_total.
  - reflexivity.
  - intros label _. rewrite ingest_label_run. reflexivity.
Qed.


Lemma ingest_dir_no_delete (supabase : Client) (model : BioclipModel)
  (processor : BioclipPreprocess) (dir : string) :
  existsb is_delete (fst (Ingest.ingest_dir supabase model processor dir))
  = false.
Proof.
  destruct (existsb is_delete _) eqn:E; [|reflexivity].
  apply existsb_exists in E. destruct E as (ev & Hin & Hev).
  destruct ev; try discriminate Hev.
  rewrite ingest_dir_run in Hin. cbn [fst] in Hin.
  destruct (path_exists dir); [|destruct Hin as [H|[]]; discriminate H].
  destruct (subfolders_of dir) as [|sub subs];
    [destruct Hin as [H|[]]; discriminate H|].
  apply in_app_iff in Hin. destruct Hin as [Hin|[H|[]]]; [|discriminate H].
  apply in_flat_map in Hin. destruct Hin as (label & _ & Hin).
  rewrite ingest_label_run in Hin. cbn [fst] in Hin.
  destruct Hin as [H|Hin]; [discriminate H|].
  apply in_flat_map in Hin. destruct Hin as (fname & _ & Hin).
  pose proof (ingest_file_run supabase model processor label
                (Py.path_join dir label) fname) as Hrun.
  cbv zeta in Hrun. rewrite Hrun in Hin. clear Hrun.
  destruct (embedding_of model processor _) as [[|x v]|e]; cbn [fst] in Hin.
  - destruct Hin.
  - destruct Hin as [H|Hin]; [discriminate H|].
    destruct (table_insert _ _ _) as [[]|db_err]; [destruct Hin|].
    destruct Hin as [H|[]]. discriminate H.
  - destruct Hin as [H|[]]. discriminate H.
Qed.

(** X13.  [main] of [ingest.py] clears the table only when asked to, and
    then before it loads the model or looks at the directory.  Without
    --clear no run deletes anything.  With --clear, valid credentials and a
    delete that succeeds, a run whose model then fails to load, or whose
    directory does not exist, returns normally having cleared the table and
    inserted nothing. *)
Theorem ingest_main_clears_before_loading (a : Ingest.args) :
  (Ingest.arg_clear a = false ->
   existsb is_delete (fst (Ingest.main a)) = false)
  /\ (forall supabase : Client,
        truthy (supabase_url a) = true ->
        truthy (supabase_key a) = true ->
        create_client (str_of_opt (supabase_url a)) (str_of_opt (supabase_key a))
        = Ok supabase ->
        Ingest.arg_clear a = true ->
        table_delete_all supabase "reference_images" = Ok tt ->
        (exists e, create_model_and_transforms "hf-hub:imageomics/bioclip"
                   = Raised e)
        \/ path_exists (Ingest.arg_dir a) = false ->
        snd (Ingest.main a) = Ok tt
        /\ In (TableDelete "reference_images") (fst (Ingest.main a))
        /\ existsb is_insert (fst (Ingest.main a)) = false).
Proof.
  unfold Ingest.main. fold (supabase_url a). fold (supabase_key a). split.
  - intros Hclear. rewrite Hclear.
    destruct (negb (truthy (supabase_url a)) || negb (truthy (supabase_key a)));
      [reflexivity|].
    run. destruct (create_client _ _) as [supabase|e]; [|reflexivity]. run.
    destruct (create_model_and_transforms _) as [[model preprocess]|e]; run.
    + pose proof (ingest_dir_no_delete supabase model preprocess (Ingest.arg_dir a)) as Hnd.
      destruct (Ingest.ingest_dir supabase model preprocess (Ingest.arg_dir a))
        as [t o]. cbn [fst] in Hnd. cbn [fst existsb is_delete orb]. exact Hnd.
    + destruct (is_ImportError e); reflexivity.
  - intros supabase Hu Hk Hc Hclear Hdel Hfail.
    rewrite Hu, Hk, Hclear. cbn [negb orb]. run. rewrite Hc. run.
    unfold effect. rewrite Hdel. run.
    destruct (create_model_and_transforms _) as [[model preprocess]|e]; run.
    + destruct Hfail as [[e He]|Hdir]; [discriminate He|].
      rewrite ingest_dir_run, Hdir. cbn [fst snd app].
      split; [reflexivity|]. split; [|reflexivity].
      right. right. left. reflexivity.
    + destruct (is_ImportError e); run;
        (split; [reflexivity|]; split; [|reflexivity];
         right; right; left; reflexivity).
Qed.

End IngestRunFacts.

(** ** eval.py: the k-NN vote and the linear probe *)

Lemma upper_ascii_idem (c : ascii) :
  Py.upper_ascii (Py.upper_ascii c) = Py.upper_ascii c.
Proof. destruct c as [[] [] [] [] [] [] [] []]; reflexivity. Qed.

Lemma upper_lower_ascii (c : ascii) :
  Py.upper_ascii (Py.lower_ascii c) = Py.upper_ascii c.
Proof. destruct c as [[] [] [] [] [] [] [] []]; reflexivity. Qed.

Lemma upper_lower (s : string) : Py.upper (Py.lower s) = Py.upper s.
Proof.
  unfold Py.upper, Py.lower.
  induction s as [|c s IH]; [reflexivity|].
  cbn [Py.str_map]. rewrite upper_lower_ascii, IH. reflexivity.
Qed.

Lemma upper_capitalize (s : string) : Py.upper (Py.capitalize s) = Py.upper s.
Proof.
  destruct s as [|c s]; [reflexivity|].
  unfold Py.capitalize, Py.upper. cbn [Py.str_map].
  rewrite upper_ascii_idem. f_equal. exact (upper_lower s).
Qed.

Lemma existsb_eqb_In (l : string) (xs : list string) :
  existsb (String.eqb l) xs = true <-> In l xs.
Proof.
  rewrite existsb_exists. split.
  - intros (x & Hin & Hx). apply String.eqb_eq in Hx. subst x. exact Hin.
  - intros Hin. exists l. split; [exact Hin | apply String.eqb_refl].
Qed.

Lemma firsts_seen (s1 s2 labels : list string) :
  (forall x, In x s1 <-> In x s2) -> firsts s1 labels = firsts s2 labels.
Proof.
  revert s1 s2. induction labels as [|l labels IH]; intros s1 s2 H; [reflexivity|].
  cbn [firsts].
  assert (E : existsb (String.eqb l) s1 = existsb (String.eqb l) s2).
  { destruct (existsb (String.eqb l) s1) eqn:E1;
      destruct (existsb (String.eqb l) s2) eqn:E2; try reflexivity.
    - apply existsb_eqb_In, H, existsb_eqb_In in E1. congruence.
    - apply existsb_eqb_In, H, existsb_eqb_In in E2. congruence. }
  rewrite E. destruct (existsb (String.eqb l) s2).
  - apply IH, H.
  - f_equal. apply IH. intros x. cbn [In]. rewrite H. reflexivity.
Qed.

Lemma firsts_not_seen (seen labels : list string) (x : string) :
  In x (firsts seen labels) -> ~ In x seen.
Proof.
  revert seen. induction labels as [|l labels IH]; intros seen Hin; [destruct Hin|].
  cbn [firsts] in Hin. destruct (existsb (String.eqb l) seen) eqn:E.
  - apply IH, Hin.
  - destruct Hin as [->|Hin].
    + intros Hs. apply existsb_eqb_In in Hs. congruence.
    + intros Hs. apply (IH _ Hin). right. exact Hs.
Qed.

(** The keys of the votes are the labels in the order of their first
    occurrence. *)
Lemma votes_set_keys_order (votes : Eval.votes_dict) (l : string) (n : Z) :
  map fst (Eval.votes_set votes l n)
  = if existsb (String.eqb l) (map fst votes) then map fst votes
    else map fst votes ++ [l].
Proof.
  induction votes as [|[k m] votes IH]; cbn [Eval.votes_set map fst existsb].
  - reflexivity.
  - rewrite (String.eqb_sym l k).
    destruct (k =? l); cbn [map fst orb]; [reflexivity|].
    rewrite IH. destruct (existsb _ _); reflexivity.
Qed.

Lemma tally_keys_order (labels : list string) (votes : Eval.votes_dict) :
  map fst (tally labels votes)
  = map fst votes ++ firsts (map fst votes) labels.
Proof.
  unfold tally. revert votes.
  induction labels as [|l labels IH]; intros votes; cbn [fold_left firsts].
  - rewrite app_nil_r. reflexivity.
  - rewrite IH, votes_set_keys_order.
    destruct (existsb (String.eqb l) (map fst votes)); [reflexivity|].
    rewrite <- app_assoc. cbn [app]. do 2 f_equal.
    apply firsts_seen. intros x. rewrite in_app_iff. cbn [In]. tauto.
Qed.

(** Where the first occurrence of a label is. *)
Lemma firsts_split (seen labels a b : list string) (r : string) :
  firsts seen labels = a ++ r :: b ->
  exists lpre lpost,
    labels = lpre ++ r :: lpost
    /\ ~ In r lpre
    /\ (forall l, In l lpre -> In l a \/ In l seen).
Proof.
  revert seen a. induction labels as [|l labels IH]; intros seen a H.
  - destruct a; discriminate H.
  - assert (Hr : ~ In r seen).
    { apply (firsts_not_seen seen (l :: labels)). rewrite H.
      apply in_or_app. right. left. reflexivity. }
    cbn [firsts] in H. destruct (existsb (String.eqb l) seen) eqn:E.
    + apply existsb_eqb_In in E.
      destruct (IH _ _ H) as (lpre & lpost & -> & Hn & Hall).
      exists (l :: lpre), lpost. split; [reflexivity|]. split.
      * intros [->|Hin]; [contradiction | exact (Hn Hin)].
      * intros x [<-|Hx]; [right; exact E | apply Hall, Hx].
    + destruct a as [|a0 a].
      * injection H as -> _. exists [], labels.
        split; [reflexivity|]. split; [intros [] | intros x []].
      * injection H as <- H.
        destruct (IH _ _ H) as (lpre & lpost & -> & Hn & Hall).
        exists (l :: lpre), lpost. split; [reflexivity|]. split.
        -- intros [->|Hin]; [|exact (Hn Hin)].
           apply (firsts_not_seen (r :: seen) (lpre ++ r :: lpost) r).
           ++ rewrite H. apply in_or_app. right. left. reflexivity.
           ++ left. reflexivity.
        -- intros x [<-|Hx]; [left; left; reflexivity|].
           destruct (Hall _ Hx) as [Ha|[<-|Hs]].
           ++ left. right. exact Ha.
           ++ left. left. reflexivity.
           ++ right. exact Hs.
Qed.

(** [max] returns the first of the items with the most votes. *)
Lemma max_key_from_first (best : string) (best_n : Z) (votes : Eval.votes_dict) :
  exists pre post n,
    (best, best_n) :: votes
    = pre ++ (Eval.max_key_from best best_n votes, n) :: post
    /\ (forall k m, In (k, m) pre -> (m < n)%Z)
    /\ (forall k m, In (k, m) post -> (m <= n)%Z).
Proof.
  revert best best_n. induction votes as [|[k m] votes IH]; intros best best_n;
    cbn [Eval.max_key_from].
  - exists [], [], best_n. split; [reflexivity|]. split; intros ? ? [].
  - destruct (Z.ltb_spec best_n m) as [Hlt|Hge].
    + destruct (IH k m) as (pre & post & n & Heq & Hpre & Hpost).
      exists ((best, best_n) :: pre), post, n.
      split; [cbn [app]; rewrite Heq; reflexivity|]. split; [|exact Hpost].
      assert (Hm : (m <= n)%Z).
      { destruct pre as [|p pre].
        - injection Heq as _ <-. lia.
        - injection Heq as <- _. assert (H := Hpre k m (or_introl eq_refl)). lia. }
      intros k' m' [Heq'|Hin]; [injection Heq' as <- <-; lia|].
      eapply Hpre, Hin.
    + destruct (IH best best_n) as (pre & post & n & Heq & Hpre & Hpost).
      destruct pre as [|p pre].
      * injection Heq as Hb Hn Hv. subst n post.
        exists [], ((k, m) :: votes), best_n. split.
        -- cbn [app]. rewrite <- Hb. reflexivity.
        -- split; [intros ? ? []|].
           intros k' m' [Heq'|Hin]; [injection Heq' as <- <-; lia|].
           eapply Hpost, Hin.
      * injection Heq as <- Hv.
        exists ((best, best_n) :: (k, m) :: pre), post, n. split.
        -- cbn [app]. do 2 f_equal. exact Hv.
        -- split; [|exact Hpost].
           assert (Hb := Hpre best best_n (or_introl eq_refl)).
           intros k' m' [Heq'|[Heq'|Hin]].
           ++ injection Heq' as <- <-. exact Hb.
           ++ injection Heq' as <- <-. lia.
           ++ eapply Hpre. right. exact Hin.
Qed.

Section KnnRunFacts.

Context {C : Carriers} {SB : Supabase} {SK : SklearnLib} {P : PIL}
  {RQ : Requests} {B : Bioclip} {S2 : Sam2} {O : Owlv2} {D : MainDeps}.

(** A neighbour without a string label makes the count raise. *)
Lemma count_votes_raises (ns : list json) (n : json)
  (votes : Eval.votes_dict) :
  In n ns -> label_of_row n = None ->
  exists e, Eval.count_votes ns votes = ([], Raised e).
Proof.
  revert votes. induction ns as [|x ns IH]; intros votes Hin Hn; [destruct Hin|].
  cbn [Eval.count_votes].
  destruct (label_of_row x) as [l|] eqn:Ex.
  - destruct Hin as [->|Hin]; [congruence|].
    unfold label_of_row in Ex. destruct x as [ | | | | |kvs]; try discriminate.
    unfold Json.getitem_str.
    destruct (Json.dict_lookup kvs "label") as [[ | | |s| | ]|]; try discriminate.
    rewrite bind_ret. cbn [Json.upper]. rewrite bind_ret.
    apply IH; assumption.
  - unfold label_of_row in Ex. destruct x as [ | | | | |kvs];
      try (eexists; reflexivity).
    unfold Json.getitem_str.
    destruct (Json.dict_lookup kvs "label") as [[ | | |s| | ]|];
      try discriminate; try (eexists; reflexivity).
Qed.

(** X14.  The k-NN classifier of [eval.py] never raises.  When the remote
    procedure call raises, it prints the error and answers "ERROR"; when
    the call returns nothing (no rows, or None), it answers "UNKNOWN"
    without printing; and when one of the rows returned has no string
    label, it prints an error and answers "ERROR" whatever the other rows
    are. *)
Theorem classify_with_knn_never_raises (q : list float) (supabase : Client)
  (k : Z) :
  (exists t r, Eval.classify_with_knn q supabase k = (t, Ok r))
  /\ (forall e : exn,
        rpc supabase "match_reference_images" q 0 k = Raised e ->
        Eval.classify_with_knn q supabase k
        = ([Rpc "match_reference_images" q k;
            Print ("k-NN RPC Error: " ++ str_of_exn e)], Ok "ERROR"))
  /\ (forall neighbors : json,
        rpc supabase "match_reference_images" q 0 k = Ok neighbors ->
        Json.falsy neighbors = true ->
        Eval.classify_with_knn q supabase k
        = ([Rpc "match_reference_images" q k], Ok "UNKNOWN"))
  /\ (forall (ns : list json) (n : json),
        rpc supabase "match_reference_images" q 0 k = Ok (JArr ns) ->
        In n ns -> label_of_row n = None ->
        exists msg,
          Eval.classify_with_knn q supabase k
          = ([Rpc "match_reference_images" q k; Print msg], Ok "ERROR")).
Proof.
  unfold Eval.classify_with_knn. split; [|split; [|split]].
  - apply try_except_returns. intros e. eexists _, _. reflexivity.
  - intros e ->. reflexivity.
  - intros neighbors -> Hf. run. rewrite Hf. reflexivity.
  - intros ns n -> Hin Hn. run.
    destruct ns as [|x ns]; [destruct Hin|]. cbn [Json.falsy Json.iter]. run.
    destruct (count_votes_raises (x :: ns) n [] Hin Hn) as (e & ->).
    eexists. reflexivity.
Qed.



End KnnRunFacts.

(** ** sam3_cloud.py: segmenting a file *)

Section Sam3CloudRunFacts.

Context {C : Carriers} {P : PIL} {RQ : Requests} {RG : RequestsGet}.

(** What a call gives: an image and no message, or a message and no image;
    and at most one request. *)
Lemma segment_with_sam3_cloud_result (cfg : Sam3Cloud.config) (image : Image)
  (prompt bg_mode bg_color : string) (timeout : Z) :
  exists t o,
    Sam3Cloud.segment_with_sam3_cloud cfg image prompt bg_mode bg_color timeout
    = (t, Ok o)
    /\ (t = [] \/ exists url b64 p m c n, t = [HttpPost url b64 p m c n])
    /\ ((exists img, o = (Some img, None)) \/ (exists msg, o = (None, Some msg))).
Proof.
  unfold Sam3Cloud.segment_with_sam3_cloud.
  destruct (truthy (Sam3Cloud.SAM3_ENDPOINT_URL cfg)); cbn [negb].
  2:{ eexists _, _. split; [reflexivity|]. split; [left; reflexivity|].
      right. eexists. reflexivity. }
  destruct (truthy (Sam3Cloud.HF_TOKEN cfg)); cbn [negb].
  2:{ eexists _, _. split; [reflexivity|]. split; [left; reflexivity|].
      right. eexists. reflexivity. }
  unfold Sam3Cloud.request_body.
  destruct (save_bytes image "JPEG" 95) as [img_bytes|e]; run.
  2:{ destruct (is_Timeout e); [|destruct (is_ConnectionError e)];
        (eexists _, _; split; [reflexivity|]; split; [left; reflexivity|];
         right; eexists; reflexivity). }
  destruct (requests_post _ _ _ _ _ _ _) as [r|e]; run.
  2:{ destruct (is_Timeout e); [|destruct (is_ConnectionError e)];
        (eexists _, _; split; [reflexivity|];
         split; [right; eexists _, _, _, _, _, _; reflexivity|];
         right; eexists; reflexivity). }
  destruct (status_code r =? 200)%Z.
  - destruct (parse_success_run r) as [Ht Hr].
    destruct (Sam3Cloud.parse_success r) as [t o]. cbn [fst snd] in Ht, Hr.
    subst t. run.
    destruct (response_image r) as [img|].
    + subst o. eexists _, _. split; [reflexivity|].
      split; [right; eexists _, _, _, _, _, _; reflexivity|].
      left. eexists. reflexivity.
    + destruct Hr as [msg ->]. eexists _, _. split; [reflexivity|].
      split; [right; eexists _, _, _, _, _, _; reflexivity|].
      right. eexists. reflexivity.
  - destruct (status_code r =? 503)%Z.
    { eexists _, _. split; [reflexivity|].
      split; [right; eexists _, _, _, _, _, _; reflexivity|].
      right. eexists. reflexivity. }
    destruct (status_code r =? 404)%Z.
    { eexists _, _. split; [reflexivity|].
      split; [right; eexists _, _, _, _, _, _; reflexivity|].
      right. eexists. reflexivity. }
    destruct (parse_error_run r) as [Ht [msg Hr]].
    destruct (Sam3Cloud.parse_error r) as [t o]. cbn [fst snd] in Ht, Hr.
    subst t o. run. eexists _, _. split; [reflexivity|].
    split; [right; eexists _, _, _, _, _, _; reflexivity|].
    right. eexists. reflexivity.
Qed.

(** X17.  [segment_and_save] never raises: it returns (True, None) or
    (False, message).  When the image does not load it sends no request and
    saves nothing.  It returns True only after saving the segmented image to
    the output path, which is the last thing it does: as a PNG when the
    path ends in ".png", whatever its case, and else as a JPEG of quality
    95. *)
Theorem segment_and_save_outcomes (cfg : Sam3Cloud.config)
  (image_path output_path prompt bg_mode bg_color : string) :
  (exists t,
      Sam3Cloud.segment_and_save cfg image_path output_path prompt bg_mode
        bg_color = (t, Ok (true, None))
      \/ exists msg,
           Sam3Cloud.segment_and_save cfg image_path output_path prompt
             bg_mode bg_color = (t, Ok (false, Some msg)))
  /\ (forall e : exn,
        load_rgb_always image_path = Raised e ->
        Sam3Cloud.segment_and_save cfg image_path output_path prompt bg_mode
          bg_color
        = ([], Ok (false, Some ("Failed to load image: " ++ str_of_exn e)%string)))
  /\ (forall t : list event,
        Sam3Cloud.segment_and_save cfg image_path output_path prompt bg_mode
          bg_color = (t, Ok (true, None)) ->
        exists (t0 : list event) (result : Image),
          t = t0
              ++ [if Py.endswith (Py.lower output_path) ".png" then
                    ImageSave result output_path (Some "PNG") None
                  else ImageSave result output_path (Some "JPEG") (Some 95%Z)]
          /\ saved_paths t0 = []).
Proof.
  unfold Sam3Cloud.segment_and_save, load_rgb_always.
  destruct (Image_open image_path) as [opened|e]; run.
  2:{ split; [eexists; right; eexists; reflexivity|].
      split; [intros e' H; injection H as <-; reflexivity|].
      intros t H. discriminate H. }
  destruct (convert opened "RGB") as [image|e]; run.
  2:{ split; [eexists; right; eexists; reflexivity|].
      split; [intros e' H; injection H as <-; reflexivity|].
      intros t H. discriminate H. }
  destruct (segment_with_sam3_cloud_result cfg image prompt bg_mode bg_color 120)
    as (t & o & -> & Ht & Ho).
  run. split; [|split; [intros e H; discriminate H|]].
  - destruct Ho as [[img ->]|[msg ->]].
    + unfold Image_save, effect.
      destruct (Py.endswith (Py.lower output_path) ".png");
        destruct (save img output_path _ _) as [[]|e]; run;
        eexists; first [left; reflexivity | right; eexists; reflexivity].
    + eexists. right. eexists. reflexivity.
  - destruct Ho as [[img ->]|[msg ->]]; [|intros t' H; discriminate H].
    unfold Image_save, effect. intros t' H.
    assert (Hsaved : saved_paths t = []).
    { destruct Ht as [->|(url & b64 & p & m & c & n & ->)]; reflexivity. }
    destruct (Py.endswith (Py.lower output_path) ".png");
      destruct (save img output_path _ _) as [[]|e]; run;
      try discriminate H; injection H as <-;
      exists t, img; rewrite ?app_nil_r; (split; [reflexivity | exact Hsaved]).
Qed.

End Sam3CloudRunFacts.


(** ** main.py: start-up *)

Section StartupFacts.

Context {C : Carriers} {P : PIL} {RQ : Requests} {B : Bioclip}
  {SK : SklearnLib} {S2 : Sam2} {O : Owlv2} {D : MainDeps}
  {FS : FileSystem} {RG : RequestsGet} {MS : MainStartup}.

Lemma load_models_stages :
  Main.load_models
  = (Main.print "Loading BioCLIP model..." ;;;
     load_bioclip_stage ;;;
     load_classifier_stage ;;;
     load_segmentation_stage)%st.
Proof. reflexivity. Qed.

Ltac unfold_sm :=
  unfold Main.load_evf_sam2, Main.load_sam2, Main.load_owlv2, Main.print,
    sbind, stry, slift, smodify, sraise, sret, sget, call, emit.

Ltac sm_step :=
  cbn -[Py.path_join String.append str_of_exn Py.str_in
        Sam3Cloud.is_endpoint_ready].

Lemma load_bioclip_stage_run (g : Main.globals) :
  load_bioclip_stage g
  = match create_model_and_transforms "hf-hub:imageomics/bioclip" with
    | Ok (model, preprocess) =>
        ([Print "BioCLIP model loaded successfully."],
         Main.set_bioclip (Some model) (Some preprocess) g, Ok tt)
    | Raised e =>
        ([Print ("Error loading BioCLIP model: " ++ str_of_exn e)], g, Raised e)
    end.
Proof.
  unfold load_bioclip_stage. unfold_sm.
  destruct (create_model_and_transforms _) as [[model preprocess]|e];
    reflexivity.
Qed.

Lemma load_classifier_stage_run (g : Main.globals) :
  exists t cd,
    load_classifier_stage g = (t, Main.set_classifier_data cd g, Ok tt).
Proof.
  unfold load_classifier_stage. unfold_sm.
  destruct (path_exists _); [|eexists _, _; reflexivity].
  destruct (joblib_load _) as [[[c le] cl]|e]; eexists _, _; reflexivity.
Qed.

(** The segmentation stage returns, and assigns only the variables of the
    segmentation models. *)
Lemma load_segmentation_stage_run (g : Main.globals) :
  exists t g',
    load_segmentation_stage g = (t, g', Ok tt)
    /\ Main.bioclip_model g' = Main.bioclip_model g
    /\ Main.bioclip_preprocess g' = Main.bioclip_preprocess g
    /\ Main.classifier_data g' = Main.classifier_data g
    /\ Main.SEGMENTATION_MODEL g' = Main.SEGMENTATION_MODEL g
    /\ Main.USE_LINEAR_PROBE g' = Main.USE_LINEAR_PROBE g
    /\ (Main.evf_loaded g = false -> Main.sam2_model g = None ->
        Main.owlv2_model g = None ->
        Main.segmentation_enabled (Main.health_check g') = true ->
        segmenter_ready g').
Proof.
  unfold load_segmentation_stage, segmenter_ready, Main.health_check.
  unfold_sm. sm_step.
  destruct (Py.str_in _ _); sm_step;
    destruct (String.eqb_spec (Main.SEGMENTATION_MODEL g) "sam3_cloud") as [Hc|Hc];
    [ destruct (Sam3Cloud.is_endpoint_ready _) as [tr [[]|e]]
    | destruct (String.eqb_spec (Main.SEGMENTATION_MODEL g) "evf") as [He|He];
      [ destruct (_load_evf "fp32") as [tr [[]|e]]
      | destruct (String.eqb_spec (Main.SEGMENTATION_MODEL g) "sam2") as [Hs|Hs];
        [ destruct (Sam2Processor_from_pretrained _) as [p|e];
          [destruct (Sam2Model_from_pretrained _) as [m|e]|]
        | destruct (String.eqb_spec (Main.SEGMENTATION_MODEL g) "owlv2") as [Ho|Ho];
          [ destruct (Owlv2Processor_from_pretrained _) as [p|e];
            [destruct (Owlv2Model_from_pretrained _) as [m|e]|]
          | ] ] ]
    | destruct (Sam3Cloud.is_endpoint_ready _) as [tr [[]|e]]
    | destruct (String.eqb_spec (Main.SEGMENTATION_MODEL g) "evf") as [He|He];
      [ destruct (_load_evf "fp32") as [tr [[]|e]]
      | destruct (String.eqb_spec (Main.SEGMENTATION_MODEL g) "sam2") as [Hs|Hs];
        [ destruct (Sam2Processor_from_pretrained _) as [p|e];
          [destruct (Sam2Model_from_pretrained _) as [m|e]|]
        | destruct (String.eqb_spec (Main.SEGMENTATION_MODEL g) "owlv2") as [Ho|Ho];
          [ destruct (Owlv2Processor_from_pretrained _) as [p|e];
            [destruct (Owlv2Model_from_pretrained _) as [m|e]|]
          | ] ] ] ];
    sm_step;
    (eexists _, _; split; [reflexivity|];
     split; [reflexivity|]; split; [reflexivity|]; split; [reflexivity|];
     split; [reflexivity|]; split; [reflexivity|];
     intros Hevf Hsam2 Howl; sm_step;
     repeat match goal with
            | |- context [String.eqb ?a ?b] =>
                destruct (String.eqb_spec a b); [try congruence|]
            end;
     rewrite ?Hevf, ?Hsam2, ?Howl; sm_step;
     intros Hen; try discriminate Hen;
     first
       [ left; split; [assumption | reflexivity]
       | right; left; split; [assumption | split; discriminate]
       | right; right; split; [assumption | split; discriminate] ]).
Qed.

(** The start-up as a whole, from the three stages. *)
Lemma load_models_run (g : Main.globals) :
  match create_model_and_transforms "hf-hub:imageomics/bioclip" with
  | Raised e =>
      Main.load_models g
      = ([Print "Loading BioCLIP model...";
          Print ("Error loading BioCLIP model: " ++ str_of_exn e)],
         g, Raised e)
  | Ok (model, preprocess) =>
      exists t g',
        Main.load_models g = (t, g', Ok tt)
        /\ Main.bioclip_model g' = Some model
        /\ Main.bioclip_preprocess g' = Some preprocess
        /\ Main.SEGMENTATION_MODEL g' = Main.SEGMENTATION_MODEL g
        /\ Main.USE_LINEAR_PROBE g' = Main.USE_LINEAR_PROBE g
        /\ (Main.evf_loaded g = false -> Main.sam2_model g = None ->
            Main.owlv2_model g = None ->
            Main.segmentation_enabled (Main.health_check g') = true ->
            segmenter_ready g')
  end.
Proof.
  rewrite load_models_stages.
  cbv beta iota delta [sbind Main.print slift emit fst snd].
  rewrite load_bioclip_stage_run.
  destruct (create_model_and_transforms _) as [[model preprocess]|e];
    [|reflexivity].
  destruct (load_classifier_stage_run
              (Main.set_bioclip (Some model) (Some preprocess) g))
    as (t1 & cd & H1).
  rewrite H1.
  destruct (load_segmentation_stage_run
              (Main.set_classifier_data cd
                 (Main.set_bioclip (Some model) (Some preprocess) g)))
    as (t2 & g2 & H2 & Hm & Hp & _ & Hs & Hu & Hready).
  rewrite H2. eexists _, g2. split; [reflexivity|].
  split; [rewrite Hm; reflexivity|].
  split; [rewrite Hp; reflexivity|].
  split; [rewrite Hs; reflexivity|].
  split; [rewrite Hu; reflexivity|].
  intros Hevf Hsam2 Howl. apply Hready; assumption.
Qed.

(** X18.  The start-up fails only when BioCLIP fails to load: that error
    is printed and raised again, before anything else is loaded and leaving
    the module's variables as they were.  When BioCLIP loads, the start-up
    returns normally whatever happens to the classifier file and to the
    segmentation model, with the BioCLIP model and its preprocessing
    assigned. *)
Theorem load_models_fails_only_without_bioclip (g : Main.globals) :
  (forall e : exn,
      create_model_and_transforms "hf-hub:imageomics/bioclip" = Raised e ->
      Main.load_models g
      = ([Print "Loading BioCLIP model...";
          Print ("Error loading BioCLIP model: " ++ str_of_exn e)],
         g, Raised e))
  /\ (forall (model : BioclipModel) (preprocess : BioclipPreprocess),
        create_model_and_transforms "hf-hub:imageomics/bioclip"
        = Ok (model, preprocess) ->
        exists t g',
          Main.load_models g = (t, g', Ok tt)
          /\ Main.bioclip_model g' = Some model
          /\ Main.bioclip_preprocess g' = Some preprocess).
Proof.
  pose proof (load_models_run g) as H. split.
  - intros e He. rewrite He in H. exact H.
  - intros model preprocess He. rewrite He in H.
    destruct H as (t & g' & Hrun & Hm & Hp & _). exists t, g'. auto.
Qed.

(** X19.  After a start-up from the module's initial values, the health
    check reports segmentation as enabled only when the configured model is
    one of the local ones and what its segmenter checks is assigned: for
    "sam2" and for "owlv2" both the processor and the model, for "evf" the
    flag that the wrapper's loader returned.  With any other configured
    model, "sam3_cloud" among them, it reports segmentation as not
    enabled. *)
Theorem health_check_after_startup (g g' : Main.globals) (t : list event) :
  Main.evf_loaded g = false ->
  Main.sam2_model g = None ->
  Main.owlv2_model g = None ->
  Main.load_models g = (t, g', Ok tt) ->
  (Main.segmentation_enabled (Main.health_check g') = true ->
   segmenter_ready g')
  /\ (Main.SEGMENTATION_MODEL g <> "evf" ->
      Main.SEGMENTATION_MODEL g <> "sam2" ->
      Main.SEGMENTATION_MODEL g <> "owlv2" ->
      Main.segmentation_enabled (Main.health_check g') = false).
Proof.
  intros Hevf Hsam2 Howl Hrun. pose proof (load_models_run g) as H.
  destruct (create_model_and_transforms _) as [[model preprocess]|e].
  2:{ rewrite H in Hrun. discriminate Hrun. }
  destruct H as (t0 & g0 & Hrun0 & _ & _ & Hs & _ & Hready).
  rewrite Hrun0 in Hrun. injection Hrun as _ <-.
  specialize (Hready Hevf Hsam2 Howl). split; [exact Hready|].
  intros He Hs2 Ho.
  destruct (Main.segmentation_enabled (Main.health_check g0));
    [|reflexivity].
  exfalso. rewrite <- Hs in He, Hs2, Ho.
  destruct (Hready eq_refl) as [[H _]|[[H _]|[H _]]]; congruence.
Qed.

(** The status of POST /embed once BioCLIP is assigned. *)
Lemma generate_embedding_initialised (g : Main.globals) (file : UploadFile)
  (model : BioclipModel) (preprocess : BioclipPreprocess) :
  Main.bioclip_model g = Some model ->
  Main.bioclip_preprocess g = Some preprocess ->
  match snd (Main.generate_embedding g file) with
  | Ok _ => True
  | Raised (HTTPException status _) => status = 500%Z
  | Raised (Exc _ _) => False
  end.
Proof.
  intros Hm Hp. unfold Main.generate_embedding. rewrite Hm, Hp.
  cbn [Main.is_None orb].
  match goal with |- context [try_except ?m _] => destruct m as [t [a|e]] end.
  - exact I.
  - rewrite try_except_raised. reflexivity.
Qed.

Lemma classify_image_initialised (g : Main.globals) (file : UploadFile)
  (model : BioclipModel) (preprocess : BioclipPreprocess) :
  Main.bioclip_model g = Some model ->
  Main.bioclip_preprocess g = Some preprocess ->
  (exists detail,
      snd (Main.classify_image g file) = Raised (HTTPException 400 detail))
  <-> Main.USE_LINEAR_PROBE g = false.
Proof.
  intros Hm Hp. unfold Main.classify_image. rewrite Hm, Hp.
  cbn [Main.is_None orb].
  destruct (Main.USE_LINEAR_PROBE g); cbn [negb].
  2:{ split; [reflexivity | intros _; eexists; reflexivity]. }
  split; [|discriminate]. intros [detail H]. exfalso.
  destruct (Main.classifier_data g) as [cd|]; cbn [Main.is_None] in H;
    [|discriminate H].
  match type of H with context [try_except ?m _] => destruct m as [t [a|e]] end.
  - discriminate H.
  - rewrite try_except_raised in H.
    destruct (is_ValueError e); cbn [snd emit raise bind] in H; discriminate H.
Qed.

(** X20.  Once the start-up has succeeded, the first guard of the two
    endpoints never fires: POST /embed answers or fails with status 500,
    never with 503; and POST /classify fails with status 400 exactly when
    USE_LINEAR_PROBE is false. *)
Theorem endpoints_after_startup (g g' : Main.globals) (t : list event)
  (file : UploadFile) :
  Main.load_models g = (t, g', Ok tt) ->
  match snd (Main.generate_embedding g' file) with
  | Ok _ => True
  | Raised (HTTPException status _) => status = 500%Z
  | Raised (Exc _ _) => False
  end
  /\ ((exists detail,
         snd (Main.classify_image g' file) = Raised (HTTPException 400 detail))
      <-> Main.USE_LINEAR_PROBE g = false).
Proof.
  intros Hrun. pose proof (load_models_run g) as H.
  destruct (create_model_and_transforms _) as [[model preprocess]|e].
  2:{ rewrite H in Hrun. discriminate Hrun. }
  destruct H as (t0 & g0 & Hrun0 & Hm & Hp & _ & Hu & _).
  rewrite Hrun0 in Hrun. injection Hrun as _ <-. split.
  - exact (generate_embedding_initialised g0 file model preprocess Hm Hp).
  - rewrite <- Hu. exact (classify_image_initialised g0 file model preprocess Hm Hp).
Qed.

End StartupFacts.

(** ** evf_sam_wrapper.py *)

Section EvfFacts.

Context {C : Carriers} {P : PIL} {EVF : EvfSam}.

(** The wrapper derives its crop box as the server does for SAM 2.1. *)
Lemma crop_box_mask_box (w h : Z) (m : mask) :
  EvfSamWrapper.crop_box (h, w) m = Main.mask_box w h m.
Proof.
  unfold EvfSamWrapper.crop_box, Main.mask_box, Main.pad_box.
  destruct (Main.np_any (Main.any_rows m) && Main.np_any (Main.any_cols m));
    [|reflexivity].
  destruct (Main.first_last (Main.np_where (Main.any_rows m))) as [t1 [[ymin ymax]|e1]];
    [|reflexivity].
  destruct (Main.first_last (Main.np_where (Main.any_cols m))) as [t2 [[xmin xmax]|e2]];
    reflexivity.
Qed.

(** X21.  [segment_with_evf_sam2] raises only while loading the model.
    With the model loaded it never raises and assigns nothing: a failure of
    the inference or of the crop is printed, and None returned.  Without
    it, the loading comes first and outside the [try]: when the imports of
    the loader fail, the exception goes to the caller, nothing is printed
    and nothing assigned. *)
Theorem segment_with_evf_sam2_raises_only_while_loading
  (g : EvfSamWrapper.evf_globals) (image : Image) (prompt : string) :
  (forall model : EvfModel,
      EvfSamWrapper._evf_model g = Some model ->
      exists t r,
        EvfSamWrapper.segment_with_evf_sam2 image prompt g = (t, g, Ok r))
  /\ (forall e : exn,
        EvfSamWrapper._evf_model g = None ->
        evf_imports = Raised e ->
        EvfSamWrapper.segment_with_evf_sam2 image prompt g = ([], g, Raised e)).
Proof.
  unfold EvfSamWrapper.segment_with_evf_sam2, EvfSamWrapper.load_evf_sam2,
    sbind, sget, sret, slift, call. split.
  - intros model Hm. rewrite Hm. cbn [Main.is_None negb app fst snd].
    match goal with |- context [try_except ?m ?h] =>
      destruct (try_except_returns m h) as (t & r & Hr)
    end.
    + intros e. eexists _, _. reflexivity.
    + rewrite Hr. exists t, r. reflexivity.
  - intros e Hm He. rewrite Hm. cbn [Main.is_None negb].
    rewrite Hm. cbn [Main.is_None negb]. rewrite He. reflexivity.
Qed.

(** X22.  With the model loaded and a non-empty mask over the image
    predicted, [segment_with_evf_sam2] crops as the server does for
    SAM 2.1: to the tight box of the True pixels, padded by 20 on each side
    and clamped to the image, every coordinate of which lies within the
    image.  It returns that crop, or prints the error and the traceback and
    returns None when Pillow refuses the crop. *)
Theorem segment_with_evf_sam2_crops_tight_box
  (g : EvfSamWrapper.evf_globals) (image : Image) (prompt : string)
  (model : EvfModel) (w h : Z) (m : mask) :
  EvfSamWrapper._evf_model g = Some model ->
  size image = (w, h) ->
  evf_predict_mask (EvfSamWrapper._evf_model g) (EvfSamWrapper._evf_tokenizer g)
    (EvfSamWrapper._evf_device g) (EvfSamWrapper._evf_dtype g) image prompt
  = Ok m ->
  over_image m w h ->
  nonempty m ->
  exists (xmin ymin xmax ymax : nat) (b : box Z),
    tight_box m xmin ymin xmax ymax
    /\ b = (Z.max 0 (Z.of_nat xmin - 20), Z.max 0 (Z.of_nat ymin - 20),
            Z.min w (Z.of_nat xmax + 20), Z.min h (Z.of_nat ymax + 20))
    /\ within w h b
    /\ EvfSamWrapper.crop_box (h, w) m = Main.mask_box w h m
    /\ EvfSamWrapper.segment_with_evf_sam2 image prompt g
       = match crop image (Main.box_of_Z b) with
         | Ok cropped => ([], g, Ok (Some cropped))
         | Raised e =>
             (Print ("EVF-SAM2 segmentation error: " ++ str_of_exn e)
              :: print_exc e, g, Ok None)
         end.
Proof.
  intros Hm Hsize Hmask Hover Hne.
  destruct (mask_box_tight w h m Hover Hne)
    as (xmin & ymin & xmax & ymax & HT & Hx & Hy & Hbox).
  exists xmin, ymin, xmax, ymax. eexists. split; [exact HT|].
  split; [reflexivity|]. split; [|split; [apply crop_box_mask_box|]].
  - destruct HT as ([xa Ha] & _ & [yb Hyb] & _ & Hall).
    destruct (Hall _ _ Ha) as [Hy1 _]. destruct (Hall _ _ Hyb) as [_ Hx1].
    unfold within. lia.
  - unfold EvfSamWrapper.segment_with_evf_sam2, sbind, sget, sret, slift.
    rewrite Hm. cbn [Main.is_None app fst snd].
    unfold EvfSamWrapper.segment_body. rewrite Hsize. cbn [fst snd].
    rewrite Hmask. run.
    rewrite crop_box_mask_box, Hbox. run.
    destruct (crop image _) as [cropped|e]; run; [reflexivity|].
    rewrite app_nil_r. reflexivity.
Qed.

End EvfFacts.

(** ** Loops that build lists *)

Section FoldFacts.

Variable E : Type.

(** A loop whose body appends to two lists. *)
Lemma fold_each_pairs {A X Y} (xs : list A)
  (body : list X * list Y -> A -> M E (list X * list Y))
  (ps : A -> list (X * Y)) :
  (forall es ls x, In x xs ->
     snd (body (es, ls) x)
     = Ok (es ++ map fst (ps x), ls ++ map snd (ps x))) ->
  forall es ls,
    snd (fold_each xs (es, ls) body)
    = Ok (es ++ map fst (flat_map ps xs), ls ++ map snd (flat_map ps xs)).
Proof.
  induction xs as [|x xs IH]; intros Hbody es ls; cbn [fold_each flat_map map].
  - rewrite !app_nil_r. reflexivity.
  - assert (Hx := Hbody es ls x (or_introl eq_refl)).
    destruct (body (es, ls) x) as [t o]. cbn [snd] in Hx. subst o.
    rewrite bind_ok. cbn [snd]. rewrite IH.
    + rewrite !map_app, !app_assoc. reflexivity.
    + intros es' ls' y Hy. apply Hbody. right. exact Hy.
Qed.

(** A property of the accumulator that every iteration keeps holds at the
    end. *)
Lemma fold_each_invariant {A B} (Inv : B -> Prop) (xs : list A)
  (body : B -> A -> M E B) :
  (forall acc x t acc', Inv acc -> body acc x = (t, Ok acc') -> Inv acc') ->
  forall acc t acc',
    Inv acc -> fold_each xs acc body = (t, Ok acc') -> Inv acc'.
Proof.
  intros Hbody. induction xs as [|x xs IH]; intros acc t acc' Hacc Hrun;
    cbn [fold_each] in Hrun.
  - injection Hrun as _ <-. exact Hacc.
  - destruct (body acc x) as [t1 [acc1|e]] eqn:Eb; [|discriminate Hrun].
    rewrite bind_ok in Hrun.
    destruct (fold_each xs acc1 body) as [t2 o2] eqn:Ef. cbn [fst snd] in Hrun.
    injection Hrun as _ ->.
    apply (IH acc1 t2 acc'); [|exact Ef]. eapply Hbody; eassumption.
Qed.

End FoldFacts.

(** ** train_classifier.py and eval.py: samples and labels stay aligned *)

Section SamplesFacts.

Context {C : Carriers} {P : PIL} {FS : FileSystem} {B : Bioclip}
  {SB : Supabase} {SK : SklearnLib}.

Lemma train_get_embedding_run (model : BioclipModel)
  (preprocess : BioclipPreprocess) (image_path : string) :
  snd (TrainClassifier.get_embedding model preprocess image_path)
  = Ok (match embedding_at model preprocess image_path with
        | Ok e => Some e
        | Raised _ => None
        end).
Proof.
  unfold TrainClassifier.get_embedding, embedding_at, load_rgb_always.
  destruct (Image_open image_path) as [opened|e]; run; [|reflexivity].
  destruct (convert opened "RGB") as [image|e]; run; [|reflexivity].
  destruct (bioclip_embed model preprocess image) as [v|e]; reflexivity.
Qed.

Lemma eval_get_embedding_run (model : BioclipModel)
  (preprocess : BioclipPreprocess) (image_path : string) :
  snd (Eval.get_embedding model preprocess image_path)
  = Ok (match embedding_at model preprocess image_path with
        | Ok e => Some e
        | Raised _ => None
        end).
Proof.
  unfold Eval.get_embedding, embedding_at, load_rgb_always.
  destruct (Image_open image_path) as [opened|e]; run; [|reflexivity].
  destruct (convert opened "RGB") as [image|e]; run; [|reflexivity].
  destruct (bioclip_embed model preprocess image) as [v|e]; reflexivity.
Qed.


Lemma knn_answer_run (q : list float) (supabase : Client) (k : Z) :
  snd (Eval.classify_with_knn q supabase k) = Ok (knn_answer q supabase k).
Proof.
  unfold knn_answer.
  assert (H : exists t r, Eval.classify_with_knn q supabase k = (t, Ok r)).
  { unfold Eval.classify_with_knn. apply try_except_returns.
    intros e. eexists _, _. reflexivity. }
  destruct H as (t & r & ->). reflexivity.
Qed.


End SamplesFacts.

(** ** sam3_modal.py: the batch pipeline and the HTTP endpoints *)

Section ModalFacts.

Context {C : Carriers} {P : PIL} {RQ : Requests} {MR : ModalRemote}.

Lemma process_one_run (n : nat) (prompt : string)
  (results : list Sam3Modal.batch_result) (i : nat) (img_bytes : Bytes) :
  Sam3Modal.process_one n prompt results (i, img_bytes)
  = ([Print ("Processing " ++ Py.str_of_Z (Z.of_nat i + 1) ++ "/"
             ++ Py.str_of_Z (Z.of_nat n) ++ "...")],
     Ok (results ++ [batch_entry prompt img_bytes])).
Proof.
  unfold Sam3Modal.process_one, batch_entry.
  destruct (segment_remote _ _ _) as [cropped|e]; run; [|reflexivity].
  destruct (embed_remote cropped) as [embedding|e]; reflexivity.
Qed.

(** X25.  [process_batch] never raises and returns one entry per image, in
    the order of the images: the crop and its embedding with no error when
    both remote calls succeed, and otherwise no crop, no embedding and the
    message of the exception; an image that fails does not stop the batch.
    It prints one progress line per image. *)
Theorem process_batch_one_entry_per_image (images_bytes : list Bytes)
  (prompt : string) :
  Sam3Modal.process_batch images_bytes prompt
  = (map (fun i =>
            Print ("Processing " ++ Py.str_of_Z (Z.of_nat i + 1) ++ "/"
                   ++ Py.str_of_Z (Z.of_nat (List.length images_bytes))
                   ++ "..."))
       (seq 0 (List.length images_bytes)),
     Ok (map (batch_entry prompt) images_bytes)).
Proof.
  unfold Sam3Modal.process_batch.
  set (n := List.length images_bytes).
  assert (H : forall (k : nat) (imgs : list Bytes) (results : list Sam3Modal.batch_result),
             fold_each (combine (seq k (List.length imgs)) imgs) results
               (Sam3Modal.process_one n prompt)
             = (map (fun i =>
                       Print ("Processing " ++ Py.str_of_Z (Z.of_nat i + 1) ++ "/"
                              ++ Py.str_of_Z (Z.of_nat n) ++ "..."))
                  (seq k (List.length imgs)),
                Ok (results ++ map (batch_entry prompt) imgs))).
  { intros k imgs. revert k.
    induction imgs as [|img imgs IH]; intros k results;
      cbn [List.length seq combine fold_each map].
    - rewrite app_nil_r. reflexivity.
    - rewrite process_one_run, bind_ok, IH. cbn [fst snd app].
      rewrite <- app_assoc. reflexivity. }
  exact (H 0%nat images_bytes []).
Qed.

(** X26.  [embed_endpoint] never raises and prints nothing: it answers
    with an embedding or with an error.  It answers with an embedding
    exactly when the body holds under "image" a non-empty string that
    decodes from base64 to at least 100 bytes for which the remote embedder
    returns; the answer is then that embedding. *)
Theorem embed_endpoint_answers (item : list (string * json)) :
  exists r : json,
    Sam3Modal.embed_endpoint item = ([], Ok r)
    /\ ((exists msg, r = Sam3Modal.error_response msg)
        \/ (exists (s : string) (image_bytes : Bytes) (embedding : list float),
              Json.dict_lookup item "image" = Some (JStr s)
              /\ s <> ""
              /\ b64decode s = Ok image_bytes
              /\ (100 <= bytes_length image_bytes)%Z
              /\ embed_remote image_bytes = Ok embedding
              /\ r = JObj [("embedding", JArr (map JNum embedding))]))
    /\ (forall (s : string) (image_bytes : Bytes) (embedding : list float),
          Json.dict_lookup item "image" = Some (JStr s) ->
          s <> "" ->
          b64decode s = Ok image_bytes ->
          (100 <= bytes_length image_bytes)%Z ->
          embed_remote image_bytes = Ok embedding ->
          r = JObj [("embedding", JArr (map JNum embedding))]).
Proof.
  unfold Sam3Modal.embed_endpoint, Sam3Modal.item_get.
  destruct (Json.dict_lookup item "image") as [v|] eqn:Ev.
  2:{ eexists. split; [reflexivity|]. split; [left; eexists; reflexivity|].
      intros s ib emb H1 _ _ _ _. discriminate H1. }
  destruct (Json.falsy v) eqn:Ef.
  { eexists. split; [reflexivity|]. split; [left; eexists; reflexivity|].
    intros s ib emb H1 H2 _ _ _. injection H1 as ->. exfalso. apply H2.
    apply String.eqb_eq. exact Ef. }
  unfold Sam3Cloud.json_b64decode.
  destruct v as [ |b|q|s|xs|kvs];
    try (eexists; split; [reflexivity|]; split; [left; eexists; reflexivity|];
         intros s' ib emb H1 _ _ _ _; discriminate H1).
  destruct (b64decode s) as [image_bytes|e] eqn:Ed; run.
  2:{ eexists. split; [reflexivity|]. split; [left; eexists; reflexivity|].
      intros s' ib emb H1 _ H3 _ _. injection H1 as <-. congruence. }
  destruct (Z.ltb_spec (bytes_length image_bytes) 100) as [Hlt|Hge].
  { eexists. split; [reflexivity|]. split; [left; eexists; reflexivity|].
    intros s' ib emb H1 _ H3 H4 _. injection H1 as <-.
    assert (ib = image_bytes) by congruence. subst ib. lia. }
  destruct (embed_remote image_bytes) as [embedding|e] eqn:Ee; run.
  - eexists. split; [reflexivity|]. split.
    + right. exists s, image_bytes, embedding. repeat split; try assumption.
      intros ->. discriminate Ef.
    + intros s' ib emb H1 _ H3 _ H5. injection H1 as <-.
      assert (ib = image_bytes) by congruence. subst ib.
      assert (emb = embedding) by congruence. subst emb. reflexivity.
  - eexists. split; [reflexivity|]. split; [left; eexists; reflexivity|].
    intros s' ib emb H1 _ H3 _ H5. injection H1 as <-.
    assert (ib = image_bytes) by congruence. subst ib. congruence.
Qed.

(** Decoding leaves no trace. *)
Lemma json_b64decode_silent (v : json) :
  fst (Sam3Cloud.json_b64decode v) = [].
Proof. destruct v; reflexivity. Qed.

(** X27.  [segment_endpoint] prints nothing and, unlike [embed_endpoint],
    lets failures escape: it raises exactly the exception of the base64
    decoding of a non-empty image, or that of the remote segmenter.  When
    it answers, the answer is the error "No image provided" or the encoded
    result with its format, which is "png" exactly when the body holds the
    string "transparent" under "bg_mode", and "jpeg" otherwise. *)
Theorem segment_endpoint_failures_escape (item : list (string * json)) :
  fst (Sam3Modal.segment_endpoint item) = []
  /\ (forall e : exn,
        snd (Sam3Modal.segment_endpoint item) = Raised e ->
        exists v : json,
          Json.dict_lookup item "image" = Some v
          /\ Json.falsy v = false
          /\ (snd (Sam3Cloud.json_b64decode v) = Raised e
              \/ exists image_bytes : Bytes,
                   snd (Sam3Cloud.json_b64decode v) = Ok image_bytes
                   /\ segment_remote image_bytes
                        (Sam3Modal.item_get_default item "prompt"
                           (JStr "mouse body"))
                        (Sam3Modal.item_get_default item "bg_mode"
                           (JStr "mask_crop"))
                      = Raised e))
  /\ (forall r : json,
        snd (Sam3Modal.segment_endpoint item) = Ok r ->
        (r = Sam3Modal.error_response "No image provided"
         /\ Json.falsy (Sam3Modal.item_get item "image") = true)
        \/ exists (result : Bytes) (fmt : string),
             r = JObj [("image", JStr (b64encode result));
                       ("format", JStr fmt)]
             /\ (fmt = "png" \/ fmt = "jpeg")
             /\ (fmt = "png"
                 <-> Json.dict_lookup item "bg_mode"
                     = Some (JStr "transparent"))).
Proof.
  assert (Hfmt : forall fmt : string,
            fmt = (if Json.is_str "transparent"
                        (Sam3Modal.item_get_default item "bg_mode"
                           (JStr "mask_crop"))
                   then "png" else "jpeg") ->
            (fmt = "png" \/ fmt = "jpeg")
            /\ (fmt = "png"
                <-> Json.dict_lookup item "bg_mode"
                    = Some (JStr "transparent"))).
  { intros fmt ->. unfold Sam3Modal.item_get_default.
    destruct (Json.dict_lookup item "bg_mode") as [[ |b|q|s|xs|kvs]|];
      cbn [Json.is_str];
      try (split; [right; reflexivity | split; discriminate]).
    destruct (String.eqb_spec s "transparent") as [->|Hs].
    - split; [left; reflexivity | split; reflexivity].
    - split; [right; reflexivity|]. split; [discriminate|].
      intros H. injection H as ->. now elim Hs. }
  unfold Sam3Modal.segment_endpoint, Sam3Modal.item_get.
  destruct (Json.dict_lookup item "image") as [v|] eqn:Ev.
  2:{ cbn [Json.falsy ret fst snd]. split; [reflexivity|].
      split; [intros e H; discriminate H|].
      intros r H. injection H as <-. left. split; reflexivity. }
  destruct (Json.falsy v) eqn:Ef.
  { cbn [ret fst snd]. split; [reflexivity|].
    split; [intros e H; discriminate H|].
    intros r H. injection H as <-. left. split; reflexivity. }
  destruct (Sam3Cloud.json_b64decode v) as [td [image_bytes|e0]] eqn:Ed.
  2:{ assert (Htd : td = [])
        by (pose proof (json_b64decode_silent v) as H; rewrite Ed in H;
            exact H).
      subst td. run. split; [reflexivity|]. split.
      - intros e H. injection H as <-. exists v.
        split; [reflexivity|]. split; [exact Ef|]. left. rewrite Ed.
        reflexivity.
      - intros r H. discriminate H. }
  assert (Htd : td = [])
    by (pose proof (json_b64decode_silent v) as H; rewrite Ed in H; exact H).
  subst td. run.
  destruct (segment_remote image_bytes _ _) as [result|e0] eqn:Er; run.
  - split; [reflexivity|]. split; [intros e H; discriminate H|].
    intros r H. injection H as <-. right. eexists result, _.
    split; [reflexivity|]. apply Hfmt. reflexivity.
  - split; [reflexivity|]. split.
    + intros e H. injection H as <-. exists v.
      split; [reflexivity|]. split; [exact Ef|]. right.
      exists image_bytes. split; [rewrite Ed; reflexivity | exact Er].
    + intros r H. discriminate H.
Qed.

End ModalFacts.

(** ** sam3_cloud.py: the readiness check *)

Section ReadyFacts.

Context {C : Carriers} {P : PIL} {RQ : Requests} {RG : RequestsGet}.

(** X28.  [is_endpoint_ready] never raises and prints nothing.  It answers
    True exactly when the endpoint URL and the token are both set and not
    empty and the GET request, with a timeout of 10 seconds, returns with
    status 200; a request that raises counts as not ready. *)
Theorem is_endpoint_ready_answers (cfg : Sam3Cloud.config) :
  exists b : bool,
    Sam3Cloud.is_endpoint_ready cfg = ([], Ok b)
    /\ (b = true
        <-> truthy (Sam3Cloud.SAM3_ENDPOINT_URL cfg) = true
            /\ truthy (Sam3Cloud.HF_TOKEN cfg) = true
            /\ exists r : response,
                 requests_get (str_of_opt (Sam3Cloud.SAM3_ENDPOINT_URL cfg))
                   (str_of_opt (Sam3Cloud.HF_TOKEN cfg)) 10
                 = Ok r
                 /\ status_code r = 200%Z).
Proof.
  unfold Sam3Cloud.is_endpoint_ready.
  destruct (truthy (Sam3Cloud.SAM3_ENDPOINT_URL cfg)) eqn:Eu; cbn [negb orb].
  2:{ exists false. split; [reflexivity|].
      split; [discriminate | intros [H _]; discriminate H]. }
  destruct (truthy (Sam3Cloud.HF_TOKEN cfg)) eqn:Et; cbn [negb].
  2:{ exists false. split; [reflexivity|].
      split; [discriminate | intros (_ & H & _); discriminate H]. }
  destruct (requests_get _ _ _) as [r|e] eqn:Eg; run.
  - exists (status_code r =? 200)%Z. split; [reflexivity|]. split.
    + intros H. apply Z.eqb_eq in H. repeat split. exists r. split;
        [reflexivity | exact H].
    + intros (_ & _ & r' & Hr & Hs). injection Hr as <-.
      apply Z.eqb_eq. exact Hs.
  - exists false. split; [reflexivity|].
    split; [discriminate | intros (_ & _ & r' & Hr & _); discriminate Hr].
Qed.

End ReadyFacts.
(** * Part VI: the further properties at work

    Each property with hypotheses is applied in the world of [Demo] or in
    that of [Lab], where its hypotheses hold by computation. *)

(** Membership in a list that computes. *)
Ltac in_list := vm_compute; repeat (first [left; reflexivity | right]).

Ltac distinct :=
  repeat constructor; cbn [In]; intros H;
  repeat (destruct H as [H|H]; [discriminate H|]); exact H.

Section DemoRuns.

Existing Instance Demo.carriers.
Existing Instance Demo.pil.
Existing Instance Demo.file_system.
Existing Instance Demo.random.
Existing Instance Demo.zip_files.
Existing Instance Demo.owlv2.
Existing Instance Demo.requests.
Existing Instance Demo.bioclip.
Existing Instance Demo.sklearn.
Existing Instance Demo.sam2.
Existing Instance Demo.main_deps.
Existing Instance Demo.supabase.
Existing Instance Demo.environ.
Existing Instance Lab.requests_get.
Existing Instance Lab.startup.
Existing Instance Lab.evf.
Existing Instance Lab.modal.

(** ** split_data.py *)


(** ** segment.py *)

(** The one image saved by the batch of [Demo] is [empty.jpg], under the
    output directory of its label. *)
Lemma crop_genitals_saves_under_output_witness :
  exists label fname,
    In (label, fname) (crop_candidates "raw")
    /\ "cropped/ESTRUS/empty.jpg"
       = Py.path_join (Py.path_join "cropped" label) fname
    /\ @None string = None /\ @None Z = None.
Proof.
  apply (proj1 (crop_genitals_saves_under_output (C := Demo.carriers) "raw" "cropped"
                  "mouse genitalia" (1 # 10))
           Demo.empty_jpg "cropped/ESTRUS/empty.jpg" None None).
  in_list.
Defined.

(** A detection box well inside a 100 x 400 image. *)
Lemma pad_box_contains_detection_witness :
  exists x0 y0 x1 y1 : float,
    Segment.pad_box 100 400 (30, 200, 70, 260) = (x0, y0, x1, y1)
    /\ x0 <= 30 /\ 70 <= x1 /\ y0 <= 200 /\ 260 <= y1
    /\ (x0 == 30 - 20 \/ (x0 == 0 /\ 30 <= 20))
    /\ (y0 == 200 - 20 \/ (y0 == 0 /\ 200 <= 20))
    /\ (x1 == 70 + 20 \/ (x1 == inject_Z 100 /\ inject_Z 100 <= 70 + 20))
    /\ (y1 == 260 + 20 \/ (y1 == inject_Z 400 /\ inject_Z 400 <= 260 + 20)).
Proof.
  apply (pad_box_contains_detection 100 400 30 200 70 260); discriminate.
Defined.

(** ** main.py: the segmenters *)

Lemma segment_image_never_raises_witness :
  (exists t r,
      Main.segment_image (Demo.loaded "sam2" true) Demo.upload = (t, Ok r))
  /\ Main.segment_image (Demo.loaded "none" true) Demo.upload = ([], Ok None).
Proof.
  split.
  - apply (proj1 (segment_image_never_raises (Demo.loaded "sam2" true)
                    Demo.upload)).
    discriminate.
  - apply (proj2 (segment_image_never_raises (Demo.loaded "none" true)
                    Demo.upload)).
    cbn [In Main.SEGMENTATION_MODEL Demo.loaded]. intros H.
    repeat (destruct H as [H|H]; [discriminate H|]). exact H.
Defined.

(** The one box the detector of [Demo] finds in the upload is cropped as it
    is. *)
Lemma segment_with_owlv2_crops_best_box_witness :
  Main.segment_with_owlv2 (Demo.loaded "owlv2" true) Demo.upload
    "mouse genitalia"
  = ([], Ok (Some {| Demo.pic_name := "upload#crop";
                     Demo.pic_size := (50, 50)%Z;
                     Demo.pic_mode := "RGB" |})).
Proof.
  exact (proj2 (segment_with_owlv2_crops_best_box (Demo.loaded "owlv2" true)
                  Demo.upload "mouse genitalia" tt tt
                  {| scores := [9 # 10]; boxes := [(300, 10, 350, 60)] |}
                  eq_refl eq_refl eq_refl)
           0%nat (300, 10, 350, 60) eq_refl eq_refl).
Defined.

Lemma segment_with_sam2_without_mask_witness :
  Main.segment_with_sam2 Demo.unloaded Demo.upload = ([], Ok None).
Proof.
  exact (proj1 (proj2 (segment_with_sam2_without_mask Demo.unloaded
                         Demo.upload))
           (or_introl eq_refl)).
Defined.

(** ** ingest.py *)


(** ** The linear probes *)


(** ** sam3_cloud.py *)

(** A file that does not open; and a file that is segmented and saved as a
    PNG, the extension being taken whatever its case. *)
Lemma segment_and_save_outcomes_witness :
  Sam3Cloud.segment_and_save Demo.sam3_configured "raw/ESTRUS/broken.jpg"
    "out/broken.png" "mouse genitalia" "mask_crop" "black"
  = ([], Ok (false, Some "Failed to load image: cannot identify image file"))
  /\ exists (t0 : list event) (result : Image),
       [HttpPost "https://sam3" "raw/ESTRUS/m1.jpg" "mouse genitalia"
          "mask_crop" "black" 120;
        ImageSave {| Demo.pic_name := "segmented"; Demo.pic_size := (4, 3)%Z;
                     Demo.pic_mode := "RGB" |}
          "out/m1.PNG" (Some "PNG") None]
       = t0 ++ [ImageSave result "out/m1.PNG" (Some "PNG") None]
       /\ saved_paths t0 = [].
Proof.
  split.
  - exact (proj1 (proj2 (segment_and_save_outcomes Demo.sam3_configured
                           "raw/ESTRUS/broken.jpg" "out/broken.png"
                           "mouse genitalia" "mask_crop" "black"))
             (Exc OtherException "cannot identify image file") eq_refl).
  - exact (proj2 (proj2 (segment_and_save_outcomes Demo.sam3_configured
                           "raw/ESTRUS/m1.jpg" "out/m1.PNG"
                           "mouse genitalia" "mask_crop" "black"))
             _ eq_refl).
Defined.

(** ** main.py: start-up *)

(** BioCLIP loads in [Demo]: the start-up returns. *)
Lemma load_models_fails_only_without_bioclip_witness :
  exists t g',
    Main.load_models (Lab.at_import "evf" true) = (t, g', Ok tt)
    /\ Main.bioclip_model g' = Some tt
    /\ Main.bioclip_preprocess g' = Some tt.
Proof.
  exact (proj2 (load_models_fails_only_without_bioclip
                  (Lab.at_import "evf" true))
           tt tt eq_refl).
Defined.

(** The start-up returns for each of the three configurations. *)
Lemma startup_returns (segmentation_model : string) (use_linear_probe : bool) :
  snd (Main.load_models (Lab.at_import segmentation_model use_linear_probe))
  = Ok tt ->
  Main.load_models (Lab.at_import segmentation_model use_linear_probe)
  = (fst (fst (Main.load_models
                 (Lab.at_import segmentation_model use_linear_probe))),
     snd (fst (Main.load_models
                 (Lab.at_import segmentation_model use_linear_probe))),
     Ok tt).
Proof.
  destruct (Main.load_models _) as [[t g'] o]. cbn [fst snd].
  intros ->. reflexivity.
Defined.

(** With "sam2", whose loading goes through, segmentation is enabled and
    the segmenter has its model and processor; with "sam3_cloud" it is not
    enabled. *)
Lemma health_check_after_startup_witness :
  segmenter_ready (snd (fst (Main.load_models (Lab.at_import "sam2" true))))
  /\ Main.segmentation_enabled
       (Main.health_check
          (snd (fst (Main.load_models (Lab.at_import "sam3_cloud" true)))))
     = false.
Proof.
  split.
  - apply (proj1 (health_check_after_startup (Lab.at_import "sam2" true)
                    _ _ eq_refl eq_refl eq_refl
                    (startup_returns "sam2" true ltac:(vm_compute; reflexivity)))).
    vm_compute. reflexivity.
  - apply (proj2 (health_check_after_startup (Lab.at_import "sam3_cloud" true)
                    _ _ eq_refl eq_refl eq_refl
                    (startup_returns "sam3_cloud" true
                       ltac:(vm_compute; reflexivity))));
      discriminate.
Defined.

(** After the start-up with the linear probe disabled, POST /classify
    answers 400. *)
Lemma endpoints_after_startup_witness :
  exists detail,
    snd (Main.classify_image
           (snd (fst (Main.load_models (Lab.at_import "sam2" false))))
           "upload")
    = Raised (HTTPException 400 detail).
Proof.
  apply (proj2 (endpoints_after_startup (D := Demo.main_deps)
                  (Lab.at_import "sam2" false)
                  _ _ "upload"
                  (startup_returns "sam2" false
                     ltac:(vm_compute; reflexivity)))).
  reflexivity.
Defined.

(** ** evf_sam_wrapper.py *)

Lemma segment_with_evf_sam2_raises_only_while_loading_witness :
  (exists t r,
      EvfSamWrapper.segment_with_evf_sam2 Demo.upload "mouse genitalia"
        Lab.evf_loaded
      = (t, Lab.evf_loaded, Ok r))
  /\ EvfSamWrapper.segment_with_evf_sam2 Demo.upload "mouse genitalia"
       Lab.evf_at_import
     = ([], Lab.evf_at_import,
        Raised (Exc ImportError "No module named 'model'")).
Proof.
  split.
  - exact (proj1 (segment_with_evf_sam2_raises_only_while_loading
                    Lab.evf_loaded Demo.upload "mouse genitalia")
             tt eq_refl).
  - exact (proj2 (segment_with_evf_sam2_raises_only_while_loading
                    Lab.evf_at_import Demo.upload "mouse genitalia")
             (Exc ImportError "No module named 'model'") eq_refl eq_refl).
Defined.

(** The demo mask over the 4 x 3 upload. *)
Lemma segment_with_evf_sam2_crops_tight_box_witness :
  exists (xmin ymin xmax ymax : nat) (b : box Z),
    tight_box Demo.demo_mask xmin ymin xmax ymax
    /\ b = (Z.max 0 (Z.of_nat xmin - 20), Z.max 0 (Z.of_nat ymin - 20),
            Z.min 4 (Z.of_nat xmax + 20), Z.min 3 (Z.of_nat ymax + 20))
    /\ within 4 3 b
    /\ EvfSamWrapper.crop_box (3, 4)%Z Demo.demo_mask
       = Main.mask_box 4 3 Demo.demo_mask
    /\ EvfSamWrapper.segment_with_evf_sam2 Demo.upload "mouse genitalia"
         Lab.evf_loaded
       = match crop Demo.upload (Main.box_of_Z b) with
         | Ok cropped => ([], Lab.evf_loaded, Ok (Some cropped))
         | Raised e =>
             (Print ("EVF-SAM2 segmentation error: " ++ str_of_exn e)
              :: print_exc e, Lab.evf_loaded, Ok None)
         end.
Proof.
  exact (segment_with_evf_sam2_crops_tight_box Lab.evf_loaded Demo.upload
           "mouse genitalia" tt 4 3 Demo.demo_mask eq_refl eq_refl eq_refl
           demo_mask_over_image demo_mask_nonempty).
Defined.

(** ** eval.py: the evaluation loop *)


(** ** sam3_modal.py *)

(** A body with an image and a transparent background: the answer is a
    PNG. *)
Lemma segment_endpoint_failures_escape_witness :
  (JObj [("image", JStr "aGVsbG8=#segmented"); ("format", JStr "png")]
   = Sam3Modal.error_response "No image provided"
   /\ Json.falsy
        (Sam3Modal.item_get
           [("image", JStr "aGVsbG8="); ("bg_mode", JStr "transparent")]
           "image")
      = true)
  \/ exists (result : string) (fmt : string),
       JObj [("image", JStr "aGVsbG8=#segmented"); ("format", JStr "png")]
       = JObj [("image", JStr result); ("format", JStr fmt)]
       /\ (fmt = "png" \/ fmt = "jpeg")
       /\ (fmt = "png"
           <-> Json.dict_lookup
                 [("image", JStr "aGVsbG8="); ("bg_mode", JStr "transparent")]
                 "bg_mode"
               = Some (JStr "transparent")).
Proof.
  exact (proj2 (proj2 (segment_endpoint_failures_escape
                         [("image", JStr "aGVsbG8=");
                          ("bg_mode", JStr "transparent")]))
           _ eq_refl).
Defined.

Lemma embed_endpoint_answers_witness :
  Sam3Modal.embed_endpoint [("image", JStr "aGVsbG8=")]
  = ([], Ok (JObj [("embedding", JArr [JNum 1; JNum 0])])).
Proof.
  destruct (embed_endpoint_answers [("image", JStr "aGVsbG8=")])
    as (r & Hrun & _ & Hr).
  rewrite Hrun.
  rewrite (Hr "aGVsbG8=" "aGVsbG8=" [1; 0] eq_refl ltac:(discriminate)
             eq_refl ltac:(discriminate) eq_refl).
  reflexivity.
Defined.

End DemoRuns.

Section LabRuns.

Existing Instance Demo.carriers.
Existing Instance Demo.pil.
Existing Instance Lab.file_system.
Existing Instance Demo.random.
Existing Instance Lab.zip_files.
Existing Instance Lab.owlv2.
Existing Instance Demo.requests.
Existing Instance Demo.bioclip.
Existing Instance Demo.sklearn.
Existing Instance Lab.supabase.
Existing Instance Demo.environ.

(** ** split_data.py on a flat directory *)

(** The group of ESTRUS in [flat]: two files, in the order of the
    listing. *)
Lemma collect_flat_groups_by_label_witness :
  In "ESTRUS" SplitData.stage_dirs
  /\ [("estrus_1.jpg", "flat/estrus_1.jpg");
      ("ESTRUS_2.jpeg", "flat/ESTRUS_2.jpeg")] <> []
  /\ [("estrus_1.jpg", "flat/estrus_1.jpg");
      ("ESTRUS_2.jpeg", "flat/ESTRUS_2.jpeg")]
     = map (fun f => (f, Py.path_join "flat" f))
         (filter (fun f => SplitData.parse_label f =? "ESTRUS")
            (filter SplitData.eligible (listdir "flat"))).
Proof.
  apply (proj1 (proj2 (collect_flat_groups_by_label "flat")) "ESTRUS").
  in_list.
Defined.

Lemma split_dataset_flat_copies_into_created_dirs_witness :
  exists side fname,
    (side = "train" \/ side = "test")
    /\ In fname (listdir "flat")
    /\ SplitData.eligible fname = true
    /\ "flat/3_Diestrus.png" = Py.path_join "flat" fname
    /\ "out/test/DIESTRUS/3_Diestrus.png"
       = Py.path_join
           (Py.path_join (Py.path_join "out" side)
              (SplitData.parse_label fname)) fname
    /\ In (SplitData.parse_label fname) SplitData.stage_dirs
    /\ In (Makedirs
             (Py.path_join (Py.path_join "out" side)
                (SplitData.parse_label fname)))
          (fst (SplitData.split_dataset "flat" "out" (4 # 5))).
Proof.
  apply (split_dataset_flat_copies_into_created_dirs "flat" "out" (4 # 5)
           "flat/3_Diestrus.png" "out/test/DIESTRUS/3_Diestrus.png");
    [reflexivity | reflexivity | in_list].
Defined.

(** ** unpack_zips.py *)


(** ** segment.py *)

(** The second box has the higher score: the crop is its padded box, 80
    wide and 100 high. *)
Lemma crop_file_saves_best_box_witness :
  Segment.crop_file tt tt "mouse genitalia" (1 # 10) "raw/ESTRUS"
    "cropped/ESTRUS" "m1.jpg"
  = ([ImageSave
        {| Demo.pic_name := "raw/ESTRUS/m1.jpg#crop";
           Demo.pic_size := (80, 100)%Z; Demo.pic_mode := "RGB" |}
        "cropped/ESTRUS/m1.jpg" None None],
     Ok tt).
Proof.
  exact (crop_file_saves_best_box (C := Demo.carriers) (O := Lab.owlv2) tt tt "mouse genitalia" (1 # 10)
           "raw/ESTRUS" "cropped/ESTRUS" "m1.jpg"
           {| Demo.pic_name := "raw/ESTRUS/m1.jpg";
              Demo.pic_size := (100, 400)%Z; Demo.pic_mode := "RGB" |}
           {| Demo.pic_name := "raw/ESTRUS/m1.jpg";
              Demo.pic_size := (100, 400)%Z; Demo.pic_mode := "RGB" |}
           {| Demo.pic_name := "raw/ESTRUS/m1.jpg#crop";
              Demo.pic_size := (80, 100)%Z; Demo.pic_mode := "RGB" |}
           Lab.two_boxes 1%nat (30, 200, 70, 260) 100 400
           eq_refl eq_refl eq_refl ltac:(discriminate) eq_refl eq_refl
           eq_refl eq_refl).
Defined.

(** ** ingest.py *)

(** Without --clear nothing is deleted; with --clear and a directory that
    does not exist, the table is cleared and nothing inserted. *)
Lemma ingest_main_clears_before_loading_witness :
  existsb is_delete (fst (Ingest.main (Lab.ingest_args "flat" false))) = false
  /\ (snd (Ingest.main (Lab.ingest_args "missing" true)) = Ok tt
      /\ In (TableDelete "reference_images")
           (fst (Ingest.main (Lab.ingest_args "missing" true)))
      /\ existsb is_insert (fst (Ingest.main (Lab.ingest_args "missing" true)))
         = false).
Proof.
  split.
  - exact (proj1 (ingest_main_clears_before_loading
                    (Lab.ingest_args "flat" false)) eq_refl).
  - exact (proj2 (ingest_main_clears_before_loading (SB := Lab.supabase)
                    (Lab.ingest_args "missing" true))
             tt eq_refl eq_refl eq_refl eq_refl eq_refl
             (or_intror eq_refl)).
Defined.

(** ** eval.py: the k-NN classifier *)

Lemma classify_with_knn_never_raises_witness :
  Eval.classify_with_knn [1; 0] tt 0
  = ([Rpc "match_reference_images" [1; 0] 0;
      Print "k-NN RPC Error: connection refused"], Ok "ERROR")
  /\ Eval.classify_with_knn [1; 0] tt 1
     = ([Rpc "match_reference_images" [1; 0] 1], Ok "UNKNOWN")
  /\ exists msg,
       Eval.classify_with_knn [1; 0] tt 2
       = ([Rpc "match_reference_images" [1; 0] 2; Print msg], Ok "ERROR").
Proof.
  split; [|split].
  - exact (proj1 (proj2 (classify_with_knn_never_raises
                           (SB := Lab.supabase) [1; 0] tt 0))
             (Exc OtherException "connection refused") eq_refl).
  - exact (proj1 (proj2 (proj2 (classify_with_knn_never_raises
                                  (SB := Lab.supabase) [1; 0] tt 1)))
             (JArr []) eq_refl eq_refl).
  - exact (proj2 (proj2 (proj2 (classify_with_knn_never_raises
                                  (SB := Lab.supabase) [1; 0] tt 2)))
             Lab.one_row_without_label (JObj [("id", JNum 7)]) eq_refl
             (or_intror (or_introl eq_refl)) eq_refl).
Defined.

Lemma three_labels_distinct :
  NoDup (map Py.upper ["metestrus"; "estrus"; "Diestrus"]).
Proof. distinct. Defined.


End LabRuns.
